(** * AWS perimeter guard: the association-resolution engine

    A shallow embedding of the domain entities ([ResourceType], [WebACL],
    [Resource], [ScanResult]), of the boto3 adapter's index builders and of the
    scanner service, followed by the properties of the specification; then of
    the adapter's enumerations and WAFv2 calls, of the CSV exporter and of the
    Lambda handler, with further properties of the code.

    Conventions of the embedding:
    - a Python [str] is a [string]; [None]-able fields are [option]s;
    - a [dict] keyed by strings is a [gmap string _];
    - a raised exception is the [Raise] branch of [result]; a [try]/[except]
      block is [try_except];
    - a Python [float] is the rational it denotes, and float arithmetic
      rounds the exact result with a rounding [rnd] taken as a parameter;
    - [datetime.utcnow()] reads a clock that is part of the scan state;
    - log calls are not part of the model: no function reads the log back. *)

From Stdlib Require Import ZArith QArith Qround Lia List String Ascii Bool.
From stdpp Require Import gmap strings list fin_maps.

Close Scope Q_scope.
Local Open Scope string_scope.

(** ** Exceptions *)

Inductive exn : Type :=
| IndexError
| ValueError
| ZeroDivisionError
| ClientError (msg : string)
| OtherException (msg : string).

Inductive result (A : Type) : Type :=
| Ok (a : A)
| Raise (e : exn).
Arguments Ok {A} a.
Arguments Raise {A} e.

#[global] Instance result_ret : MRet result := fun A a => Ok a.
#[global] Instance result_bind : MBind result := fun A B k m =>
  match m with
  | Ok a => k a
  | Raise e => Raise e
  end.

#[global] Instance result_fmap : FMap result := fun A B f m =>
  match m with
  | Ok a => Ok (f a)
  | Raise e => Raise e
  end.

(** [try: body except (e1, e2, ...): handler] *)
Definition try_except {A : Type} (body : result A) (catches : exn -> bool)
    (handler : exn -> result A) : result A :=
  match body with
  | Ok a => Ok a
  | Raise e => if catches e then handler e else Raise e
  end.

(** [str(e)] *)
Definition exn_str (e : exn) : string :=
  match e with
  | IndexError => "list index out of range"
  | ValueError => "empty separator"
  | ZeroDivisionError => "division by zero"
  | ClientError msg => msg
  | OtherException msg => msg
  end.

(** ** [src/domain/value_objects/resource_type.py] *)

Module ResourceType.

Inductive t : Type :=
| ALB
| CLOUDFRONT
| API_GATEWAY_REST
| API_GATEWAY_HTTP
| APPSYNC
| COGNITO
| APP_RUNNER
| VERIFIED_ACCESS.

#[global] Instance eq_dec : EqDecision t.
Proof. solve_decision. Defined.

Definition value (rt : t) : string :=
  match rt with
  | ALB => "APPLICATION_LOAD_BALANCER"
  | CLOUDFRONT => "CLOUDFRONT_DISTRIBUTION"
  | API_GATEWAY_REST => "API_GATEWAY_REST_API"
  | API_GATEWAY_HTTP => "API_GATEWAY_HTTP_API"
  | APPSYNC => "APPSYNC_GRAPHQL_API"
  | COGNITO => "COGNITO_USER_POOL"
  | APP_RUNNER => "APP_RUNNER_SERVICE"
  | VERIFIED_ACCESS => "VERIFIED_ACCESS_INSTANCE"
  end.

Definition is_cloudfront_scope (rt : t) : bool := bool_decide (rt = CLOUDFRONT).

End ResourceType.

(** ** [src/domain/entities/web_acl.py] *)

Module WebACL.

Record t : Type := mk {
  arn : string;
  name : string;
  id : string;
  scope : string;
  region : string;
  description : option string;
  managed_by_firewall_manager : bool
}.

Definition is_global (w : t) : bool := bool_decide (scope w = "CLOUDFRONT").
Definition is_regional (w : t) : bool := bool_decide (scope w = "REGIONAL").

End WebACL.

(** ** [src/domain/entities/resource.py] *)

(** A [datetime] is the reading of the scan clock. *)
Definition datetime : Type := nat.

Module Resource.

Record t : Type := mk {
  arn : string;
  resource_type : ResourceType.t;
  region : string;
  account_id : string;
  name : option string;
  web_acl : option WebACL.t;
  fronted_by_resource_arn : option string;
  fronted_by_waf : option WebACL.t;
  fronted_by_notes : option string;
  is_public : bool;
  tags : gmap string string;
  scanned_at : option datetime
}.

(** Attribute assignments [resource.web_acl = ...] and the like. *)
Definition set_web_acl (r : t) (w : option WebACL.t) : t :=
  mk (arn r) (resource_type r) (region r) (account_id r) (name r)
     w (fronted_by_resource_arn r) (fronted_by_waf r) (fronted_by_notes r)
     (is_public r) (tags r) (scanned_at r).

Definition set_fronted_by (r : t) (farn : option string)
    (fwaf : option WebACL.t) (fnotes : option string) : t :=
  mk (arn r) (resource_type r) (region r) (account_id r) (name r)
     (web_acl r) farn fwaf fnotes
     (is_public r) (tags r) (scanned_at r).

Definition set_scanned_at (r : t) (d : option datetime) : t :=
  mk (arn r) (resource_type r) (region r) (account_id r) (name r)
     (web_acl r) (fronted_by_resource_arn r) (fronted_by_waf r)
     (fronted_by_notes r) (is_public r) (tags r) d.

Definition has_waf (r : t) : bool :=
  match web_acl r with Some _ => true | None => false end.

Definition get_waf_arn (r : t) : option string := WebACL.arn <$> web_acl r.
Definition get_waf_name (r : t) : option string := WebACL.name <$> web_acl r.

(** [if self.fronted_by_waf:] a [WebACL] object is always truthy. *)
Definition truthy_waf (w : option WebACL.t) : bool :=
  match w with Some _ => true | None => false end.

Definition is_compliant (r : t) : bool :=
  if has_waf r then true
  else if truthy_waf (fronted_by_waf r) then true
  else if bool_decide (resource_type r = ResourceType.CLOUDFRONT) then false
  else if bool_decide (resource_type r = ResourceType.ALB) && is_public r then false
  else if bool_decide (resource_type r = ResourceType.API_GATEWAY_REST) && is_public r
       then false
  else if bool_decide (resource_type r = ResourceType.API_GATEWAY_HTTP) then true
  else true.

Definition get_compliance_status (r : t) : string :=
  if has_waf r then "COMPLIANT"
  else if truthy_waf (fronted_by_waf r) then "COMPLIANT_FRONTED_BY_WAF"
  else if negb (is_compliant r) then "NON_COMPLIANT"
  else "COMPLIANT_NO_WAF_REQUIRED".

End Resource.

(** The Compliance Evaluator as the specification words it: a cascade of
    cases on the populated resource. *)
Definition reference_status (r : Resource.t) : string :=
  match Resource.web_acl r with
  | Some _ => "COMPLIANT"
  | None =>
    match Resource.fronted_by_waf r with
    | Some _ => "COMPLIANT_FRONTED_BY_WAF"
    | None =>
      match Resource.resource_type r with
      | ResourceType.CLOUDFRONT => "NON_COMPLIANT"
      | ResourceType.ALB =>
          if Resource.is_public r then "NON_COMPLIANT" else "COMPLIANT_NO_WAF_REQUIRED"
      | ResourceType.API_GATEWAY_REST =>
          if Resource.is_public r then "NON_COMPLIANT" else "COMPLIANT_NO_WAF_REQUIRED"
      | _ => "COMPLIANT_NO_WAF_REQUIRED"
      end
    end
  end.

(** ** [src/domain/entities/scan_result.py] *)

(** *** Floats

    A Python [float] is the rational it denotes. An arithmetic operation
    yields the exact result rounded to a float by [rnd]; of the rounding only
    what [float_rounding] states is used, which round-to-nearest on binary64
    satisfies: it is monotone and leaves 0, 1 and 100 as they are. *)

Record float_rounding (rnd : Q -> Q) : Prop := {
  rnd_monotone : forall x y : Q, (x <= y)%Q -> (rnd x <= rnd y)%Q;
  rnd_0 : (rnd 0 == 0)%Q;
  rnd_1 : (rnd 1 == 1)%Q;
  rnd_100 : (rnd (100 # 1) == 100 # 1)%Q
}.

(** [a / b] on integers: the correctly rounded quotient; a zero divisor
    raises. *)
Definition truediv (rnd : Q -> Q) (a b : Z) : result Q :=
  if (b =? 0)%Z then Raise ZeroDivisionError
  else Ok (rnd (inject_Z a / inject_Z b))%Q.

(** [x * y] on floats. *)
Definition float_mul (rnd : Q -> Q) (x y : Q) : Q := rnd (x * y)%Q.

(** An item of [ScanResult.errors]; [timestamp] is the clock reading whose
    [isoformat()] the dictionary stores. *)
Record error_record : Type := {
  err_region : string;
  err_resource_type : option string;
  err_message : string;
  err_timestamp : datetime
}.

Module ScanResult.

Record t : Type := mk {
  account_id : string;
  regions_scanned : list string;
  scan_id : string;
  scan_started_at : datetime;
  scan_completed_at : option datetime;
  resources : list Resource.t;
  errors : list error_record
}.

(** The methods that call [datetime.utcnow()] take its reading [now]. *)
Definition add_resource (now : datetime) (sr : t) (resource : Resource.t) : t :=
  mk (account_id sr) (regions_scanned sr) (scan_id sr) (scan_started_at sr)
     (scan_completed_at sr)
     (resources sr ++ [Resource.set_scanned_at resource (Some now)])
     (errors sr).

Definition add_error (now : datetime) (sr : t) (region error_message : string)
    (resource_type : option string) : t :=
  mk (account_id sr) (regions_scanned sr) (scan_id sr) (scan_started_at sr)
     (scan_completed_at sr) (resources sr)
     (errors sr ++ [{| err_region := region;
                       err_resource_type := resource_type;
                       err_message := error_message;
                       err_timestamp := now |}]).

Definition complete (now : datetime) (sr : t) : t :=
  mk (account_id sr) (regions_scanned sr) (scan_id sr) (scan_started_at sr)
     (Some now) (resources sr) (errors sr).

(** [scan_result.resources] rebound to the list after in-place updates of
    its elements. *)
Definition set_resources (sr : t) (rs : list Resource.t) : t :=
  mk (account_id sr) (regions_scanned sr) (scan_id sr) (scan_started_at sr)
     (scan_completed_at sr) rs (errors sr).

(** [sum(1 for r in self.resources if p(r))] *)
Definition count (p : Resource.t -> bool) (sr : t) : Z :=
  Z.of_nat (length (List.filter p (resources sr))).

Definition total_resources (sr : t) : Z := Z.of_nat (length (resources sr)).
Definition resources_with_waf (sr : t) : Z := count Resource.has_waf sr.
Definition resources_without_waf (sr : t) : Z :=
  count (fun r => negb (Resource.has_waf r)) sr.
Definition compliant_resources (sr : t) : Z := count Resource.is_compliant sr.
Definition non_compliant_resources (sr : t) : Z :=
  count (fun r => negb (Resource.is_compliant r)) sr.

Definition get_compliance_rate (rnd : Q -> Q) (sr : t) : result Q :=
  if (total_resources sr =? 0)%Z then Ok (100 # 1)%Q
  else q ← truediv rnd (compliant_resources sr) (total_resources sr);
       mret (float_mul rnd q (100 # 1)).

Definition get_waf_coverage_rate (rnd : Q -> Q) (sr : t) : result Q :=
  if (total_resources sr =? 0)%Z then Ok (0 # 1)%Q
  else q ← truediv rnd (resources_with_waf sr) (total_resources sr);
       mret (float_mul rnd q (100 # 1)).

Definition has_errors (sr : t) : bool := bool_decide (0 < length (errors sr)).

End ScanResult.

(** ** Python string and list primitives *)

Module PyStr.

(** [s.startswith(p)] *)
Fixpoint startswith (p s : string) : bool :=
  match p, s with
  | EmptyString, _ => true
  | String a p', String b s' => bool_decide (a = b) && startswith p' s'
  | String _ _, EmptyString => false
  end.

(** [sub in s] *)
Fixpoint contains (sub s : string) : bool :=
  startswith sub s ||
  match s with
  | EmptyString => false
  | String _ s' => contains sub s'
  end.

(** The scan of [s.split(sep)]: left to right, a match of [sep] closes the
    current segment and its remaining [skip] characters are passed over.
    The head of the list is the segment being read. *)
Fixpoint split_go (sep : string) (skip : nat) (s : string) : list string :=
  match s with
  | EmptyString => [EmptyString]
  | String c s' =>
    match skip with
    | S k => split_go sep k s'
    | O =>
      if startswith sep s
      then EmptyString :: split_go sep (String.length sep - 1) s'
      else match split_go sep 0 s' with
           | seg :: rest => String c seg :: rest
           | [] => [String c EmptyString]
           end
    end
  end.

(** [s.split(sep)] for a non-empty [sep]; every call site passes a
    non-empty literal, for which [str.split] does not raise. *)
Definition split (sep s : string) : list string := split_go sep 0 s.

End PyStr.

(** [l[i]] with Python's negative indices; out of range raises [IndexError]. *)
Definition list_get {A : Type} (l : list A) (i : Z) : result A :=
  let n := Z.of_nat (length l) in
  let j := if (i <? 0)%Z then (i + n)%Z else i in
  if ((j <? 0) || (n <=? j))%Z then Raise IndexError
  else match l !! Z.to_nat j with
       | Some x => Ok x
       | None => Raise IndexError
       end.

(** ** The AWS API as the boto3 adapter sees it *)

(** A boto3 call answers or raises botocore's [ClientError]. *)
Inductive aws_response (A : Type) : Type :=
| Response (a : A)
| ClientErr (msg : string).
Arguments Response {A} a.
Arguments ClientErr {A} msg.

(** An unhandled [ClientError] propagates to the caller. *)
Definition propagate {A : Type} (r : aws_response A) : result A :=
  match r with
  | Response a => Ok a
  | ClientErr msg => Raise (ClientError msg)
  end.

Record Identity : Type := {
  account : string;
  identity_arn : string;
  user_id : string
}.

(** An item of [DistributionList.Items]. *)
Record DistributionSummary : Type := {
  dist_Id : string;
  dist_DomainName : string
}.

(** [Distribution.DistributionConfig]: [WebACLId] is the empty string when
    the key is absent ([config.get('WebACLId', '')]), [Origins] holds the
    [DomainName] of each item of [Origins.Items] (none when absent). *)
Record DistributionConfig : Type := {
  WebACLId : string;
  Origins : list string
}.

(** The pages of a paginator; iterating may raise [ClientError] at any
    point. [Items] is [None] when the page has no such key. *)
Inductive page_stream : Type :=
| NoMorePages
| NextPage (Items : option (list DistributionSummary)) (rest : page_stream)
| PaginateFails (msg : string).

Record AWS : Type := {
  sts_get_caller_identity : aws_response Identity;
  (** [_list_web_acls_with_resources(scope, region)]: each policy of the
      scope and region with the identifiers it protects. The method only
      gathers the answers of [wafv2] and drops the policies that protect
      nothing; its outcome is taken as given. *)
  _list_web_acls_with_resources : string -> string -> list (WebACL.t * list string);
  cloudfront_list_distributions : page_stream;
  cloudfront_get_distribution : string -> aws_response DistributionConfig;
  (** [elbv2.describe_load_balancers(LoadBalancerArns=[arn])] in a region:
      the [DNSName] of each balancer returned. *)
  elbv2_describe_load_balancers : string -> string -> aws_response (list string);
  (** [list_resources(resource_type, region)]: the enumeration, whose
      outcome is taken as given. *)
  aws_list_resources : ResourceType.t -> string -> result (list Resource.t)
}.

(** An entry of the origin index. *)
Record cf_dist : Type := {
  cloudfront_arn : string;
  cloudfront_id : string;
  cloudfront_domain : string;
  cf_web_acl : option WebACL.t
}.

(** ** [src/adapters/outbound/boto3_aws_client.py] *)

Module Boto3AWSClient.
Section Client.

Variable aws : AWS.

Definition get_caller_identity : result Identity :=
  propagate (sts_get_caller_identity aws).

(** *** The association index *)

(** The global pass: [associations_map[resource_arn] = acl]. *)
Definition add_cloudfront_association (acl : WebACL.t)
    (associations_map : gmap string WebACL.t) (resource_arn : string)
    : gmap string WebACL.t :=
  <[resource_arn := acl]> associations_map.

(** The body of the innermost loop of the regional pass. *)
Definition add_regional_association (acl : WebACL.t)
    (associations_map : gmap string WebACL.t) (resource_arn : string)
    : gmap string WebACL.t :=
  if PyStr.contains "/restapis/" resource_arn && PyStr.contains "/stages/" resource_arn
  then
    let api_arn := hd EmptyString (PyStr.split "/stages/" resource_arn) in
    let associations_map := <[resource_arn := acl]> associations_map in
    match associations_map !! api_arn with
    | None => <[api_arn := acl]> associations_map
    | Some _ => associations_map
    end
  else <[resource_arn := acl]> associations_map.

(** [for acl, resource_arns in acls: for resource_arn in resource_arns: ...] *)
Definition add_associations
    (add : WebACL.t -> gmap string WebACL.t -> string -> gmap string WebACL.t)
    (associations_map : gmap string WebACL.t)
    (acls : list (WebACL.t * list string)) : gmap string WebACL.t :=
  fold_left (fun m '(acl, resource_arns) => fold_left (add acl) resource_arns m)
    acls associations_map.

Definition get_waf_associations_map (regions : list string) : gmap string WebACL.t :=
  let cloudfront_acls := _list_web_acls_with_resources aws "CLOUDFRONT" "us-east-1" in
  let associations_map := add_associations add_cloudfront_association ∅ cloudfront_acls in
  fold_left
    (fun m region =>
       add_associations add_regional_association m
         (_list_web_acls_with_resources aws "REGIONAL" region))
    regions associations_map.

(** *** The policy-identifier parser *)

Definition _parse_waf_arn (waf_arn : string) : result (option WebACL.t) :=
  try_except
    (let parts := PyStr.split "/" waf_arn in
     if bool_decide (3 <= length parts) then
       web_acl_name ← list_get parts (-2);
       web_acl_uuid ← list_get parts (-1);
       arn_prefix ← list_get (PyStr.split ":" waf_arn) 5;
       let scope :=
         if PyStr.startswith "global" arn_prefix then "CLOUDFRONT" else "REGIONAL" in
       region ← list_get (PyStr.split ":" waf_arn) 3;
       mret (Some (WebACL.mk waf_arn web_acl_name web_acl_uuid scope region None false))
     else mret None)
    (fun e => match e with IndexError | ValueError => true | _ => false end)
    (fun _ => mret None).

(** *** The origin index *)

Definition is_s3_origin (domain : string) : bool :=
  PyStr.contains ".s3." domain || PyStr.contains ".s3-" domain.

(** [origins_map[domain].append(entry)], after creating the list when the
    key is new. *)
Definition append_origin (origins_map : gmap string (list cf_dist))
    (domain : string) (entry : cf_dist) : gmap string (list cf_dist) :=
  let origins_map :=
    match origins_map !! domain with
    | None => <[domain := []]> origins_map
    | Some _ => origins_map
    end in
  <[domain := (default [] (origins_map !! domain) ++ [entry])%list]> origins_map.

(** The body of [for origin in origins]. *)
Definition add_origin (account_id : string) (dist_summary : DistributionSummary)
    (web_acl : option WebACL.t) (origins_map : gmap string (list cf_dist))
    (domain : string) : gmap string (list cf_dist) :=
  if is_s3_origin domain then origins_map
  else append_origin origins_map domain
         {| cloudfront_arn :=
              "arn:aws:cloudfront::" ++ account_id ++ ":distribution/"
                ++ dist_Id dist_summary;
            cloudfront_id := dist_Id dist_summary;
            cloudfront_domain := dist_DomainName dist_summary;
            cf_web_acl := web_acl |}.

(** The policy attached to a distribution: [None] without a [WebACLId],
    else what the parser makes of it. *)
Definition distribution_web_acl (config : DistributionConfig) : result (option WebACL.t) :=
  if bool_decide (WebACLId config = EmptyString) then mret None
  else _parse_waf_arn (WebACLId config).

(** The body of [for dist_summary in Items], with its [try]: a
    [ClientError] of [get_distribution] skips the distribution. *)
Definition add_distribution (account_id : string)
    (origins_map : gmap string (list cf_dist)) (dist_summary : DistributionSummary)
    : result (gmap string (list cf_dist)) :=
  match cloudfront_get_distribution aws (dist_Id dist_summary) with
  | ClientErr _ => mret origins_map
  | Response config =>
      web_acl ← distribution_web_acl config;
      mret (fold_left (add_origin account_id dist_summary web_acl)
              (Origins config) origins_map)
  end.

Fixpoint add_distributions (account_id : string)
    (origins_map : gmap string (list cf_dist)) (items : list DistributionSummary)
    : result (gmap string (list cf_dist)) :=
  match items with
  | [] => mret origins_map
  | dist_summary :: items =>
      origins_map ← add_distribution account_id origins_map dist_summary;
      add_distributions account_id origins_map items
  end.

(** [for page in paginator.paginate()], inside the outer [try]: a
    [ClientError] of the paginator ends the loop and keeps what was built. *)
Fixpoint add_pages (account_id : string) (origins_map : gmap string (list cf_dist))
    (pages : page_stream) : result (gmap string (list cf_dist)) :=
  match pages with
  | NoMorePages => mret origins_map
  | PaginateFails _ => mret origins_map
  | NextPage None rest => add_pages account_id origins_map rest
  | NextPage (Some items) rest =>
      origins_map ← add_distributions account_id origins_map items;
      add_pages account_id origins_map rest
  end.

Definition get_cloudfront_origins_map : result (gmap string (list cf_dist)) :=
  identity ← get_caller_identity;
  add_pages (account identity) ∅ (cloudfront_list_distributions aws).

(** *** The hostname deriver *)

Definition _get_alb_dns_name (alb_arn region : string) : option string :=
  match elbv2_describe_load_balancers aws region alb_arn with
  | Response (dns_name :: _) => Some dns_name
  | Response [] => None
  | ClientErr _ => None
  end.

(** [parts[-1]] of a split, which always has a last segment. *)
Definition last_segment (sep s : string) : string :=
  List.last (PyStr.split sep s) EmptyString.

Definition match_resource_to_origin (resource : Resource.t) : option string :=
  if bool_decide (Resource.resource_type resource = ResourceType.API_GATEWAY_HTTP) then
    let api_id := last_segment "/apis/" (Resource.arn resource) in
    Some (api_id ++ ".execute-api." ++ Resource.region resource ++ ".amazonaws.com")
  else if bool_decide (Resource.resource_type resource = ResourceType.API_GATEWAY_REST) then
    let api_id := last_segment "/restapis/" (Resource.arn resource) in
    Some (api_id ++ ".execute-api." ++ Resource.region resource ++ ".amazonaws.com")
  else if bool_decide (Resource.resource_type resource = ResourceType.ALB) then
    _get_alb_dns_name (Resource.arn resource) (Resource.region resource)
  else None.

End Client.
End Boto3AWSClient.

(** ** [src/ports/outbound/aws_client_port.py] *)

Module AWSClientPort.

(** The operations the scanner service calls on its client. *)
Record t : Type := mk {
  list_resources : ResourceType.t -> string -> result (list Resource.t);
  get_waf_associations_map : list string -> gmap string WebACL.t;
  get_cloudfront_origins_map : result (gmap string (list cf_dist));
  match_resource_to_origin : Resource.t -> option string;
  get_caller_identity : result Identity
}.

End AWSClientPort.

(** The boto3 adapter implements the port. *)
Definition boto3_client (aws : AWS) : AWSClientPort.t :=
  AWSClientPort.mk
    (aws_list_resources aws)
    (Boto3AWSClient.get_waf_associations_map aws)
    (Boto3AWSClient.get_cloudfront_origins_map aws)
    (Boto3AWSClient.match_resource_to_origin aws)
    (Boto3AWSClient.get_caller_identity aws).

(** ** [src/application/scanner_service.py] *)

(** The aggregate under construction and the clock [datetime.utcnow()]
    reads; a reading advances the clock. *)
Record scan_state : Type := {
  scan_result : ScanResult.t;
  clock : datetime
}.

Module ScannerService.

Definition DEFAULT_REGIONS : list string := ["us-east-1"].

Definition DEFAULT_RESOURCE_TYPES : list ResourceType.t :=
  [ ResourceType.ALB; ResourceType.CLOUDFRONT; ResourceType.API_GATEWAY_REST;
    ResourceType.API_GATEWAY_HTTP; ResourceType.APPSYNC; ResourceType.COGNITO;
    ResourceType.APP_RUNNER; ResourceType.VERIFIED_ACCESS ].

(** [x or default] on an optional list: [None] and the empty list are falsy. *)
Definition list_or {A : Type} (x : option (list A)) (dflt : list A) : list A :=
  match x with
  | None | Some [] => dflt
  | Some l => l
  end.

Section Service.

Variable _aws_client : AWSClientPort.t.

(** [scan_result.add_resource(...)], [scan_result.add_error(...)] and
    [scan_result.complete()], each with its reading of the clock. *)
Definition add_resource (st : scan_state) (resource : Resource.t) : scan_state :=
  {| scan_result := ScanResult.add_resource (clock st) (scan_result st) resource;
     clock := S (clock st) |}.

Definition add_error (st : scan_state) (region : string)
    (resource_type : option string) (error_message : string) : scan_state :=
  {| scan_result :=
       ScanResult.add_error (clock st) (scan_result st) region error_message resource_type;
     clock := S (clock st) |}.

Definition complete (st : scan_state) : scan_state :=
  {| scan_result := ScanResult.complete (clock st) (scan_result st);
     clock := S (clock st) |}.

(** The body of [for resource in resources]. *)
Definition enrich_and_add (waf_map : gmap string WebACL.t) (st : scan_state)
    (resource : Resource.t) : scan_state :=
  let resource :=
    if negb (bool_decide (Resource.resource_type resource = ResourceType.CLOUDFRONT)) then
      match waf_map !! Resource.arn resource with
      | Some acl => Resource.set_web_acl resource (Some acl)
      | None => resource
      end
    else resource in
  add_resource st resource.

Definition _scan_resource_type (st : scan_state) (region : string)
    (resource_type : ResourceType.t) (waf_map : gmap string WebACL.t) : scan_state :=
  if bool_decide (resource_type = ResourceType.CLOUDFRONT)
     && negb (bool_decide (region = "us-east-1"))
  then st
  else
    match AWSClientPort.list_resources _aws_client resource_type region with
    | Ok resources => fold_left (enrich_and_add waf_map) resources st
    | Raise e =>
        add_error st region (Some (ResourceType.value resource_type)) (exn_str e)
    end.

Definition _scan_region (st : scan_state) (region : string)
    (resource_types : list ResourceType.t) (waf_map : gmap string WebACL.t)
    : scan_state :=
  fold_left (fun st resource_type => _scan_resource_type st region resource_type waf_map)
    resource_types st.

(** [for cf_dist in cloudfront_dists: if cf_dist['web_acl']: ...; break] *)
Fixpoint attach_first_protected (resource : Resource.t) (cloudfront_dists : list cf_dist)
    : Resource.t :=
  match cloudfront_dists with
  | [] => resource
  | cf :: rest =>
    match cf_web_acl cf with
    | Some acl =>
        Resource.set_fronted_by resource
          (Some (cloudfront_arn cf))
          (Some acl)
          (Some ("Fronted by CloudFront Distribution " ++ cloudfront_arn cf
                 ++ " with WAF " ++ WebACL.name acl))
    | None => attach_first_protected resource rest
    end
  end.

(** The body of [for resource in scan_result.resources]; every [continue]
    leaves the resource as it is. *)
Definition enrich_resource (origins_map : gmap string (list cf_dist))
    (resource : Resource.t) : Resource.t :=
  if negb (bool_decide (Resource.resource_type resource ∈
             [ResourceType.API_GATEWAY_HTTP; ResourceType.API_GATEWAY_REST;
              ResourceType.ALB]))
  then resource
  else if Resource.truthy_waf (Resource.web_acl resource) then resource
  else
    match AWSClientPort.match_resource_to_origin _aws_client resource with
    | None => resource
    | Some origin_domain =>
      if bool_decide (origin_domain = EmptyString) then resource
      else
        let cloudfront_dists := default [] (origins_map !! origin_domain) in
        match cloudfront_dists with
        | [] => resource
        | _ :: _ => attach_first_protected resource cloudfront_dists
        end
    end.

Definition _enrich_fronted_by_relationships (sr : ScanResult.t)
    (origins_map : gmap string (list cf_dist)) : ScanResult.t :=
  ScanResult.set_resources sr (map (enrich_resource origins_map) (ScanResult.resources sr)).

(** [scan]; [scan_id] is the identifier [uuid4()] draws and [now] the clock
    when the aggregate is created. *)
Definition scan (scan_id : string) (now : datetime)
    (regions : option (list string)) (resource_types : option (list ResourceType.t))
    (include_waf_lookup : bool) : result ScanResult.t :=
  let regions := list_or regions DEFAULT_REGIONS in
  let resource_types := list_or resource_types DEFAULT_RESOURCE_TYPES in
  identity ← AWSClientPort.get_caller_identity _aws_client;
  let account_id := account identity in
  let st := {| scan_result := ScanResult.mk account_id regions scan_id now None [] [];
               clock := S now |} in
  let waf_map :=
    if include_waf_lookup
    then AWSClientPort.get_waf_associations_map _aws_client regions
    else ∅ in
  let st :=
    fold_left (fun st region => _scan_region st region resource_types waf_map)
      regions st in
  st ← (if include_waf_lookup then
          origins_map ← AWSClientPort.get_cloudfront_origins_map _aws_client;
          mret {| scan_result :=
                    _enrich_fronted_by_relationships (scan_result st) origins_map;
                  clock := clock st |}
        else mret st);
  mret (scan_result (complete st)).

End Service.
End ScannerService.

(** ** Processing order of the association index

    The pairs (policy, protected identifier) in the order in which the nested
    loops of [get_waf_associations_map] visit them. *)

Definition association_pairs (acls : list (WebACL.t * list string))
    : list (WebACL.t * string) :=
  flat_map (fun '(acl, resource_arns) => map (pair acl) resource_arns) acls.

Definition cloudfront_pairs (aws : AWS) : list (WebACL.t * string) :=
  association_pairs (_list_web_acls_with_resources aws "CLOUDFRONT" "us-east-1").

Definition regional_pairs (aws : AWS) (regions : list string) : list (WebACL.t * string) :=
  flat_map (fun region =>
              association_pairs (_list_web_acls_with_resources aws "REGIONAL" region))
    regions.

(** One pair after the other, from an index [m]. *)
Definition add_pairs
    (add : WebACL.t -> gmap string WebACL.t -> string -> gmap string WebACL.t)
    (m : gmap string WebACL.t) (pairs : list (WebACL.t * string)) : gmap string WebACL.t :=
  fold_left (fun m '(acl, resource_arn) => add acl m resource_arn) pairs m.

(** The index once the global pass is over. *)
Definition global_pass (aws : AWS) : gmap string WebACL.t :=
  add_pairs Boto3AWSClient.add_cloudfront_association ∅ (cloudfront_pairs aws).

(** A stage identifier as the regional pass recognises it, and its parent. *)
Definition is_rest_stage (resource_arn : string) : bool :=
  PyStr.contains "/restapis/" resource_arn && PyStr.contains "/stages/" resource_arn.

Definition parent_arn (resource_arn : string) : string :=
  hd EmptyString (PyStr.split "/stages/" resource_arn).

(** ** Processing order of the origin index *)

(** The distribution summaries [for page in paginator.paginate()] visits
    before the paginator ends or fails. *)
Fixpoint listed_distributions (pages : page_stream) : list DistributionSummary :=
  match pages with
  | NoMorePages => []
  | PaginateFails _ => []
  | NextPage None rest => listed_distributions rest
  | NextPage (Some items) rest => items ++ listed_distributions rest
  end.

(** The entry a distribution contributes for each of its origins. *)
Definition fronting_entry (account_id : string) (dist_summary : DistributionSummary)
    (web_acl : option WebACL.t) : cf_dist :=
  {| cloudfront_arn :=
       "arn:aws:cloudfront::" ++ account_id ++ ":distribution/" ++ dist_Id dist_summary;
     cloudfront_id := dist_Id dist_summary;
     cloudfront_domain := dist_DomainName dist_summary;
     cf_web_acl := web_acl |}.

(** The (hostname, entry) pairs a distribution records, in the order of its
    origins: none when [get_distribution] fails, none for a storage origin. *)
Definition recorded_by (aws : AWS) (account_id : string)
    (dist_summary : DistributionSummary) : list (string * cf_dist) :=
  match cloudfront_get_distribution aws (dist_Id dist_summary) with
  | ClientErr _ => []
  | Response config =>
    match Boto3AWSClient.distribution_web_acl config with
    | Raise _ => []
    | Ok web_acl =>
        map (fun domain => (domain, fronting_entry account_id dist_summary web_acl))
          (List.filter (fun domain => negb (Boto3AWSClient.is_s3_origin domain))
             (Origins config))
    end
  end.

Definition recorded_origins (aws : AWS) (account_id : string) : list (string * cf_dist) :=
  flat_map (recorded_by aws account_id)
    (listed_distributions (cloudfront_list_distributions aws)).

(** The entries recorded under one hostname, in order. *)
Definition entries_for (domain : string) (recorded : list (string * cf_dist)) : list cf_dist :=
  map snd (List.filter (fun p => bool_decide (fst p = domain)) recorded).

(** Appending one recorded pair, then a list of them, to an index. *)
Definition record_origin (m : gmap string (list cf_dist)) (p : string * cf_dist)
    : gmap string (list cf_dist) :=
  <[fst p := (default [] (m !! fst p) ++ [snd p])%list]> m.

Definition record_origins (m : gmap string (list cf_dist))
    (recorded : list (string * cf_dist)) : gmap string (list cf_dist) :=
  fold_left record_origin recorded m.

(** ** Occurrences of a marker *)

(** [sep] matches at no position of [prefix] when [rest] follows it. *)
Fixpoint no_match_within (sep prefix rest : string) : bool :=
  match prefix with
  | EmptyString => true
  | String c prefix' =>
      negb (PyStr.startswith sep (prefix ++ rest)) && no_match_within sep prefix' rest
  end.

(** [marker] occurs once in [prefix ++ marker ++ api_id], after [prefix]. *)
Definition single_marker (marker prefix api_id : string) : Prop :=
  no_match_within marker prefix (marker ++ api_id) = true /\
  PyStr.contains marker api_id = false.

(** The note the propagator writes on a resource. *)
Definition fronted_by_note (cf : cf_dist) (acl : WebACL.t) : string :=
  "Fronted by CloudFront Distribution " ++ cloudfront_arn cf
  ++ " with WAF " ++ WebACL.name acl.

(** ** Processing order of the scan *)

(** The (region, resource type) pairs in the order [scan] visits them. *)
Definition scanned_pairs (regions : list string) (resource_types : list ResourceType.t)
    : list (string * ResourceType.t) :=
  flat_map (fun region => map (pair region) resource_types) regions.

(** The pairs [_scan_resource_type] enumerates: CloudFront only from
    us-east-1. *)
Definition enumerated (p : string * ResourceType.t) : bool :=
  negb (bool_decide (snd p = ResourceType.CLOUDFRONT)
        && negb (bool_decide (fst p = "us-east-1"))).

(** An error record without its timestamp. *)
Definition error_key (e : error_record) : string * option string * string :=
  (err_region e, err_resource_type e, err_message e).

(** What the enumeration of one pair contributes to the errors and to the
    resources of the scan. *)
Definition pair_errors (port : AWSClientPort.t) (p : string * ResourceType.t)
    : list (string * option string * string) :=
  if enumerated p then
    match AWSClientPort.list_resources port (snd p) (fst p) with
    | Ok _ => []
    | Raise e => [(fst p, Some (ResourceType.value (snd p)), exn_str e)]
    end
  else [].

Definition pair_arns (port : AWSClientPort.t) (p : string * ResourceType.t) : list string :=
  if enumerated p then
    match AWSClientPort.list_resources port (snd p) (fst p) with
    | Ok resources => map Resource.arn resources
    | Raise _ => []
    end
  else [].

(** The errors and the resources of a scan state, read the same way. *)
Definition state_errors (st : scan_state) : list (string * option string * string) :=
  map error_key (ScanResult.errors (scan_result st)).

Definition state_arns (st : scan_state) : list string :=
  map Resource.arn (ScanResult.resources (scan_result st)).

(** ** [src/domain/entities/scan_result.py]: the query methods *)

Module ScanResultQuery.

Definition get_non_compliant_resources (sr : ScanResult.t) : list Resource.t :=
  List.filter (fun r => negb (Resource.is_compliant r)) (ScanResult.resources sr).

Definition get_resources_without_waf (sr : ScanResult.t) : list Resource.t :=
  List.filter (fun r => negb (Resource.has_waf r)) (ScanResult.resources sr).

Definition get_resources_by_type (sr : ScanResult.t) (resource_type : ResourceType.t)
    : list Resource.t :=
  List.filter (fun r => bool_decide (Resource.resource_type r = resource_type))
    (ScanResult.resources sr).

Definition get_resources_by_region (sr : ScanResult.t) (region : string) : list Resource.t :=
  List.filter (fun r => bool_decide (Resource.region r = region)) (ScanResult.resources sr).

End ScanResultQuery.

(** The members of the enumeration [ResourceType], in the order of the class. *)
Definition all_resource_types : list ResourceType.t :=
  [ ResourceType.ALB; ResourceType.CLOUDFRONT; ResourceType.API_GATEWAY_REST;
    ResourceType.API_GATEWAY_HTTP; ResourceType.APPSYNC; ResourceType.COGNITO;
    ResourceType.APP_RUNNER; ResourceType.VERIFIED_ACCESS ].

(** ** The resources of a scan, step by step *)

(** The direct policy [_scan_resource_type] gives a resource before adding
    it: the one of the association index, except for a CloudFront
    distribution, which keeps what the enumeration found. *)
Definition attach_direct (waf_map : gmap string WebACL.t) (resource : Resource.t)
    : Resource.t :=
  if negb (bool_decide (Resource.resource_type resource = ResourceType.CLOUDFRONT)) then
    match waf_map !! Resource.arn resource with
    | Some acl => Resource.set_web_acl resource (Some acl)
    | None => resource
    end
  else resource.

(** The resources the enumeration of one pair answers with. *)
Definition pair_resources (port : AWSClientPort.t) (p : string * ResourceType.t)
    : list Resource.t :=
  if enumerated p then
    match AWSClientPort.list_resources port (snd p) (fst p) with
    | Ok resources => resources
    | Raise _ => []
    end
  else [].

(** A resource without its scan timestamp. *)
Definition unstamp (r : Resource.t) : Resource.t := Resource.set_scanned_at r None.

(** [st'] is [st] with the resources [listed] added in order, each with its
    direct policy and a scan timestamp. *)
Definition extends_with (waf_map : gmap string WebACL.t) (st st' : scan_state)
    (listed : list Resource.t) : Prop :=
  exists stamped,
    ScanResult.resources (scan_result st') =
      (ScanResult.resources (scan_result st) ++ stamped)%list /\
    map unstamp stamped = map (fun r => unstamp (attach_direct waf_map r)) listed /\
    Forall (fun r => is_Some (Resource.scanned_at r)) stamped.

(** ** [src/adapters/outbound/boto3_aws_client.py]: the enumeration *)

(** The pages a paginator, or a [NextToken] loop, reads until the listing
    ends or a call raises: botocore's [ClientError] or any other exception
    (a connection failure, a missing credential and the like). *)
Inductive pages (A : Type) : Type :=
| PagesEnd
| PagesNext (items : list A) (rest : pages A)
| PagesFail (e : exn).
Arguments PagesEnd {A}.
Arguments PagesNext {A} items rest.
Arguments PagesFail {A} e.

(** The items of the listings, with the keys the adapter reads. *)
Record LoadBalancerItem : Type := {
  lb_LoadBalancerArn : string;
  lb_Type : string;
  lb_Scheme : option string;
  lb_LoadBalancerName : option string
}.

Record DistributionItem : Type := {
  item_ARN : string;
  item_Id : string;
  item_DomainName : option string
}.

Record RestApiItem : Type := { rest_id : string; rest_name : option string }.
Record HttpApiItem : Type := { http_ApiId : string; http_Name : option string }.
Record GraphqlApiItem : Type := { gql_arn : string; gql_name : option string }.
Record UserPoolItem : Type := { pool_Id : string; pool_Name : option string }.
Record ServiceItem : Type := { svc_ServiceArn : string; svc_ServiceName : option string }.
Record VerifiedAccessItem : Type := {
  va_VerifiedAccessInstanceId : string;
  va_Tags : list (string * string)
}.

(** The listing calls of the services, by region; a listing made of one
    call answers its items or raises, with any exception. *)
Record Enumeration : Type := {
  elbv2_load_balancers : string -> pages LoadBalancerItem;
  cloudfront_distributions : pages DistributionItem;
  apigateway_rest_apis : string -> pages RestApiItem;
  apigatewayv2_apis : string -> result (list HttpApiItem);
  appsync_graphql_apis : string -> result (list GraphqlApiItem);
  cognito_user_pools : string -> pages UserPoolItem;
  apprunner_services : string -> pages ServiceItem;
  ec2_verified_access_instances : string -> result (list VerifiedAccessItem)
}.

(** A listing loop in progress: the resources appended so far and the
    exception that ended it, if any. *)
Definition listing : Type := (list Resource.t * option exn)%type.

(** [for item in items: ...; resources.append(...)]: [body] answers the
    resource to append, or [None] on [continue]; an exception ends the loop
    and leaves what was appended. *)
Fixpoint append_each {A : Type} (body : A -> result (option Resource.t))
    (items : list A) (resources : list Resource.t) : listing :=
  match items with
  | [] => (resources, None)
  | item :: items =>
    match body item with
    | Raise e => (resources, Some e)
    | Ok None => append_each body items resources
    | Ok (Some r) => append_each body items (resources ++ [r])%list
    end
  end.

(** [for page in paginator.paginate(): for item in page[...]: ...] *)
Fixpoint append_pages {A : Type} (body : A -> result (option Resource.t))
    (ps : pages A) (resources : list Resource.t) : listing :=
  match ps with
  | PagesEnd => (resources, None)
  | PagesFail e => (resources, Some e)
  | PagesNext items rest =>
    match append_each body items resources with
    | (resources, None) => append_pages body rest resources
    | ended => ended
    end
  end.

(** [try: ... except ClientError: log] followed by [return resources]: a
    [ClientError] is swallowed, any other exception leaves the method. *)
Definition return_resources (l : listing) : result (list Resource.t) :=
  match l with
  | (resources, None) => Ok resources
  | (resources, Some (ClientError _)) => Ok resources
  | (_, Some e) => Raise e
  end.

(** A listing made of one call: the exception of the call ends it before
    anything is appended. *)
Definition append_response {A : Type} (body : A -> result (option Resource.t))
    (response : result (list A)) : listing :=
  match response with
  | Ok items => append_each body items []
  | Raise e => ([], Some e)
  end.

(** A resource as the listings construct it: no policy unless given, no
    fronted-by record, no tag, no scan timestamp. *)
Definition new_resource (arn : string) (resource_type : ResourceType.t)
    (region account_id : string) (name : option string) (is_public : bool)
    (web_acl : option WebACL.t) : Resource.t :=
  Resource.mk arn resource_type region account_id name web_acl None None None
    is_public ∅ None.

Module Boto3Listing.
Section Listing.

Variable aws : AWS.
Variable api : Enumeration.

(** [arn.split(":")[4]] *)
Definition account_of_arn (arn : string) : result string :=
  list_get (PyStr.split ":" arn) 4.

Definition alb_resource (region : string) (lb : LoadBalancerItem)
    : result (option Resource.t) :=
  if negb (bool_decide (lb_Type lb = "application")) then mret None
  else
    account_id ← account_of_arn (lb_LoadBalancerArn lb);
    let is_public := bool_decide (lb_Scheme lb = Some "internet-facing") in
    mret (Some (new_resource (lb_LoadBalancerArn lb) ResourceType.ALB region account_id
                  (lb_LoadBalancerName lb) is_public None)).

Definition _list_albs (region : string) : result (list Resource.t) :=
  return_resources (append_pages (alb_resource region) (elbv2_load_balancers api region) []).

(** The policy [_list_cloudfront_distributions] reads off a [WebACLId]. *)
Definition distribution_policy (web_acl_id : string) : result (option WebACL.t) :=
  if bool_decide (web_acl_id = EmptyString) then mret None
  else
    let parts := PyStr.split "/" web_acl_id in
    if bool_decide (3 <= length parts) then
      web_acl_name ← list_get parts (-2);
      web_acl_uuid ← list_get parts (-1);
      mret (Some (WebACL.mk web_acl_id web_acl_name web_acl_uuid "CLOUDFRONT" "us-east-1"
                    None false))
    else mret None.

Definition cloudfront_resource (dist : DistributionItem) : result (option Resource.t) :=
  account_id ← account_of_arn (item_ARN dist);
  web_acl ← match cloudfront_get_distribution aws (item_Id dist) with
            | Response config => distribution_policy (WebACLId config)
            | ClientErr _ => mret None
            end;
  mret (Some (new_resource (item_ARN dist) ResourceType.CLOUDFRONT "global" account_id
                (item_DomainName dist) true web_acl)).

Definition _list_cloudfront_distributions (region : string) : result (list Resource.t) :=
  return_resources (append_pages cloudfront_resource (cloudfront_distributions api) []).

Definition rest_api_resource (region : string) (rest_api : RestApiItem)
    : result (option Resource.t) :=
  let arn := "arn:aws:apigateway:" ++ region ++ "::/restapis/" ++ rest_id rest_api in
  identity ← Boto3AWSClient.get_caller_identity aws;
  mret (Some (new_resource arn ResourceType.API_GATEWAY_REST region (account identity)
                (rest_name rest_api) true None)).

Definition _list_api_gateway_rest_apis (region : string) : result (list Resource.t) :=
  return_resources
    (append_pages (rest_api_resource region) (apigateway_rest_apis api region) []).

Definition http_api_resource (region : string) (http_api : HttpApiItem)
    : result (option Resource.t) :=
  let arn := "arn:aws:apigateway:" ++ region ++ "::/apis/" ++ http_ApiId http_api in
  identity ← Boto3AWSClient.get_caller_identity aws;
  mret (Some (new_resource arn ResourceType.API_GATEWAY_HTTP region (account identity)
                (http_Name http_api) true None)).

Definition _list_api_gateway_http_apis (region : string) : result (list Resource.t) :=
  return_resources (append_response (http_api_resource region) (apigatewayv2_apis api region)).

Definition appsync_resource (region : string) (graphql_api : GraphqlApiItem)
    : result (option Resource.t) :=
  account_id ← account_of_arn (gql_arn graphql_api);
  mret (Some (new_resource (gql_arn graphql_api) ResourceType.APPSYNC region account_id
                (gql_name graphql_api) true None)).

Definition _list_appsync_apis (region : string) : result (list Resource.t) :=
  return_resources (append_response (appsync_resource region) (appsync_graphql_apis api region)).

Definition user_pool_resource (region : string) (pool : UserPoolItem)
    : result (option Resource.t) :=
  identity ← Boto3AWSClient.get_caller_identity aws;
  let account_id := account identity in
  let arn := "arn:aws:cognito-idp:" ++ region ++ ":" ++ account_id ++ ":userpool/"
             ++ pool_Id pool in
  mret (Some (new_resource arn ResourceType.COGNITO region account_id (pool_Name pool)
                true None)).

Definition _list_cognito_user_pools (region : string) : result (list Resource.t) :=
  return_resources (append_pages (user_pool_resource region) (cognito_user_pools api region) []).

Definition app_runner_resource (region : string) (svc : ServiceItem)
    : result (option Resource.t) :=
  account_id ← account_of_arn (svc_ServiceArn svc);
  mret (Some (new_resource (svc_ServiceArn svc) ResourceType.APP_RUNNER region account_id
                (svc_ServiceName svc) true None)).

Definition _list_app_runner_services (region : string) : result (list Resource.t) :=
  return_resources
    (append_pages (app_runner_resource region) (apprunner_services api region) []).

(** [for tag in Tags: if tag["Key"] == "Name": name = tag["Value"]; break] *)
Fixpoint name_tag (tags : list (string * string)) : option string :=
  match tags with
  | [] => None
  | (key, value) :: tags => if bool_decide (key = "Name") then Some value else name_tag tags
  end.

Definition verified_access_resource (region : string) (instance : VerifiedAccessItem)
    : result (option Resource.t) :=
  identity ← Boto3AWSClient.get_caller_identity aws;
  let account_id := account identity in
  let arn := "arn:aws:ec2:" ++ region ++ ":" ++ account_id ++ ":verified-access-instance/"
             ++ va_VerifiedAccessInstanceId instance in
  mret (Some (new_resource arn ResourceType.VERIFIED_ACCESS region account_id
                (name_tag (va_Tags instance)) true None)).

Definition _list_verified_access_instances (region : string) : result (list Resource.t) :=
  return_resources
    (append_response (verified_access_resource region)
       (ec2_verified_access_instances api region)).

(** [list_resources]: every resource type has its handler. *)
Definition list_resources (resource_type : ResourceType.t) (region : string)
    : result (list Resource.t) :=
  match resource_type with
  | ResourceType.ALB => _list_albs region
  | ResourceType.CLOUDFRONT => _list_cloudfront_distributions region
  | ResourceType.API_GATEWAY_REST => _list_api_gateway_rest_apis region
  | ResourceType.API_GATEWAY_HTTP => _list_api_gateway_http_apis region
  | ResourceType.APPSYNC => _list_appsync_apis region
  | ResourceType.COGNITO => _list_cognito_user_pools region
  | ResourceType.APP_RUNNER => _list_app_runner_services region
  | ResourceType.VERIFIED_ACCESS => _list_verified_access_instances region
  end.

End Listing.
End Boto3Listing.

(** The account with the adapter's own enumeration in place of a given one. *)
Definition with_enumeration (aws : AWS) (api : Enumeration) : AWS :=
  {| sts_get_caller_identity := sts_get_caller_identity aws;
     _list_web_acls_with_resources := _list_web_acls_with_resources aws;
     cloudfront_list_distributions := cloudfront_list_distributions aws;
     cloudfront_get_distribution := cloudfront_get_distribution aws;
     elbv2_describe_load_balancers := elbv2_describe_load_balancers aws;
     aws_list_resources := Boto3Listing.list_resources aws api |}.

(** The items a paginated listing reads before it ends or fails. *)
Fixpoint read_items {A : Type} (ps : pages A) : list A :=
  match ps with
  | PagesEnd => []
  | PagesFail _ => []
  | PagesNext items rest => items ++ read_items rest
  end.

(** What the listings of [resource_type] in [region] make of a resource. *)
Definition enumerated_shape (resource_type : ResourceType.t) (region : string)
    (r : Resource.t) : Prop :=
  Resource.resource_type r = resource_type /\
  Resource.region r =
    (if bool_decide (resource_type = ResourceType.CLOUDFRONT) then "global" else region) /\
  Resource.fronted_by_resource_arn r = None /\
  Resource.fronted_by_waf r = None /\
  Resource.fronted_by_notes r = None /\
  Resource.scanned_at r = None /\
  (resource_type <> ResourceType.CLOUDFRONT -> Resource.web_acl r = None) /\
  (resource_type <> ResourceType.ALB -> Resource.is_public r = true).

(** The exceptions a loop body can end with. *)
Definition client_error_only (e : exn) : Prop := exists msg, e = ClientError msg.

(** The listing of [resource_type] in [region] fails at its first call, with
    the exception [e]: the first page of the paginator, or the single call of
    the listings that have no paginator. *)
Definition first_call_fails (api : Enumeration) (resource_type : ResourceType.t)
    (region : string) (e : exn) : Prop :=
  match resource_type with
  | ResourceType.ALB => elbv2_load_balancers api region = PagesFail e
  | ResourceType.CLOUDFRONT => cloudfront_distributions api = PagesFail e
  | ResourceType.API_GATEWAY_REST => apigateway_rest_apis api region = PagesFail e
  | ResourceType.API_GATEWAY_HTTP => apigatewayv2_apis api region = Raise e
  | ResourceType.APPSYNC => appsync_graphql_apis api region = Raise e
  | ResourceType.COGNITO => cognito_user_pools api region = PagesFail e
  | ResourceType.APP_RUNNER => apprunner_services api region = PagesFail e
  | ResourceType.VERIFIED_ACCESS => ec2_verified_access_instances api region = Raise e
  end.

(** What a listing that fails with [e] at its first call returns: a
    [ClientError] is swallowed with nothing listed, any other exception
    leaves. *)
Definition after_failed_call (e : exn) : result (list Resource.t) :=
  match e with
  | ClientError _ => Ok []
  | _ => Raise e
  end.

(** ** [src/adapters/outbound/boto3_aws_client.py]: the WAFv2 calls *)

(** An entry of [response["WebACLs"]]. *)
Record AclSummary : Type := {
  acl_ARN : string;
  acl_Name : string;
  acl_Id : string;
  acl_Description : option string
}.

(** The WAFv2 calls behind the association index, each with the region of
    the client that makes it first: [list_web_acls(Scope)] and
    [list_resources_for_web_acl(WebACLArn, ResourceType)], the latter also
    called without [ResourceType]. A response without its list key reads as
    the empty list. *)
Record Wafv2 : Type := {
  wafv2_list_web_acls : string -> string -> aws_response (list AclSummary);
  wafv2_list_resources_for_web_acl :
    string -> string -> option string -> aws_response (list string)
}.

(** [try: response.get("ResourceArns", []) except ClientError: []] *)
Definition resource_arns (response : aws_response (list string)) : list string :=
  match response with
  | Response arns => arns
  | ClientErr _ => []
  end.

(** The resource types [_list_web_acls_with_resources] asks for by name. *)
Definition waf_resource_types : list string :=
  ["APPLICATION_LOAD_BALANCER"; "API_GATEWAY"; "APPSYNC"; "COGNITO_USER_POOL";
   "APP_RUNNER_SERVICE"; "VERIFIED_ACCESS_INSTANCE"].

Module Boto3Wafv2.
Section Wafv2Client.

Variable wafv2 : Wafv2.

Definition summary_acl (scope region : string) (acl_summary : AclSummary) : WebACL.t :=
  WebACL.mk (acl_ARN acl_summary) (acl_Name acl_summary) (acl_Id acl_summary) scope region
    (acl_Description acl_summary) false.

(** [all_arns] of one policy. *)
Definition all_arns (scope region : string) (acl : WebACL.t) : list string :=
  let list_resources_for_web_acl resource_type :=
    resource_arns
      (wafv2_list_resources_for_web_acl wafv2 region (WebACL.arn acl) resource_type) in
  let alb_arns := list_resources_for_web_acl (Some "APPLICATION_LOAD_BALANCER") in
  let api_arns := list_resources_for_web_acl (Some "API_GATEWAY") in
  let appsync_arns := list_resources_for_web_acl (Some "APPSYNC") in
  let cognito_arns := list_resources_for_web_acl (Some "COGNITO_USER_POOL") in
  let apprunner_arns := list_resources_for_web_acl (Some "APP_RUNNER_SERVICE") in
  let verified_access_arns := list_resources_for_web_acl (Some "VERIFIED_ACCESS_INSTANCE") in
  let cloudfront_arns :=
    if bool_decide (scope = "CLOUDFRONT") then list_resources_for_web_acl None else [] in
  (alb_arns ++ api_arns ++ appsync_arns ++ cognito_arns ++ apprunner_arns
   ++ verified_access_arns ++ cloudfront_arns)%list.

(** The body of [for acl_summary in response.get("WebACLs", [])]. *)
Definition add_acl_summary (scope region : string)
    (results : list (WebACL.t * list string)) (acl_summary : AclSummary)
    : list (WebACL.t * list string) :=
  let acl := summary_acl scope region acl_summary in
  match all_arns scope region acl with
  | [] => results
  | arns => (results ++ [(acl, arns)])%list
  end.

Definition _list_web_acls_with_resources (scope region : string)
    : list (WebACL.t * list string) :=
  match wafv2_list_web_acls wafv2 region scope with
  | Response summaries => fold_left (add_acl_summary scope region) summaries []
  | ClientErr _ => []
  end.

(** [list_web_acls]: the policies of a scope, asked of [us-east-1] for the
    global scope. *)
Definition list_web_acls (scope region : string) : list WebACL.t :=
  let waf_region := if bool_decide (scope = "CLOUDFRONT") then "us-east-1" else region in
  match wafv2_list_web_acls wafv2 waf_region scope with
  | Response summaries => map (summary_acl scope waf_region) summaries
  | ClientErr _ => []
  end.

End Wafv2Client.
End Boto3Wafv2.

(** The account with the adapter's own policy listing in place of a given
    one. *)
Definition with_wafv2 (aws : AWS) (wafv2 : Wafv2) : AWS :=
  {| sts_get_caller_identity := sts_get_caller_identity aws;
     _list_web_acls_with_resources := Boto3Wafv2._list_web_acls_with_resources wafv2;
     cloudfront_list_distributions := cloudfront_list_distributions aws;
     cloudfront_get_distribution := cloudfront_get_distribution aws;
     elbv2_describe_load_balancers := elbv2_describe_load_balancers aws;
     aws_list_resources := aws_list_resources aws |}.

(** WAFv2 reports [resource_arn] for the policy [acl]: the policy is listed
    in the global scope by [us-east-1] or in the regional scope by one of
    [regions], and [resource_arn] is in the answer to one of the calls made
    for it. *)
Definition reported (wafv2 : Wafv2) (regions : list string) (acl : WebACL.t)
    (resource_arn : string) : Prop :=
  exists summaries acl_summary resource_type,
    ((WebACL.scope acl = "CLOUDFRONT" /\ WebACL.region acl = "us-east-1") \/
     (WebACL.scope acl = "REGIONAL" /\ In (WebACL.region acl) regions)) /\
    wafv2_list_web_acls wafv2 (WebACL.region acl) (WebACL.scope acl) = Response summaries /\
    In acl_summary summaries /\
    acl = Boto3Wafv2.summary_acl (WebACL.scope acl) (WebACL.region acl) acl_summary /\
    In resource_arn
      (resource_arns
         (wafv2_list_resources_for_web_acl wafv2 (WebACL.region acl) (WebACL.arn acl)
            resource_type)) /\
    match resource_type with
    | None => WebACL.scope acl = "CLOUDFRONT"
    | Some named => In named waf_resource_types
    end.

(** ** [src/domain/value_objects/resource_type.py]: display names *)

Definition display_name (rt : ResourceType.t) : string :=
  match rt with
  | ResourceType.ALB => "Application Load Balancer"
  | ResourceType.CLOUDFRONT => "CloudFront Distribution"
  | ResourceType.API_GATEWAY_REST => "API Gateway REST API"
  | ResourceType.API_GATEWAY_HTTP => "API Gateway HTTP API"
  | ResourceType.APPSYNC => "AppSync GraphQL API"
  | ResourceType.COGNITO => "Cognito User Pool"
  | ResourceType.APP_RUNNER => "App Runner Service"
  | ResourceType.VERIFIED_ACCESS => "Verified Access Instance"
  end.

(** ** [src/adapters/outbound/csv_exporter.py] *)

(** A row dictionary, in insertion order. *)
Definition rowdict : Type := list (string * string).

(** [rowdict.get(key, restval)] *)
Fixpoint rowdict_get (row : rowdict) (key restval : string) : string :=
  match row with
  | [] => restval
  | (k, v) :: row => if bool_decide (k = key) then v else rowdict_get row key restval
  end.

(** [csv.DictWriter._dict_to_list] with the defaults [extrasaction="raise"]
    and [restval=""]: a key outside the field names raises [ValueError]. *)
Definition _dict_to_list (fieldnames : list string) (row : rowdict) : result (list string) :=
  if forallb (fun '(k, _) => existsb (fun field => bool_decide (field = k)) fieldnames) row
  then Ok (map (fun key => rowdict_get row key "") fieldnames)
  else Raise ValueError.

(** [writer.writerows(rows)]: the records handed to the underlying writer. *)
Fixpoint writerows (fieldnames : list string) (rows : list rowdict)
    : result (list (list string)) :=
  match rows with
  | [] => mret []
  | row :: rows =>
    record ← _dict_to_list fieldnames row;
    records ← writerows fieldnames rows;
    mret (record :: records)
  end.

(** [x or ""] on an optional text. *)
Definition or_empty (x : option string) : string :=
  match x with
  | Some s => s
  | None => ""
  end.

Module CSVExporter.
Section Exporter.

(** [datetime.isoformat()] *)
Variable isoformat : datetime -> string.

Definition _get_headers : list string :=
  ["Account ID"; "Region"; "Resource Type"; "Resource Name"; "Resource ARN"; "Has WAF";
   "WAF Name"; "WAF ARN"; "Is Public"; "Compliance Status"; "Scanned At";
   "Fronted By Resource"; "Fronted By WAF"; "Notes"].

Definition _resource_to_row (resource : Resource.t) : rowdict :=
  [("Account ID", Resource.account_id resource);
   ("Region", Resource.region resource);
   ("Resource Type", display_name (Resource.resource_type resource));
   ("Resource Name", or_empty (Resource.name resource));
   ("Resource ARN", Resource.arn resource);
   ("Has WAF", if Resource.has_waf resource then "Yes" else "No");
   ("WAF Name", or_empty (Resource.get_waf_name resource));
   ("WAF ARN", or_empty (Resource.get_waf_arn resource));
   ("Is Public", if Resource.is_public resource then "Yes" else "No");
   ("Compliance Status", Resource.get_compliance_status resource);
   ("Scanned At", match Resource.scanned_at resource with
                  | Some scanned_at => isoformat scanned_at
                  | None => ""
                  end);
   ("Fronted By Resource", or_empty (Resource.fronted_by_resource_arn resource));
   ("Fronted By WAF", match Resource.fronted_by_waf resource with
                      | Some fronted_by_waf => WebACL.name fronted_by_waf
                      | None => ""
                      end);
   ("Notes", or_empty (Resource.fronted_by_notes resource))].

Definition _build_rows (scan_result : ScanResult.t) : list rowdict :=
  map _resource_to_row (ScanResult.resources scan_result).

(** The records [write] and [_write_to_stdout] hand to the CSV writer:
    [writer.writeheader()], then [writer.writerows(rows)]. *)
Definition written_records (scan_result : ScanResult.t) : result (list (list string)) :=
  let rows := _build_rows scan_result in
  header ← _dict_to_list _get_headers (map (fun field => (field, field)) _get_headers);
  records ← writerows _get_headers rows;
  mret (header :: records).

End Exporter.
End CSVExporter.

(** The cell of a record under a column of the header. *)
Definition cell (column : string) (record : list string) : string :=
  rowdict_get (combine CSVExporter._get_headers record) column "".

(** The records with [value] under [column]. *)
Definition count_cells (column value : string) (records : list (list string)) : Z :=
  Z.of_nat (length (List.filter (fun record => bool_decide (cell column record = value))
                      records)).

(** ** [src/adapters/inbound/lambda_handler.py] *)

(** An entry of [all_results]. *)
Record account_summary : Type := {
  summary_account_id : string;
  summary_total_resources : Z;
  summary_resources_with_waf : Z;
  summary_resources_without_waf : Z;
  summary_compliance_rate : Q;
  summary_errors_count : nat
}.

(** An entry of [errors]. *)
Record account_failure : Type := {
  failure_account_id : string;
  failure_error : string
}.

Record response_body : Type := {
  accounts_scanned : nat;
  accounts_failed : nat;
  body_total_resources : Z;
  body_resources_with_waf : Z;
  body_resources_without_waf : Z;
  overall_compliance_rate : Q;
  results_by_account : list account_summary;
  body_errors : list account_failure
}.

Record response : Type := {
  statusCode : Z;
  body : response_body
}.

(** [sum(r[field] for r in all_results)] *)
Definition sum_of (field : account_summary -> Z) (all_results : list account_summary) : Z :=
  fold_left (fun total r => (total + field r)%Z) all_results 0%Z.

Module LambdaHandler.
Section Handler.

Variable rnd : Q -> Q.

(** The client of the function's own account, and
    [base_client.assume_role(role_arn, session_name, external_id)]. *)
Variable base_client : AWSClientPort.t.
Variable assume_role : string -> string -> option string -> result AWSClientPort.t.

(** The identifier and the clock reading with which the scan of an account
    starts. *)
Variable scan_start : string -> string * datetime.

(** The environment, once read: [target_accounts] and [scan_regions] are the
    non-blank entries of [TARGET_ACCOUNTS] and [SCAN_REGIONS]. *)
Variable target_accounts : list string.
Variable assume_role_name : string.
Variable external_id : string.
Variable scan_regions : list string.

(** The body of [try] in the loop over the accounts. *)
Definition scan_account (account_id : string) : result account_summary :=
  aws_client ←
    (if bool_decide (account_id = "local") then mret base_client
     else
       let role_arn := "arn:aws:iam::" ++ account_id ++ ":role/" ++ assume_role_name in
       assume_role role_arn "perimeter-guard-lambda"
         (if bool_decide (external_id = "") then None else Some external_id));
  scan_result ←
    ScannerService.scan aws_client (fst (scan_start account_id)) (snd (scan_start account_id))
      (Some scan_regions) None true;
  (* output.write_scan_result(scan_result): the summary entry *)
  _ ← ScanResult.get_compliance_rate rnd scan_result;
  compliance_rate ← ScanResult.get_compliance_rate rnd scan_result;
  let entry :=
    {| summary_account_id := ScanResult.account_id scan_result;
       summary_total_resources := ScanResult.total_resources scan_result;
       summary_resources_with_waf := ScanResult.resources_with_waf scan_result;
       summary_resources_without_waf := ScanResult.resources_without_waf scan_result;
       summary_compliance_rate := compliance_rate;
       summary_errors_count := length (ScanResult.errors scan_result) |} in
  (* the closing log entry formats the rate once more *)
  _ ← ScanResult.get_compliance_rate rnd scan_result;
  mret entry.

(** One turn of [for account_id in target_accounts]: [except Exception]
    files the account under [errors]. *)
Definition scan_target (state : list account_summary * list account_failure)
    (account_id : string) : list account_summary * list account_failure :=
  let '(all_results, errors) := state in
  match scan_account account_id with
  | Ok entry => (all_results ++ [entry], errors)%list
  | Raise e =>
      (all_results,
       errors ++ [{| failure_account_id := account_id; failure_error := exn_str e |}])%list
  end.

Definition handler : result response :=
  let target_accounts :=
    match target_accounts with
    | [] => ["local"]
    | _ => target_accounts
    end in
  let '(all_results, errors) := fold_left scan_target target_accounts ([], []) in
  let total_resources := sum_of summary_total_resources all_results in
  let total_protected := sum_of summary_resources_with_waf all_results in
  let total_unprotected := sum_of summary_resources_without_waf all_results in
  rate ←
    (if (0 <? total_resources)%Z then
       q ← truediv rnd total_protected total_resources;
       mret (float_mul rnd q (100 # 1))
     else mret (100 # 1)%Q);
  mret {| statusCode := match errors with [] => 200 | _ => 207 end;
          body := {| accounts_scanned := length all_results;
                     accounts_failed := length errors;
                     body_total_resources := total_resources;
                     body_resources_with_waf := total_protected;
                     body_resources_without_waf := total_unprotected;
                     overall_compliance_rate := rate;
                     results_by_account := all_results;
                     body_errors := errors |} |}.

End Handler.
End LambdaHandler.

(** ** Concrete inputs

    The inputs at which the properties below are exercised. *)

(** A rounding to exercise the rates with: down to a multiple of 1/1024. *)
Definition round_down_1024 (x : Q) : Q := (Qfloor (x * (1024 # 1)) # 1024)%Q.

(** The aggregate of the repository's test [test_empty_scan_result]. *)
Definition empty_scan_result : ScanResult.t :=
  ScanResult.mk "123456789012" ["us-east-1"] "scan-1" 0 None [] [].

Definition policy1 : WebACL.t :=
  WebACL.mk "arn:aws:wafv2:us-east-1:123456789012:regional/webacl/first/1111"
    "first" "1111" "REGIONAL" "us-east-1" None false.

Definition policy2 : WebACL.t :=
  WebACL.mk "arn:aws:wafv2:us-east-1:123456789012:regional/webacl/second/2222"
    "second" "2222" "REGIONAL" "us-east-1" None false.

(** An account in which every call answers with nothing. *)
Definition quiet_account : AWS :=
  {| sts_get_caller_identity :=
       Response {| account := "123456789012";
                   identity_arn := "arn:aws:iam::123456789012:user/scanner";
                   user_id := "AIDAEXAMPLE" |};
     _list_web_acls_with_resources := fun _ _ => [];
     cloudfront_list_distributions := NoMorePages;
     cloudfront_get_distribution := fun _ => ClientErr "NoSuchDistribution";
     elbv2_describe_load_balancers := fun _ _ => Response [];
     aws_list_resources := fun _ _ => Ok [] |}.

(** [quiet_account] with regional policies in us-east-1. *)
Definition with_regional_acls (acls : list (WebACL.t * list string)) : AWS :=
  {| sts_get_caller_identity := sts_get_caller_identity quiet_account;
     _list_web_acls_with_resources := fun scope region =>
       if bool_decide (scope = "REGIONAL") && bool_decide (region = "us-east-1")
       then acls else [];
     cloudfront_list_distributions := NoMorePages;
     cloudfront_get_distribution := cloudfront_get_distribution quiet_account;
     elbv2_describe_load_balancers := elbv2_describe_load_balancers quiet_account;
     aws_list_resources := aws_list_resources quiet_account |}.

Definition prod_stage_arn : string :=
  "arn:aws:apigateway:us-east-1::/restapis/ABC/stages/prod".
Definition dev_stage_arn : string :=
  "arn:aws:apigateway:us-east-1::/restapis/ABC/stages/dev".
Definition rest_api_arn : string := "arn:aws:apigateway:us-east-1::/restapis/ABC".

(** A stage of an HTTP API: the stage delimiter without the REST marker. *)
Definition http_stage_arn : string :=
  "arn:aws:apigateway:us-east-1::/apis/a1b2c3/stages/prod".

Definition scanner_identity : Identity :=
  {| account := "123456789012";
     identity_arn := "arn:aws:iam::123456789012:user/scanner";
     user_id := "AIDAEXAMPLE" |}.

Definition api_host : string := "o5yl95v1g1.execute-api.us-east-1.amazonaws.com".
Definition bucket_host : string := "assets.s3.amazonaws.com".

Definition global_policy_arn : string :=
  "arn:aws:wafv2:us-east-1:123456789012:global/webacl/edge/3333".

Definition global_policy : WebACL.t :=
  WebACL.mk global_policy_arn "edge" "3333" "CLOUDFRONT" "us-east-1" None false.

(** A policy identifier that is no ARN: it has no [/] at all. *)
Definition classic_policy_id : string := "473e64fd-f30b-4765-81a0-62ad96dd167a".

Definition dist_unprotected : DistributionSummary :=
  {| dist_Id := "E1UNPROTECTED"; dist_DomainName := "d111.cloudfront.net" |}.
Definition dist_protected : DistributionSummary :=
  {| dist_Id := "E2PROTECTED"; dist_DomainName := "d222.cloudfront.net" |}.

(** An account with two distributions in front of the same API host: the
    first with a policy identifier that does not parse and a bucket as second
    origin, the second with a global policy. *)
Definition cdn_account : AWS :=
  {| sts_get_caller_identity := Response scanner_identity;
     _list_web_acls_with_resources := fun _ _ => [];
     cloudfront_list_distributions :=
       NextPage (Some [dist_unprotected; dist_protected]) NoMorePages;
     cloudfront_get_distribution := fun dist_id =>
       if bool_decide (dist_id = "E1UNPROTECTED")
       then Response {| WebACLId := classic_policy_id; Origins := [api_host; bucket_host] |}
       else if bool_decide (dist_id = "E2PROTECTED")
       then Response {| WebACLId := global_policy_arn; Origins := [api_host] |}
       else ClientErr "NoSuchDistribution";
     elbv2_describe_load_balancers := fun _ _ => Response [];
     aws_list_resources := fun _ _ => Ok [] |}.

(** An HTTP API behind the two distributions of [cdn_account]. *)
Definition http_api : Resource.t :=
  Resource.mk "arn:aws:apigateway:us-east-1::/apis/o5yl95v1g1"
    ResourceType.API_GATEWAY_HTTP "us-east-1" "123456789012" (Some "orders-api")
    None None None None true ∅ None.

Definition scanned_http_api : ScanResult.t :=
  ScanResult.mk "123456789012" ["us-east-1"] "scan-1" 0 None [http_api] [].

Definition api_host_index : gmap string (list cf_dist) :=
  <[api_host := [fronting_entry "123456789012" dist_unprotected None;
                 fronting_entry "123456789012" dist_protected (Some global_policy)]]> ∅.

(** [cdn_account] where the enumeration of load balancers raises and the one
    of HTTP APIs finds [http_api]. *)
Definition failing_account : AWS :=
  {| sts_get_caller_identity := sts_get_caller_identity cdn_account;
     _list_web_acls_with_resources := _list_web_acls_with_resources cdn_account;
     cloudfront_list_distributions := cloudfront_list_distributions cdn_account;
     cloudfront_get_distribution := cloudfront_get_distribution cdn_account;
     elbv2_describe_load_balancers := elbv2_describe_load_balancers cdn_account;
     aws_list_resources := fun resource_type region =>
       match resource_type with
       | ResourceType.ALB => Raise (OtherException "AccessDenied")
       | ResourceType.API_GATEWAY_HTTP => Ok [http_api]
       | _ => Ok []
       end |}.

(** Three resources: a protected load balancer, a private REST API and a
    public load balancer without policy. *)
Definition two_of_three_compliant : ScanResult.t :=
  ScanResult.mk "123456789012" ["us-east-1"] "scan-2" 0 None
    [ Resource.mk "arn:aws:elasticloadbalancing:us-east-1:123456789012:loadbalancer/app/a/1"
        ResourceType.ALB "us-east-1" "123456789012" (Some "a") (Some policy1)
        None None None true ∅ None;
      Resource.mk "arn:aws:apigateway:us-east-1::/restapis/ABC"
        ResourceType.API_GATEWAY_REST "us-east-1" "123456789012" (Some "b") None
        None None None false ∅ None;
      Resource.mk "arn:aws:elasticloadbalancing:us-east-1:123456789012:loadbalancer/app/c/3"
        ResourceType.ALB "us-east-1" "123456789012" (Some "c") None
        None None None true ∅ None ]
    [].

(** A client whose every enumeration raises. *)
Definition denied_account : AWS :=
  {| sts_get_caller_identity := sts_get_caller_identity cdn_account;
     _list_web_acls_with_resources := _list_web_acls_with_resources cdn_account;
     cloudfront_list_distributions := cloudfront_list_distributions cdn_account;
     cloudfront_get_distribution := cloudfront_get_distribution cdn_account;
     elbv2_describe_load_balancers := elbv2_describe_load_balancers cdn_account;
     aws_list_resources := fun _ _ => Raise (OtherException "AccessDenied") |}.

(** An account that answers no listing. *)
Definition quiet_enumeration : Enumeration :=
  {| elbv2_load_balancers := fun _ => PagesEnd;
     cloudfront_distributions := PagesEnd;
     apigateway_rest_apis := fun _ => PagesEnd;
     apigatewayv2_apis := fun _ => Ok [];
     appsync_graphql_apis := fun _ => Ok [];
     cognito_user_pools := fun _ => PagesEnd;
     apprunner_services := fun _ => PagesEnd;
     ec2_verified_access_instances := fun _ => Ok [] |}.

Definition public_lb : LoadBalancerItem :=
  {| lb_LoadBalancerArn :=
       "arn:aws:elasticloadbalancing:us-east-1:123456789012:loadbalancer/app/web/50dc6c495c0c9188";
     lb_Type := "application";
     lb_Scheme := Some "internet-facing";
     lb_LoadBalancerName := Some "web" |}.

Definition internal_lb : LoadBalancerItem :=
  {| lb_LoadBalancerArn :=
       "arn:aws:elasticloadbalancing:us-east-1:123456789012:loadbalancer/app/back/73e2d6bc24d8a067";
     lb_Type := "application";
     lb_Scheme := Some "internal";
     lb_LoadBalancerName := Some "back" |}.

Definition network_lb : LoadBalancerItem :=
  {| lb_LoadBalancerArn :=
       "arn:aws:elasticloadbalancing:us-east-1:123456789012:loadbalancer/net/tcp/5d9ac3e1bb7a1f20";
     lb_Type := "network";
     lb_Scheme := Some "internet-facing";
     lb_LoadBalancerName := Some "tcp" |}.

(** A balancer whose identifier is no ARN. *)
Definition malformed_lb : LoadBalancerItem :=
  {| lb_LoadBalancerArn := "loadbalancer/app/odd";
     lb_Type := "application";
     lb_Scheme := None;
     lb_LoadBalancerName := None |}.

(** Two pages of balancers, a REST API and an HTTP API; the second page of
    balancers is followed by a [ClientError] of the paginator, and the
    listing of GraphQL APIs is denied. *)
Definition small_enumeration : Enumeration :=
  {| elbv2_load_balancers := fun _ =>
       PagesNext [public_lb; network_lb]
         (PagesNext [internal_lb] (PagesFail (ClientError "Throttling")));
     cloudfront_distributions := PagesEnd;
     apigateway_rest_apis := fun _ =>
       PagesNext [{| rest_id := "1jnx7rksc5"; rest_name := Some "billing" |}] PagesEnd;
     apigatewayv2_apis := fun _ =>
       Ok [{| http_ApiId := "o5yl95v1g1"; http_Name := Some "orders-api" |}];
     appsync_graphql_apis := fun _ => Raise (ClientError "AccessDenied");
     cognito_user_pools := fun _ => PagesEnd;
     apprunner_services := fun _ => PagesEnd;
     ec2_verified_access_instances := fun _ => Ok [] |}.

(** [small_enumeration] where the listing of user pools cannot reach its
    endpoint: botocore raises an exception that is no [ClientError]. *)
Definition unreachable_enumeration : Enumeration :=
  {| elbv2_load_balancers := elbv2_load_balancers small_enumeration;
     cloudfront_distributions := cloudfront_distributions small_enumeration;
     apigateway_rest_apis := apigateway_rest_apis small_enumeration;
     apigatewayv2_apis := apigatewayv2_apis small_enumeration;
     appsync_graphql_apis := appsync_graphql_apis small_enumeration;
     cognito_user_pools := fun _ =>
       PagesFail (OtherException "Could not connect to the endpoint URL");
     apprunner_services := apprunner_services small_enumeration;
     ec2_verified_access_instances := ec2_verified_access_instances small_enumeration |}.

(** [small_enumeration] with a malformed balancer on the first page. *)
Definition odd_enumeration : Enumeration :=
  {| elbv2_load_balancers := fun _ => PagesNext [public_lb; malformed_lb] PagesEnd;
     cloudfront_distributions := cloudfront_distributions small_enumeration;
     apigateway_rest_apis := apigateway_rest_apis small_enumeration;
     apigatewayv2_apis := apigatewayv2_apis small_enumeration;
     appsync_graphql_apis := appsync_graphql_apis small_enumeration;
     cognito_user_pools := cognito_user_pools small_enumeration;
     apprunner_services := apprunner_services small_enumeration;
     ec2_verified_access_instances := ec2_verified_access_instances small_enumeration |}.

(** A stage of the REST API of [small_enumeration]. *)
Definition billing_stage_arn : string :=
  "arn:aws:apigateway:us-east-1::/restapis/1jnx7rksc5/stages/prod".

(** A WAFv2 with one regional policy on a REST stage and on a balancer, one
    regional policy without resources, and one global policy on a
    distribution. *)
Definition small_wafv2 : Wafv2 :=
  {| wafv2_list_web_acls := fun region scope =>
       if bool_decide (scope = "REGIONAL") then
         if bool_decide (region = "us-east-1") then
           Response [{| acl_ARN := WebACL.arn policy1; acl_Name := "first";
                        acl_Id := "1111"; acl_Description := None |};
                     {| acl_ARN := WebACL.arn policy2; acl_Name := "second";
                        acl_Id := "2222"; acl_Description := None |}]
         else ClientErr "AccessDenied"
       else
         Response [{| acl_ARN := global_policy_arn; acl_Name := "edge";
                      acl_Id := "3333"; acl_Description := None |}];
     wafv2_list_resources_for_web_acl := fun region acl_arn resource_type =>
       if bool_decide (acl_arn = WebACL.arn policy1) then
         match resource_type with
         | Some "API_GATEWAY" => Response [billing_stage_arn]
         | Some "APPLICATION_LOAD_BALANCER" => Response [lb_LoadBalancerArn public_lb]
         | Some "APPSYNC" => ClientErr "WAFInvalidParameterException"
         | _ => Response []
         end
       else if bool_decide (acl_arn = global_policy_arn) then
         match resource_type with
         | None => Response ["arn:aws:cloudfront::123456789012:distribution/E2PROTECTED"]
         | Some _ => ClientErr "WAFInvalidParameterException"
         end
       else Response [] |}.

(** The role of one member account can be assumed; any other is refused. *)
Definition member_roles (role_arn session_name : string) (external_id : option string)
    : result AWSClientPort.t :=
  if bool_decide (role_arn = "arn:aws:iam::111122223333:role/PerimeterGuardScanRole")
  then Ok (boto3_client (with_enumeration quiet_account small_enumeration))
  else Raise (ClientError "AccessDenied").

(** * Properties *)

(** C1. The status computed by [Resource.get_compliance_status] is the one of
    the reference definition of the Compliance Evaluator, for every resource:
    COMPLIANT with a direct policy whatever the fronted-by fields, else
    COMPLIANT_FRONTED_BY_WAF with a fronted-by policy, else NON_COMPLIANT for
    a CDN distribution, a public load balancer or a public REST gateway, else
    COMPLIANT_NO_WAF_REQUIRED; and [Resource.is_compliant] fails exactly on
    the NON_COMPLIANT resources. *)
Theorem compliance_status_refines_reference (r : Resource.t) :
  Resource.get_compliance_status r = reference_status r /\
  Resource.is_compliant r = negb (bool_decide (reference_status r = "NON_COMPLIANT")).
Proof.
  unfold Resource.get_compliance_status, Resource.is_compliant, reference_status,
    Resource.has_waf, Resource.truthy_waf.
  destruct (Resource.web_acl r); [split; reflexivity |].
  destruct (Resource.fronted_by_waf r); [split; reflexivity |].
  destruct (Resource.resource_type r), (Resource.is_public r); split; reflexivity.
Qed.

(** The resources of the repository's tests [test_compliance_public_alb_without_waf]
    and [test_compliance_cloudfront_without_waf]. *)
Example compliance_status_of_tests :
  Resource.get_compliance_status
    (Resource.mk "arn:aws:elasticloadbalancing:us-east-1:123456789012:loadbalancer/app/test/1234"
       ResourceType.ALB "us-east-1" "123456789012" None None None None None true ∅ None)
  = "NON_COMPLIANT" /\
  Resource.is_compliant
    (Resource.mk "arn:aws:cloudfront::123456789012:distribution/ABC123"
       ResourceType.CLOUDFRONT "global" "123456789012" None None None None None true ∅ None)
  = false.
Proof. split; reflexivity. Qed.

(** ** Aggregate rates *)

Lemma count_bounds (p : Resource.t -> bool) (sr : ScanResult.t) :
  (0 <= ScanResult.count p sr <= ScanResult.total_resources sr)%Z.
Proof.
  unfold ScanResult.count, ScanResult.total_resources.
  pose proof (List.filter_length_le p (ScanResult.resources sr)). lia.
Qed.

(** A percentage [(part / total) * 100] of a part of a non-empty whole. *)
Lemma percentage_bounds (rnd : Q -> Q) (part total : Z) :
  float_rounding rnd ->
  (0 <= part <= total)%Z -> (0 < total)%Z ->
  (0 <= float_mul rnd (rnd (inject_Z part / inject_Z total)) (100 # 1) /\
   float_mul rnd (rnd (inject_Z part / inject_Z total)) (100 # 1) <= 100 # 1)%Q.
Proof.
  intros [Hmono H0 H1 H100] [Hlo Hhi] Hpos.
  assert (Ht : (0 < inject_Z total)%Q) by (rewrite (Zlt_Qlt 0 total) in Hpos; exact Hpos).
  assert (Hq0 : (0 <= inject_Z part / inject_Z total)%Q).
  { apply Qle_shift_div_l; [exact Ht |]. rewrite Qmult_0_l.
    rewrite (Zle_Qle 0 part) in Hlo. exact Hlo. }
  assert (Hq1 : (inject_Z part / inject_Z total <= 1)%Q).
  { apply Qle_shift_div_r; [exact Ht |]. rewrite Qmult_1_l.
    rewrite (Zle_Qle part total) in Hhi. exact Hhi. }
  assert (Hr0 : (0 <= rnd (inject_Z part / inject_Z total))%Q).
  { apply Qle_trans with (rnd 0%Q); [rewrite H0; apply Qle_refl | apply Hmono, Hq0]. }
  assert (Hr1 : (rnd (inject_Z part / inject_Z total) <= 1)%Q).
  { apply Qle_trans with (rnd 1%Q); [apply Hmono, Hq1 | rewrite H1; apply Qle_refl]. }
  unfold float_mul. split.
  - apply Qle_trans with (rnd 0%Q); [rewrite H0; apply Qle_refl |].
    apply Hmono, Qmult_le_0_compat; [exact Hr0 | discriminate].
  - apply Qle_trans with (rnd (100 # 1)%Q); [| rewrite H100; apply Qle_refl].
    apply Hmono. apply Qle_trans with (1 * (100 # 1))%Q.
    + apply Qmult_le_compat_r; [exact Hr1 | discriminate].
    + discriminate.
Qed.

(** C5. For every scan result the compliance rate is computed without a
    division error, lies between 0 and 100, and is exactly 100.0 when there
    is no resource. *)
Theorem compliance_rate_range (rnd : Q -> Q) (sr : ScanResult.t) :
  float_rounding rnd ->
  exists q : Q,
    ScanResult.get_compliance_rate rnd sr = Ok q /\
    (0 <= q)%Q /\ (q <= 100 # 1)%Q /\
    (ScanResult.total_resources sr = 0%Z -> q = (100 # 1)%Q).
Proof.
  intros Hrnd. unfold ScanResult.get_compliance_rate, truediv.
  destruct (ScanResult.total_resources sr =? 0)%Z eqn:Hz.
  - exists (100 # 1)%Q. repeat split; try discriminate.
  - apply Z.eqb_neq in Hz. cbn.
    pose proof (count_bounds Resource.is_compliant sr) as Hc.
    fold (ScanResult.compliant_resources sr) in Hc.
    destruct (percentage_bounds rnd (ScanResult.compliant_resources sr)
                (ScanResult.total_resources sr) Hrnd) as [Hlo Hhi]; [exact Hc | lia |].
    eexists. split; [reflexivity |]. split; [exact Hlo |]. split; [exact Hhi |].
    intros Hzero. contradiction.
Qed.

Lemma round_down_1024_rounding : float_rounding round_down_1024.
Proof.
  split; try reflexivity.
  intros x y Hxy. unfold round_down_1024, Qle. cbn [Qnum Qden].
  apply Z.mul_le_mono_nonneg_r; [lia |].
  apply Qfloor_resp_le, Qmult_le_compat_r; [exact Hxy | discriminate].
Qed.

Lemma compliance_rate_range_witness :
  exists q : Q,
    ScanResult.get_compliance_rate round_down_1024 two_of_three_compliant = Ok q /\
    (0 <= q)%Q /\ (q <= 100 # 1)%Q /\
    (ScanResult.total_resources two_of_three_compliant = 0%Z -> q = (100 # 1)%Q).
Proof.
  apply (compliance_rate_range round_down_1024 two_of_three_compliant).
  exact round_down_1024_rounding.
Defined.

(** The rate of [two_of_three_compliant]: two thirds, rounded twice. *)
Example compliance_rate_two_of_three :
  ScanResult.get_compliance_rate round_down_1024 two_of_three_compliant
  = Ok (68200 # 1024)%Q.
Proof. reflexivity. Qed.

(** C10. With an empty resource list the WAF coverage rate is 0.0 while the
    compliance rate is 100.0: the two defaults differ. *)
Theorem empty_scan_rates_asymmetric (rnd : Q -> Q) (sr : ScanResult.t) :
  ScanResult.resources sr = [] ->
  ScanResult.get_waf_coverage_rate rnd sr = Ok (0 # 1)%Q /\
  ScanResult.get_compliance_rate rnd sr = Ok (100 # 1)%Q /\
  ~ (0 # 1 == 100 # 1)%Q.
Proof.
  intros Hempty.
  unfold ScanResult.get_waf_coverage_rate, ScanResult.get_compliance_rate,
    ScanResult.total_resources.
  rewrite Hempty. cbn. repeat split. discriminate.
Qed.

Lemma empty_scan_rates_asymmetric_witness :
  ScanResult.get_waf_coverage_rate round_down_1024 empty_scan_result = Ok (0 # 1)%Q /\
  ScanResult.get_compliance_rate round_down_1024 empty_scan_result = Ok (100 # 1)%Q /\
  ~ (0 # 1 == 100 # 1)%Q.
Proof.
  apply (empty_scan_rates_asymmetric round_down_1024 empty_scan_result). reflexivity.
Defined.

(** ** Segments of a split *)

Lemma startswith_empty_subject (sep : string) :
  PyStr.startswith sep EmptyString = true -> sep = EmptyString.
Proof. destruct sep; [reflexivity | discriminate]. Qed.

Lemma first_segment_shorter (sep s : string) :
  sep <> EmptyString ->
  PyStr.contains sep s = true ->
  String.length (hd EmptyString (PyStr.split sep s)) < String.length s.
Proof.
  intros Hsep. unfold PyStr.split.
  induction s as [| c s IH]; intros Hin.
  - cbn in Hin. rewrite orb_false_r in Hin.
    apply startswith_empty_subject in Hin. contradiction.
  - cbn [PyStr.split_go].
    destruct (PyStr.startswith sep (String c s)) eqn:Hpre.
    + cbn. lia.
    + cbn [PyStr.contains] in Hin. rewrite Hpre in Hin. cbn in Hin.
      specialize (IH Hin).
      destruct (PyStr.split_go sep 0 s) as [| seg rest]; cbn in *; lia.
Qed.

(** The parent identifier of a stage identifier is another identifier. *)
Lemma first_segment_differs (sep s : string) :
  sep <> EmptyString ->
  PyStr.contains sep s = true ->
  hd EmptyString (PyStr.split sep s) <> s.
Proof.
  intros Hsep Hin Heq.
  pose proof (first_segment_shorter sep s Hsep Hin) as Hlt.
  rewrite Heq in Hlt. lia.
Qed.

(** ** The association index *)

Lemma add_associations_pairs add (m : gmap string WebACL.t) acls :
  Boto3AWSClient.add_associations add m acls = add_pairs add m (association_pairs acls).
Proof.
  unfold Boto3AWSClient.add_associations, add_pairs, association_pairs.
  revert m. induction acls as [| [acl arns] acls IH]; intros m; [reflexivity |].
  cbn [fold_left flat_map]. rewrite fold_left_app, IH. f_equal.
  clear IH. revert m. induction arns as [| a arns IHa]; intros m; [reflexivity |].
  cbn. apply IHa.
Qed.

Lemma add_pairs_app add (m : gmap string WebACL.t) l1 l2 :
  add_pairs add m (l1 ++ l2) = add_pairs add (add_pairs add m l1) l2.
Proof. apply fold_left_app. Qed.

Lemma add_pairs_cons add (m : gmap string WebACL.t) acl resource_arn l :
  add_pairs add m ((acl, resource_arn) :: l) = add_pairs add (add acl m resource_arn) l.
Proof. reflexivity. Qed.

(** The builder is the global pass followed by the regional pairs in order. *)
Lemma get_waf_associations_map_pairs (aws : AWS) (regions : list string) :
  Boto3AWSClient.get_waf_associations_map aws regions =
  add_pairs Boto3AWSClient.add_regional_association (global_pass aws)
    (regional_pairs aws regions).
Proof.
  unfold Boto3AWSClient.get_waf_associations_map, global_pass, cloudfront_pairs,
    regional_pairs.
  rewrite add_associations_pairs.
  generalize (add_pairs Boto3AWSClient.add_cloudfront_association ∅
                (association_pairs (_list_web_acls_with_resources aws "CLOUDFRONT" "us-east-1"))).
  induction regions as [| region regions IH]; intros m; [reflexivity |].
  cbn [fold_left flat_map]. rewrite add_pairs_app, IH, add_associations_pairs.
  reflexivity.
Qed.

Lemma parent_arn_differs (resource_arn : string) :
  PyStr.contains "/stages/" resource_arn = true -> parent_arn resource_arn <> resource_arn.
Proof. intros Hin. apply first_segment_differs; [discriminate | exact Hin]. Qed.

(** What one stage pair does to the index. *)
Lemma add_regional_stage acl (m : gmap string WebACL.t) resource_arn :
  is_rest_stage resource_arn = true ->
  Boto3AWSClient.add_regional_association acl m resource_arn =
  match m !! parent_arn resource_arn with
  | None => <[parent_arn resource_arn := acl]> (<[resource_arn := acl]> m)
  | Some _ => <[resource_arn := acl]> m
  end.
Proof.
  intros Hstage. unfold Boto3AWSClient.add_regional_association.
  unfold is_rest_stage in Hstage. rewrite Hstage.
  apply andb_true_iff in Hstage as [_ Hin].
  fold (parent_arn resource_arn).
  rewrite lookup_insert_ne by (intros Heq; symmetry in Heq; revert Heq; apply parent_arn_differs, Hin).
  reflexivity.
Qed.

Lemma add_regional_keeps_keys acl (m : gmap string WebACL.t) resource_arn k :
  is_Some (m !! k) -> is_Some (Boto3AWSClient.add_regional_association acl m resource_arn !! k).
Proof.
  intros Hk. unfold Boto3AWSClient.add_regional_association.
  assert (Hins : forall a, is_Some (<[a := acl]> m !! k)).
  { intros a. rewrite lookup_insert. case_decide; [eauto | exact Hk]. }
  destruct (_ && _); [| apply Hins].
  destruct (<[resource_arn:=acl]> m !! _) eqn:Hp; [apply Hins |].
  rewrite lookup_insert. case_decide; [eauto | apply Hins].
Qed.

Lemma add_pairs_keeps_keys (m : gmap string WebACL.t) pairs k :
  is_Some (m !! k) ->
  is_Some (add_pairs Boto3AWSClient.add_regional_association m pairs !! k).
Proof.
  revert m. induction pairs as [| [acl a] pairs IH]; intros m Hk; [exact Hk |].
  cbn. apply IH, add_regional_keeps_keys, Hk.
Qed.

Lemma in_regional_pairs (aws : AWS) regions region acl arns resource_arn :
  In region regions ->
  In (acl, arns) (_list_web_acls_with_resources aws "REGIONAL" region) ->
  In resource_arn arns ->
  In (acl, resource_arn) (regional_pairs aws regions).
Proof.
  intros Hr Hacl Harn. unfold regional_pairs, association_pairs.
  apply in_flat_map. exists region. split; [exact Hr |].
  apply in_flat_map. exists (acl, arns). split; [exact Hacl |].
  apply in_map, Harn.
Qed.

Lemma add_pairs_stage_keys (m : gmap string WebACL.t) pairs acl resource_arn :
  In (acl, resource_arn) pairs ->
  is_rest_stage resource_arn = true ->
  is_Some (add_pairs Boto3AWSClient.add_regional_association m pairs !! resource_arn) /\
  is_Some (add_pairs Boto3AWSClient.add_regional_association m pairs
             !! parent_arn resource_arn).
Proof.
  intros Hin Hstage. apply in_split in Hin as (pre & post & ->).
  rewrite add_pairs_app, add_pairs_cons.
  set (m1 := add_pairs Boto3AWSClient.add_regional_association m pre).
  split; apply add_pairs_keeps_keys; rewrite add_regional_stage by exact Hstage.
  - destruct (m1 !! parent_arn resource_arn) eqn:Hp.
    + rewrite lookup_insert_eq. eauto.
    + rewrite lookup_insert. case_decide; [eauto |]. rewrite lookup_insert_eq. eauto.
  - destruct (m1 !! parent_arn resource_arn) eqn:Hp.
    + rewrite lookup_insert. case_decide; [eauto |]. rewrite Hp. eauto.
    + rewrite lookup_insert_eq. eauto.
Qed.

(** The index right after a stage pair is processed. *)
Lemma add_regional_stage_lookup acl (m : gmap string WebACL.t) resource_arn :
  is_rest_stage resource_arn = true ->
  Boto3AWSClient.add_regional_association acl m resource_arn !! resource_arn = Some acl /\
  (m !! parent_arn resource_arn = None ->
   Boto3AWSClient.add_regional_association acl m resource_arn !! parent_arn resource_arn
   = Some acl) /\
  (forall present, m !! parent_arn resource_arn = Some present ->
   Boto3AWSClient.add_regional_association acl m resource_arn !! parent_arn resource_arn
   = Some present) /\
  (forall k, k <> resource_arn -> k <> parent_arn resource_arn ->
   Boto3AWSClient.add_regional_association acl m resource_arn !! k = m !! k).
Proof.
  intros Hstage.
  assert (Hne : parent_arn resource_arn <> resource_arn).
  { apply parent_arn_differs. unfold is_rest_stage in Hstage.
    apply andb_true_iff in Hstage as [_ H]. exact H. }
  rewrite add_regional_stage by exact Hstage.
  destruct (m !! parent_arn resource_arn) as [old |] eqn:Hp.
  - repeat split.
    + apply lookup_insert_eq.
    + discriminate.
    + intros present [= <-]. rewrite lookup_insert_ne by congruence. exact Hp.
    + intros k Hk _. rewrite lookup_insert_ne by congruence. reflexivity.
  - repeat split.
    + rewrite lookup_insert_ne by exact Hne. apply lookup_insert_eq.
    + intros _. apply lookup_insert_eq.
    + discriminate.
    + intros k Hk Hkp. rewrite !lookup_insert_ne by congruence. reflexivity.
Qed.

Lemma add_regional_parent_kept acl (m : gmap string WebACL.t) resource_arn p present :
  m !! p = Some present ->
  resource_arn <> p ->
  Boto3AWSClient.add_regional_association acl m resource_arn !! p = Some present.
Proof.
  intros Hp Hne. unfold Boto3AWSClient.add_regional_association.
  assert (Hins : <[resource_arn := acl]> m !! p = Some present)
    by (rewrite lookup_insert_ne by exact Hne; exact Hp).
  destruct (_ && _); [| exact Hins].
  destruct (<[resource_arn:=acl]> m !! hd EmptyString (PyStr.split "/stages/" resource_arn))
    eqn:Hq; [exact Hins |].
  rewrite lookup_insert_ne; [exact Hins |].
  intros Heq. rewrite Heq in Hq. congruence.
Qed.

(** First wins, in general: once the parent identifier is mapped, no later
    pair changes its mapping unless the parent identifier itself is one of
    the protected identifiers. *)
Lemma add_pairs_parent_kept (m : gmap string WebACL.t) pairs p present :
  m !! p = Some present ->
  Forall (fun pair => snd pair <> p) pairs ->
  add_pairs Boto3AWSClient.add_regional_association m pairs !! p = Some present.
Proof.
  intros Hp Hall. revert m Hp.
  induction Hall as [| [acl a] pairs Ha _ IH]; intros m Hp; [exact Hp |].
  cbn. apply IH, add_regional_parent_kept; [exact Hp | exact Ha].
Qed.

Lemma get_waf_associations_map_split (aws : AWS) regions before acl resource_arn after :
  regional_pairs aws regions = (before ++ (acl, resource_arn) :: after)%list ->
  Boto3AWSClient.get_waf_associations_map aws regions =
  add_pairs Boto3AWSClient.add_regional_association
    (Boto3AWSClient.add_regional_association acl
       (add_pairs Boto3AWSClient.add_regional_association (global_pass aws) before)
       resource_arn)
    after.
Proof.
  intros Hpairs.
  rewrite get_waf_associations_map_pairs, Hpairs, add_pairs_app, add_pairs_cons.
  reflexivity.
Qed.

(** C2, as the code has it. For a pair of a regional policy whose identifier
    holds both the REST marker [/restapis/] and the stage delimiter
    [/stages/]: processing the pair maps the stage identifier to the policy,
    maps the parent identifier (the text before the first [/stages/]) to the
    policy when the parent had no mapping and leaves the parent's mapping as
    it was otherwise, and touches no other key. Both identifiers are keys of
    the built index, where the stage identifier is mapped to the policy
    unless a later pair has the same identifier, and the parent identifier to
    the policy if it had no mapping when the pair was reached, to the policy
    it had otherwise, unless a later pair protects the parent identifier
    itself. *)
Theorem rest_stage_maps_stage_and_parent (aws : AWS) (regions : list string)
    (acl : WebACL.t) (resource_arn : string) (before after : list (WebACL.t * string)) :
  is_rest_stage resource_arn = true ->
  regional_pairs aws regions = (before ++ (acl, resource_arn) :: after)%list ->
  (forall m : gmap string WebACL.t,
     Boto3AWSClient.add_regional_association acl m resource_arn !! resource_arn = Some acl /\
     (m !! parent_arn resource_arn = None ->
      Boto3AWSClient.add_regional_association acl m resource_arn !! parent_arn resource_arn
      = Some acl) /\
     (forall present, m !! parent_arn resource_arn = Some present ->
      Boto3AWSClient.add_regional_association acl m resource_arn !! parent_arn resource_arn
      = Some present) /\
     (forall k, k <> resource_arn -> k <> parent_arn resource_arn ->
      Boto3AWSClient.add_regional_association acl m resource_arn !! k = m !! k)) /\
  is_Some (Boto3AWSClient.get_waf_associations_map aws regions !! resource_arn) /\
  is_Some (Boto3AWSClient.get_waf_associations_map aws regions !! parent_arn resource_arn) /\
  (Forall (fun pair => snd pair <> resource_arn) after ->
   Boto3AWSClient.get_waf_associations_map aws regions !! resource_arn = Some acl) /\
  (Forall (fun pair => snd pair <> parent_arn resource_arn) after ->
   Boto3AWSClient.get_waf_associations_map aws regions !! parent_arn resource_arn =
   Some (default acl
           (add_pairs Boto3AWSClient.add_regional_association (global_pass aws) before
              !! parent_arn resource_arn))).
Proof.
  intros Hstage Hpairs.
  split; [intros m; apply add_regional_stage_lookup, Hstage |].
  assert (Hin : In (acl, resource_arn) (regional_pairs aws regions))
    by (rewrite Hpairs; apply in_elt).
  destruct (add_pairs_stage_keys (global_pass aws) _ acl resource_arn Hin Hstage)
    as [Hk1 Hk2].
  rewrite <- get_waf_associations_map_pairs in Hk1, Hk2.
  split; [exact Hk1 |]. split; [exact Hk2 |].
  rewrite (get_waf_associations_map_split aws regions before acl resource_arn after Hpairs).
  set (reached := add_pairs Boto3AWSClient.add_regional_association (global_pass aws) before).
  destruct (add_regional_stage_lookup acl reached resource_arn Hstage)
    as (Hst & Hfresh & Hkept & _).
  split.
  - intros Hafter. apply add_pairs_parent_kept; [exact Hst | exact Hafter].
  - intros Hafter. apply add_pairs_parent_kept; [| exact Hafter].
    destruct (reached !! parent_arn resource_arn) as [present |] eqn:Hp; cbn [default].
    + apply Hkept. reflexivity.
    + apply Hfresh. reflexivity.
Qed.

Lemma rest_stage_maps_stage_and_parent_witness :
  Boto3AWSClient.get_waf_associations_map
    (with_regional_acls [(policy1, [prod_stage_arn])]) ["us-east-1"] !! prod_stage_arn
  = Some policy1 /\
  Boto3AWSClient.get_waf_associations_map
    (with_regional_acls [(policy1, [prod_stage_arn])]) ["us-east-1"] !! rest_api_arn
  = Some policy1.
Proof.
  destruct (rest_stage_maps_stage_and_parent
              (with_regional_acls [(policy1, [prod_stage_arn])]) ["us-east-1"]
              policy1 prod_stage_arn [] [] eq_refl eq_refl)
    as (_ & _ & _ & Hstage & Hparent).
  split; [apply Hstage; constructor | apply Hparent; constructor].
Defined.

(** The stage-mapping example of the specification, run on the builder. *)
Example stage_mapping_example :
  Boto3AWSClient.get_waf_associations_map
    (with_regional_acls [(policy1, [prod_stage_arn])]) ["us-east-1"]
  = <[rest_api_arn := policy1]> (<[prod_stage_arn := policy1]> ∅).
Proof. reflexivity. Qed.

(** C2, as stated, fails: the identifier of an HTTP API stage holds the stage
    delimiter, its parent has no mapping, and the built index gets the stage
    key only. *)
Lemma stage_delimiter_alone_is_not_decomposed :
  ~ (forall (aws : AWS) regions region acl arns resource_arn,
       In region regions ->
       In (acl, arns) (_list_web_acls_with_resources aws "REGIONAL" region) ->
       In resource_arn arns ->
       PyStr.contains "/stages/" resource_arn = true ->
       is_Some (Boto3AWSClient.get_waf_associations_map aws regions !! resource_arn) /\
       is_Some (Boto3AWSClient.get_waf_associations_map aws regions
                  !! parent_arn resource_arn)).
Proof.
  intros Hclaim.
  destruct (Hclaim (with_regional_acls [(policy1, [http_stage_arn])])
              ["us-east-1"] "us-east-1" policy1 [http_stage_arn] http_stage_arn)
    as [_ [acl Hparent]];
    [left; reflexivity | left; reflexivity | left; reflexivity | reflexivity |].
  vm_compute in Hparent. discriminate Hparent.
Qed.

(** C3. Two stage entries that share their parent identifier, processed with
    [acl1] first and [acl2] second, [acl1] being the first policy met for the
    parent: the built index maps the parent to [acl1], whatever the later
    stage entries, and each stage identifier to its own policy. (The parent
    identifier is not itself among the identifiers protected later, and each
    stage is listed once from its entry on.) *)
Theorem first_stage_policy_wins (aws : AWS) (regions : list string)
    (acl1 acl2 : WebACL.t) (stage1 stage2 : string)
    (before middle after : list (WebACL.t * string)) :
  is_rest_stage stage1 = true ->
  is_rest_stage stage2 = true ->
  parent_arn stage1 = parent_arn stage2 ->
  stage1 <> stage2 ->
  regional_pairs aws regions =
    (before ++ (acl1, stage1) :: middle ++ (acl2, stage2) :: after)%list ->
  add_pairs Boto3AWSClient.add_regional_association (global_pass aws) before
    !! parent_arn stage1 = None ->
  Forall (fun pair => snd pair <> parent_arn stage1) (middle ++ after) ->
  Forall (fun pair => snd pair <> stage1) (middle ++ after) ->
  Forall (fun pair => snd pair <> stage2) after ->
  Boto3AWSClient.get_waf_associations_map aws regions !! parent_arn stage1 = Some acl1 /\
  Boto3AWSClient.get_waf_associations_map aws regions !! stage1 = Some acl1 /\
  Boto3AWSClient.get_waf_associations_map aws regions !! stage2 = Some acl2.
Proof.
  intros Hs1 Hs2 Hsame Hdiff Hpairs Hfresh Hparent Hst1 Hst2.
  apply Forall_app in Hparent as [Hparent_mid Hparent_after].
  apply Forall_app in Hst1 as [Hst1_mid Hst1_after].
  rewrite get_waf_associations_map_pairs, Hpairs.
  rewrite add_pairs_app, add_pairs_cons, add_pairs_app, add_pairs_cons.
  set (reached := add_pairs Boto3AWSClient.add_regional_association (global_pass aws) before)
    in *.
  destruct (add_regional_stage_lookup acl1 reached stage1 Hs1) as (Hone & Hpar1 & _ & _).
  specialize (Hpar1 Hfresh).
  set (m1 := Boto3AWSClient.add_regional_association acl1 reached stage1) in *.
  pose proof (add_pairs_parent_kept m1 middle _ _ Hpar1 Hparent_mid) as Hpar2.
  pose proof (add_pairs_parent_kept m1 middle _ _ Hone Hst1_mid) as Hone2.
  set (m2 := add_pairs Boto3AWSClient.add_regional_association m1 middle) in *.
  destruct (add_regional_stage_lookup acl2 m2 stage2 Hs2) as (Htwo & _ & Hpar3 & Hother).
  rewrite <- Hsame in Hpar3, Hother.
  assert (Hne : parent_arn stage1 <> stage1).
  { apply parent_arn_differs. unfold is_rest_stage in Hs1.
    apply andb_true_iff in Hs1 as [_ H]. exact H. }
  split; [| split].
  - apply add_pairs_parent_kept; [apply Hpar3, Hpar2 | exact Hparent_after].
  - apply add_pairs_parent_kept; [| exact Hst1_after].
    rewrite Hother; [exact Hone2 | exact Hdiff | congruence].
  - apply add_pairs_parent_kept; [exact Htwo | exact Hst2].
Qed.

Lemma first_stage_policy_wins_witness :
  Boto3AWSClient.get_waf_associations_map
    (with_regional_acls [(policy1, [prod_stage_arn]); (policy2, [dev_stage_arn])])
    ["us-east-1"] !! rest_api_arn = Some policy1 /\
  Boto3AWSClient.get_waf_associations_map
    (with_regional_acls [(policy1, [prod_stage_arn]); (policy2, [dev_stage_arn])])
    ["us-east-1"] !! prod_stage_arn = Some policy1 /\
  Boto3AWSClient.get_waf_associations_map
    (with_regional_acls [(policy1, [prod_stage_arn]); (policy2, [dev_stage_arn])])
    ["us-east-1"] !! dev_stage_arn = Some policy2.
Proof.
  apply (first_stage_policy_wins
           (with_regional_acls [(policy1, [prod_stage_arn]); (policy2, [dev_stage_arn])])
           ["us-east-1"] policy1 policy2 prod_stage_arn dev_stage_arn [] [] []);
    [reflexivity | reflexivity | reflexivity | discriminate | reflexivity | reflexivity
    | constructor | constructor | constructor].
Defined.

(** ** The policy-identifier parser *)

Lemma list_get_raises_index_error {A : Type} (l : list A) (i : Z) (e : exn) :
  list_get l i = Raise e -> e = IndexError.
Proof.
  unfold list_get. intros H.
  destruct (_ || _)%Z; [congruence |].
  destruct (l !! _); congruence.
Qed.

(** The parser answers on every string. *)
Lemma _parse_waf_arn_total (waf_arn : string) :
  exists parsed, Boto3AWSClient._parse_waf_arn waf_arn = Ok parsed.
Proof.
  unfold Boto3AWSClient._parse_waf_arn, try_except.
  case_bool_decide; [| eexists; reflexivity].
  repeat match goal with
  | |- context [list_get ?l ?i] =>
      let H := fresh "Hget" in
      destruct (list_get l i) as [? | e] eqn:H;
      [ cbn | apply list_get_raises_index_error in H; subst e; cbn; eexists; reflexivity ]
  end.
  eexists. reflexivity.
Qed.

(** A parsed policy takes its scope from the sixth colon-separated field. *)
Lemma _parse_waf_arn_scope (waf_arn : string) (acl : WebACL.t) :
  Boto3AWSClient._parse_waf_arn waf_arn = Ok (Some acl) ->
  exists scope_segment,
    list_get (PyStr.split ":" waf_arn) 5 = Ok scope_segment /\
    WebACL.scope acl =
      (if PyStr.startswith "global" scope_segment then "CLOUDFRONT" else "REGIONAL") /\
    WebACL.arn acl = waf_arn.
Proof.
  unfold Boto3AWSClient._parse_waf_arn, try_except.
  case_bool_decide; [| discriminate].
  destruct (list_get (PyStr.split "/" waf_arn) (-2)) as [n | e1] eqn:H1; cbn;
    [| apply list_get_raises_index_error in H1; subst e1; discriminate].
  destruct (list_get (PyStr.split "/" waf_arn) (-1)) as [u | e2] eqn:H2; cbn;
    [| apply list_get_raises_index_error in H2; subst e2; discriminate].
  destruct (list_get (PyStr.split ":" waf_arn) 5) as [seg | e3] eqn:H3; cbn;
    [| apply list_get_raises_index_error in H3; subst e3; discriminate].
  destruct (list_get (PyStr.split ":" waf_arn) 3) as [r | e4] eqn:H4; cbn;
    [| apply list_get_raises_index_error in H4; subst e4; discriminate].
  intros [= <-]. exists seg. cbn. auto.
Qed.

Lemma distribution_web_acl_total (config : DistributionConfig) :
  exists web_acl, Boto3AWSClient.distribution_web_acl config = Ok web_acl.
Proof.
  unfold Boto3AWSClient.distribution_web_acl.
  case_bool_decide; [eexists; reflexivity | apply _parse_waf_arn_total].
Qed.

(** ** The origin index *)

Lemma append_origin_record (m : gmap string (list cf_dist)) domain entry :
  Boto3AWSClient.append_origin m domain entry = record_origin m (domain, entry).
Proof.
  unfold Boto3AWSClient.append_origin, record_origin. cbn [fst snd].
  destruct (m !! domain) as [l |] eqn:Hm.
  - rewrite Hm. reflexivity.
  - rewrite lookup_insert_eq. cbn. apply insert_insert_eq.
Qed.

Lemma add_origins_record account_id dist_summary web_acl origins
    (m : gmap string (list cf_dist)) :
  fold_left (Boto3AWSClient.add_origin account_id dist_summary web_acl) origins m =
  record_origins m
    (map (fun domain => (domain, fronting_entry account_id dist_summary web_acl))
       (List.filter (fun domain => negb (Boto3AWSClient.is_s3_origin domain)) origins)).
Proof.
  revert m. induction origins as [| domain origins IH]; intros m; [reflexivity |].
  cbn [fold_left List.filter]. rewrite IH.
  unfold Boto3AWSClient.add_origin at 1.
  destruct (Boto3AWSClient.is_s3_origin domain); cbn [negb]; [reflexivity |].
  rewrite append_origin_record. reflexivity.
Qed.

Lemma add_distribution_record (aws : AWS) account_id (m : gmap string (list cf_dist))
    dist_summary :
  Boto3AWSClient.add_distribution aws account_id m dist_summary =
  Ok (record_origins m (recorded_by aws account_id dist_summary)).
Proof.
  unfold Boto3AWSClient.add_distribution, recorded_by.
  destruct (cloudfront_get_distribution aws (dist_Id dist_summary)) as [config | msg];
    [| reflexivity].
  destruct (distribution_web_acl_total config) as [web_acl ->]. cbn.
  rewrite add_origins_record. reflexivity.
Qed.

Lemma record_origins_app (m : gmap string (list cf_dist)) l1 l2 :
  record_origins m (l1 ++ l2) = record_origins (record_origins m l1) l2.
Proof. apply fold_left_app. Qed.

Lemma add_distributions_record (aws : AWS) account_id items
    (m : gmap string (list cf_dist)) :
  Boto3AWSClient.add_distributions aws account_id m items =
  Ok (record_origins m (flat_map (recorded_by aws account_id) items)).
Proof.
  revert m. induction items as [| d items IH]; intros m; [reflexivity |].
  cbn [Boto3AWSClient.add_distributions flat_map].
  rewrite add_distribution_record. cbn. rewrite IH, record_origins_app. reflexivity.
Qed.

Lemma add_pages_record (aws : AWS) account_id pages (m : gmap string (list cf_dist)) :
  Boto3AWSClient.add_pages aws account_id m pages =
  Ok (record_origins m (flat_map (recorded_by aws account_id) (listed_distributions pages))).
Proof.
  revert m. induction pages as [| [items |] rest IH | msg]; intros m; try reflexivity.
  - cbn [Boto3AWSClient.add_pages listed_distributions].
    rewrite add_distributions_record. cbn. rewrite IH, flat_map_app, record_origins_app.
    reflexivity.
  - cbn. apply IH.
Qed.

(** The list under a hostname after recording: what was there, then the
    entries recorded for it, in order. *)
Lemma record_origins_lookup (m : gmap string (list cf_dist)) recorded domain :
  record_origins m recorded !! domain =
  match entries_for domain recorded with
  | [] => m !! domain
  | es => Some (default [] (m !! domain) ++ es)%list
  end.
Proof.
  revert m. induction recorded as [| [d e] recorded IH]; intros m; [reflexivity |].
  cbn [record_origins fold_left]. fold (record_origins (record_origin m (d, e)) recorded).
  rewrite IH. unfold entries_for. cbn [List.filter fst].
  unfold record_origin. cbn [fst snd].
  case_bool_decide as Hd.
  - subst d. rewrite lookup_insert_eq. cbn [map snd default].
    destruct (map snd _) as [| e' es]; [reflexivity |].
    unfold id. rewrite <- app_assoc. reflexivity.
  - rewrite lookup_insert_ne by exact Hd. reflexivity.
Qed.

Lemma recorded_by_not_s3 (aws : AWS) account_id dist_summary domain entry :
  In (domain, entry) (recorded_by aws account_id dist_summary) ->
  Boto3AWSClient.is_s3_origin domain = false.
Proof.
  unfold recorded_by.
  destruct (cloudfront_get_distribution aws _) as [config |]; [| intros []].
  destruct (Boto3AWSClient.distribution_web_acl config); [| intros []].
  intros Hin. apply in_map_iff in Hin as (d & [= -> _] & Hd).
  apply filter_In in Hd as [_ Hd]. apply negb_true_iff in Hd. exact Hd.
Qed.

Lemma entries_for_not_s3 (aws : AWS) account_id domain :
  entries_for domain (recorded_origins aws account_id) <> [] ->
  Boto3AWSClient.is_s3_origin domain = false.
Proof.
  unfold entries_for, recorded_origins. intros Hne.
  destruct (List.filter _ _) as [| [d e] rest] eqn:Hf; [contradiction |].
  assert (Hin : In (d, e) (List.filter (fun p => bool_decide (fst p = domain))
                             (flat_map (recorded_by aws account_id)
                                (listed_distributions (cloudfront_list_distributions aws)))))
    by (rewrite Hf; left; reflexivity).
  apply filter_In in Hin as [Hin Hd]. apply bool_decide_eq_true in Hd. cbn in Hd. subst d.
  apply in_flat_map in Hin as (ds & _ & Hin).
  eapply recorded_by_not_s3, Hin.
Qed.

Lemma get_cloudfront_origins_map_record (aws : AWS) (identity : Identity) :
  sts_get_caller_identity aws = Response identity ->
  Boto3AWSClient.get_cloudfront_origins_map aws =
  Ok (record_origins ∅ (recorded_origins aws (account identity))).
Proof.
  intros Hid. unfold Boto3AWSClient.get_cloudfront_origins_map,
    Boto3AWSClient.get_caller_identity.
  rewrite Hid. cbn. apply add_pages_record.
Qed.

Lemma in_entries_for domain entry (recorded : list (string * cf_dist)) :
  In (domain, entry) recorded -> In entry (entries_for domain recorded).
Proof.
  intros Hin. unfold entries_for.
  apply (in_map snd _ (domain, entry)), filter_In.
  split; [exact Hin | apply bool_decide_eq_true; reflexivity].
Qed.

(** An origin of a visited distribution, unless a storage origin, is
    recorded under its hostname with the distribution's policy. *)
Lemma visited_origin_recorded (aws : AWS) (identity : Identity) dist_summary config
    web_acl domain :
  In dist_summary (listed_distributions (cloudfront_list_distributions aws)) ->
  cloudfront_get_distribution aws (dist_Id dist_summary) = Response config ->
  Boto3AWSClient.distribution_web_acl config = Ok web_acl ->
  In domain (Origins config) ->
  Boto3AWSClient.is_s3_origin domain = false ->
  exists entries,
    record_origins ∅ (recorded_origins aws (account identity)) !! domain = Some entries /\
    In (fronting_entry (account identity) dist_summary web_acl) entries.
Proof.
  intros Hd Hconfig Hacl Hdomain Hs3.
  assert (Hin : In (domain, fronting_entry (account identity) dist_summary web_acl)
                  (recorded_origins aws (account identity))).
  { unfold recorded_origins. apply in_flat_map. exists dist_summary. split; [exact Hd |].
    unfold recorded_by. rewrite Hconfig, Hacl.
    apply (in_map (fun d => (d, fronting_entry (account identity) dist_summary web_acl))).
    apply filter_In. split; [exact Hdomain | rewrite Hs3; reflexivity]. }
  apply in_entries_for in Hin.
  rewrite record_origins_lookup, lookup_empty. cbn [default].
  destruct (entries_for domain _) as [| e es]; [destruct Hin |].
  exists (e :: es). split; [reflexivity | exact Hin].
Qed.

(** C6. No key of the origin index is a storage-service hostname: such
    origins are skipped. Every other origin hostname of every visited
    distribution gets an entry appended, so that the list under a hostname
    holds, in order, the entries of all the distributions that use it. *)
Theorem origin_index_excludes_storage_origins (aws : AWS) (identity : Identity) :
  sts_get_caller_identity aws = Response identity ->
  exists origins_map,
    Boto3AWSClient.get_cloudfront_origins_map aws = Ok origins_map /\
    (forall domain, is_Some (origins_map !! domain) ->
       Boto3AWSClient.is_s3_origin domain = false) /\
    (forall domain,
       origins_map !! domain =
       match entries_for domain (recorded_origins aws (account identity)) with
       | [] => None
       | entries => Some entries
       end) /\
    (forall account_id dist_summary web_acl (m : gmap string (list cf_dist)) domain,
       Boto3AWSClient.add_origin account_id dist_summary web_acl m domain =
       if Boto3AWSClient.is_s3_origin domain then m
       else <[domain := (default [] (m !! domain)
                         ++ [fronting_entry account_id dist_summary web_acl])%list]> m).
Proof.
  intros Hid. eexists. split; [apply get_cloudfront_origins_map_record, Hid |].
  assert (Hlookup : forall domain,
             record_origins ∅ (recorded_origins aws (account identity)) !! domain =
             match entries_for domain (recorded_origins aws (account identity)) with
             | [] => None
             | entries => Some entries
             end).
  { intros domain. rewrite record_origins_lookup, lookup_empty.
    destruct (entries_for domain _); reflexivity. }
  split; [| split].
  - intros domain [entries Hsome]. rewrite Hlookup in Hsome.
    apply (entries_for_not_s3 aws (account identity)).
    destruct (entries_for domain _); [discriminate | discriminate].
  - exact Hlookup.
  - intros account_id dist_summary web_acl m domain.
    unfold Boto3AWSClient.add_origin.
    destruct (Boto3AWSClient.is_s3_origin domain); [reflexivity |].
    apply append_origin_record.
Qed.

Lemma origin_index_excludes_storage_origins_witness :
  exists origins_map,
    Boto3AWSClient.get_cloudfront_origins_map cdn_account = Ok origins_map /\
    origins_map !! bucket_host = None /\
    origins_map !! api_host =
      Some [fronting_entry "123456789012" dist_unprotected None;
            fronting_entry "123456789012" dist_protected (Some global_policy)].
Proof.
  destruct (origin_index_excludes_storage_origins cdn_account scanner_identity eq_refl)
    as (origins_map & Hbuilt & _ & Hlookup & _).
  exists origins_map. split; [exact Hbuilt |].
  split; rewrite Hlookup; reflexivity.
Defined.

(** ** The hostname deriver *)

Lemma split_go_no_match (sep s : string) :
  PyStr.contains sep s = false -> PyStr.split_go sep 0 s = [s].
Proof.
  induction s as [| c s IH]; intros Hnone; [reflexivity |].
  cbn [PyStr.contains] in Hnone. apply orb_false_iff in Hnone as [Hpre Hrest].
  cbn [PyStr.split_go]. rewrite Hpre, (IH Hrest). reflexivity.
Qed.

Lemma split_go_skip (sep skipped s : string) :
  PyStr.split_go sep (String.length skipped) (skipped ++ s) = PyStr.split_go sep 0 s.
Proof.
  induction skipped as [| c skipped IH]; [destruct s; reflexivity |].
  cbn. exact IH.
Qed.

Lemma startswith_app (sep s : string) : PyStr.startswith sep (sep ++ s) = true.
Proof.
  induction sep as [| a sep IH]; [reflexivity |].
  change (String a sep ++ s) with (String a (sep ++ s)).
  cbn [PyStr.startswith]. rewrite bool_decide_eq_true_2 by reflexivity. exact IH.
Qed.

(** The scan closes the first segment at the first match. *)
Lemma split_go_first_match (sep prefix rest : string) :
  sep <> EmptyString ->
  no_match_within sep prefix (sep ++ rest) = true ->
  PyStr.split_go sep 0 (prefix ++ sep ++ rest) = prefix :: PyStr.split_go sep 0 rest.
Proof.
  intros Hsep. induction prefix as [| c prefix IH]; intros Hnone.
  - destruct sep as [| a sep]; [contradiction |].
    change (EmptyString ++ String a sep ++ rest) with (String a (sep ++ rest)).
    cbn [PyStr.split_go].
    pose proof (startswith_app (String a sep) rest) as Hpre.
    change (String a sep ++ rest) with (String a (sep ++ rest)) in Hpre.
    rewrite Hpre.
    replace (String.length (String a sep) - 1) with (String.length sep)
      by (cbn [String.length]; lia).
    rewrite split_go_skip. reflexivity.
  - cbn [no_match_within] in Hnone. apply andb_true_iff in Hnone as [Hhere Hnext].
    apply negb_true_iff in Hhere.
    change (String c prefix ++ sep ++ rest) with (String c (prefix ++ sep ++ rest)) in *.
    cbn [PyStr.split_go]. rewrite Hhere, (IH Hnext). reflexivity.
Qed.

Lemma last_segment_single_marker (marker prefix api_id : string) :
  marker <> EmptyString ->
  single_marker marker prefix api_id ->
  Boto3AWSClient.last_segment marker (prefix ++ marker ++ api_id) = api_id.
Proof.
  intros Hsep [Hbefore Hafter].
  unfold Boto3AWSClient.last_segment, PyStr.split.
  rewrite split_go_first_match by assumption.
  rewrite split_go_no_match by exact Hafter. reflexivity.
Qed.



(** The examples of the docstring of [match_resource_to_origin]. *)
Example match_resource_to_origin_examples :
  Boto3AWSClient.match_resource_to_origin quiet_account
    (Resource.mk "arn:aws:apigateway:us-east-1::/apis/o5yl95v1g1"
       ResourceType.API_GATEWAY_HTTP "us-east-1" "123456789012" None None None None None
       true ∅ None)
  = Some "o5yl95v1g1.execute-api.us-east-1.amazonaws.com" /\
  Boto3AWSClient.match_resource_to_origin quiet_account
    (Resource.mk "arn:aws:apigateway:us-east-1::/restapis/1jnx7rksc5"
       ResourceType.API_GATEWAY_REST "us-east-1" "123456789012" None None None None None
       true ∅ None)
  = Some "1jnx7rksc5.execute-api.us-east-1.amazonaws.com".
Proof. split; reflexivity. Qed.

(** ** The fronted-by propagator *)

Lemma lookup_map {A B : Type} (f : A -> B) (l : list A) (i : nat) :
  map f l !! i = f <$> (l !! i).
Proof.
  revert i. induction l as [| x l IH]; intros [| i]; try reflexivity.
  cbn. apply IH.
Qed.

Lemma attach_first_protected_found (resource : Resource.t) before cf acl after :
  Forall (fun d => cf_web_acl d = None) before ->
  cf_web_acl cf = Some acl ->
  ScannerService.attach_first_protected resource (before ++ cf :: after)%list =
  Resource.set_fronted_by resource (Some (cloudfront_arn cf)) (Some acl)
    (Some (fronted_by_note cf acl)).
Proof.
  intros Hbefore Hcf. induction Hbefore as [| d before Hd _ IH].
  - cbn. rewrite Hcf. reflexivity.
  - cbn. rewrite Hd. exact IH.
Qed.

Lemma attach_first_protected_none (resource : Resource.t) cloudfront_dists :
  Forall (fun d => cf_web_acl d = None) cloudfront_dists ->
  ScannerService.attach_first_protected resource cloudfront_dists = resource.
Proof.
  intros Hall. induction Hall as [| d dists Hd _ IH]; [reflexivity |].
  cbn. rewrite Hd. exact IH.
Qed.

(** What the propagator does to a resource it does not skip. *)
Lemma enrich_resource_eligible port (origins_map : gmap string (list cf_dist))
    (resource : Resource.t) origin_domain cloudfront_dists :
  Resource.resource_type resource ∈
    [ResourceType.API_GATEWAY_HTTP; ResourceType.API_GATEWAY_REST; ResourceType.ALB] ->
  Resource.web_acl resource = None ->
  AWSClientPort.match_resource_to_origin port resource = Some origin_domain ->
  origin_domain <> EmptyString ->
  origins_map !! origin_domain = Some cloudfront_dists ->
  ScannerService.enrich_resource port origins_map resource =
  ScannerService.attach_first_protected resource cloudfront_dists.
Proof.
  intros Htype Hacl Hhost Hne Hentries. unfold ScannerService.enrich_resource.
  rewrite bool_decide_eq_true_2 by exact Htype. cbn [negb].
  rewrite Hacl. cbn [Resource.truthy_waf]. rewrite Hhost.
  rewrite bool_decide_eq_false_2 by exact Hne.
  rewrite Hentries. cbn [default]. destruct cloudfront_dists; reflexivity.
Qed.

Lemma enrich_resource_skipped port (origins_map : gmap string (list cf_dist))
    (resource : Resource.t) :
  Resource.resource_type resource ∉
    [ResourceType.API_GATEWAY_HTTP; ResourceType.API_GATEWAY_REST; ResourceType.ALB]
  \/ Resource.web_acl resource <> None ->
  ScannerService.enrich_resource port origins_map resource = resource.
Proof.
  intros Hskip. unfold ScannerService.enrich_resource.
  case_bool_decide as Htype; cbn [negb]; [| reflexivity].
  destruct (Resource.web_acl resource) eqn:Hacl; [reflexivity |].
  destruct Hskip as [Hno | Hno]; contradiction.
Qed.

(** C4. A resource of the scan result that is an HTTP gateway, a REST gateway
    or a load balancer, has no direct policy, and whose derived hostname is a
    non-empty key of the origin index with a non-empty list of entries,
    receives the fronted-by triple of the first entry of the list that
    carries a policy: its field [fronted_by_resource_arn] holds the
    identifier of that entry's distribution, [fronted_by_waf] that entry's
    policy and [fronted_by_notes] the note naming both, every other field is
    as it was, and its status is COMPLIANT_FRONTED_BY_WAF. It is left as it
    was when no entry carries a policy. A resource of another type, or with
    a direct policy, is left as it was. *)
Theorem fronted_by_first_protected_entry port (sr : ScanResult.t)
    (origins_map : gmap string (list cf_dist)) (i : nat) (resource : Resource.t) :
  ScanResult.resources sr !! i = Some resource ->
  (forall origin_domain cloudfront_dists,
     Resource.resource_type resource ∈
       [ResourceType.API_GATEWAY_HTTP; ResourceType.API_GATEWAY_REST; ResourceType.ALB] ->
     Resource.web_acl resource = None ->
     AWSClientPort.match_resource_to_origin port resource = Some origin_domain ->
     origin_domain <> EmptyString ->
     origins_map !! origin_domain = Some cloudfront_dists ->
     cloudfront_dists <> [] ->
     (forall before cf acl after,
        cloudfront_dists = (before ++ cf :: after)%list ->
        Forall (fun d => cf_web_acl d = None) before ->
        cf_web_acl cf = Some acl ->
        exists enriched,
          ScanResult.resources
            (ScannerService._enrich_fronted_by_relationships port sr origins_map) !! i
          = Some enriched /\
          enriched = Resource.set_fronted_by resource (Some (cloudfront_arn cf)) (Some acl)
                       (Some (fronted_by_note cf acl)) /\
          Resource.fronted_by_resource_arn enriched = Some (cloudfront_arn cf) /\
          Resource.fronted_by_waf enriched = Some acl /\
          Resource.fronted_by_notes enriched
          = Some ("Fronted by CloudFront Distribution " ++ cloudfront_arn cf
                  ++ " with WAF " ++ WebACL.name acl) /\
          Resource.arn enriched = Resource.arn resource /\
          Resource.resource_type enriched = Resource.resource_type resource /\
          Resource.region enriched = Resource.region resource /\
          Resource.account_id enriched = Resource.account_id resource /\
          Resource.name enriched = Resource.name resource /\
          Resource.web_acl enriched = None /\
          Resource.is_public enriched = Resource.is_public resource /\
          Resource.tags enriched = Resource.tags resource /\
          Resource.scanned_at enriched = Resource.scanned_at resource /\
          Resource.get_compliance_status enriched = "COMPLIANT_FRONTED_BY_WAF") /\
     (Forall (fun d => cf_web_acl d = None) cloudfront_dists ->
      ScanResult.resources
        (ScannerService._enrich_fronted_by_relationships port sr origins_map) !! i
      = Some resource)) /\
  (Resource.resource_type resource ∉
     [ResourceType.API_GATEWAY_HTTP; ResourceType.API_GATEWAY_REST; ResourceType.ALB]
   \/ Resource.web_acl resource <> None ->
   ScanResult.resources
     (ScannerService._enrich_fronted_by_relationships port sr origins_map) !! i
   = Some resource).
Proof.
  intros Hi.
  assert (Hlookup :
    ScanResult.resources
      (ScannerService._enrich_fronted_by_relationships port sr origins_map) !! i
    = Some (ScannerService.enrich_resource port origins_map resource)).
  { unfold ScannerService._enrich_fronted_by_relationships. cbn [ScanResult.resources
      ScanResult.set_resources]. rewrite lookup_map, Hi. reflexivity. }
  rewrite Hlookup. split.
  - intros origin_domain cloudfront_dists Htype Hacl Hhost Hne Hentries _.
    rewrite (enrich_resource_eligible port origins_map resource origin_domain
               cloudfront_dists) by assumption.
    split.
    + intros before cf acl after -> Hbefore Hcf.
      rewrite (attach_first_protected_found resource before cf acl after) by assumption.
      eexists. split; [reflexivity |]. split; [reflexivity |].
      cbn [Resource.set_fronted_by Resource.fronted_by_resource_arn Resource.fronted_by_waf
           Resource.fronted_by_notes Resource.arn Resource.resource_type Resource.region
           Resource.account_id Resource.name Resource.web_acl Resource.is_public
           Resource.tags Resource.scanned_at].
      repeat (split; [first [reflexivity | exact Hacl] |]).
      unfold Resource.get_compliance_status, Resource.has_waf.
      cbn [Resource.set_fronted_by Resource.web_acl Resource.fronted_by_waf].
      rewrite Hacl. reflexivity.
    + intros Hall. rewrite attach_first_protected_none by exact Hall. reflexivity.
  - intros Hskip. rewrite enrich_resource_skipped by exact Hskip. reflexivity.
Qed.

Lemma fronted_by_first_protected_entry_witness :
  exists enriched,
    ScanResult.resources
      (ScannerService._enrich_fronted_by_relationships (boto3_client cdn_account)
         scanned_http_api api_host_index) !! 0
    = Some enriched /\
    Resource.fronted_by_resource_arn enriched
    = Some "arn:aws:cloudfront::123456789012:distribution/E2PROTECTED" /\
    Resource.fronted_by_waf enriched = Some global_policy /\
    Resource.fronted_by_notes enriched
    = Some ("Fronted by CloudFront Distribution "
            ++ "arn:aws:cloudfront::123456789012:distribution/E2PROTECTED"
            ++ " with WAF edge") /\
    Resource.web_acl enriched = None /\
    Resource.get_compliance_status enriched = "COMPLIANT_FRONTED_BY_WAF".
Proof.
  destruct (fronted_by_first_protected_entry (boto3_client cdn_account) scanned_http_api
              api_host_index 0 http_api eq_refl) as [Heligible _].
  destruct (Heligible api_host
              [fronting_entry "123456789012" dist_unprotected None;
               fronting_entry "123456789012" dist_protected (Some global_policy)])
    as [Hfound _].
  - constructor.
  - reflexivity.
  - reflexivity.
  - discriminate.
  - reflexivity.
  - discriminate.
  - destruct (Hfound [fronting_entry "123456789012" dist_unprotected None]
                (fronting_entry "123456789012" dist_protected (Some global_policy))
                global_policy [])
      as (enriched & Hlookup & _ & Harn & Hwaf & Hnotes & _ & _ & _ & _ & _ & Hacl & _ & _
          & _ & Hstatus).
    + reflexivity.
    + constructor; [reflexivity | constructor].
    + reflexivity.
    + exists enriched. repeat (split; [assumption |]). exact Hstatus.
Defined.

(** ** Enumeration failures *)

Lemma add_resources_effect (waf_map : gmap string WebACL.t) resources (st : scan_state) :
  ScanResult.errors
    (scan_result (fold_left (ScannerService.enrich_and_add waf_map) resources st))
  = ScanResult.errors (scan_result st) /\
  state_arns (fold_left (ScannerService.enrich_and_add waf_map) resources st)
  = (state_arns st ++ map Resource.arn resources)%list.
Proof.
  revert st. induction resources as [| r resources IH]; intros st.
  - cbn. rewrite app_nil_r. auto.
  - cbn [fold_left]. destruct (IH (ScannerService.enrich_and_add waf_map st r)) as [He Ha].
    rewrite He, Ha. split; [reflexivity |].
    unfold state_arns, ScannerService.enrich_and_add, ScannerService.add_resource.
    cbn [scan_result ScanResult.add_resource ScanResult.resources].
    rewrite map_app, <- app_assoc. cbn [map app]. do 2 f_equal.
    destruct (negb _); [| reflexivity].
    destruct (waf_map !! Resource.arn r); reflexivity.
Qed.

(** What [_scan_resource_type] does on a pair whose enumeration raises. *)
Lemma _scan_resource_type_failure port (st : scan_state) region resource_type
    (waf_map : gmap string WebACL.t) e :
  enumerated (region, resource_type) = true ->
  AWSClientPort.list_resources port resource_type region = Raise e ->
  ScanResult.errors
    (scan_result (ScannerService._scan_resource_type port st region resource_type waf_map))
  = (ScanResult.errors (scan_result st)
     ++ [{| err_region := region;
            err_resource_type := Some (ResourceType.value resource_type);
            err_message := exn_str e;
            err_timestamp := clock st |}])%list /\
  ScanResult.resources
    (scan_result (ScannerService._scan_resource_type port st region resource_type waf_map))
  = ScanResult.resources (scan_result st).
Proof.
  intros Henum Hraise. unfold ScannerService._scan_resource_type.
  unfold enumerated in Henum. cbn [fst snd] in Henum.
  apply negb_true_iff in Henum. rewrite Henum, Hraise. split; reflexivity.
Qed.

Lemma _scan_resource_type_effect port (st : scan_state) region resource_type
    (waf_map : gmap string WebACL.t) :
  state_errors (ScannerService._scan_resource_type port st region resource_type waf_map)
  = (state_errors st ++ pair_errors port (region, resource_type))%list /\
  state_arns (ScannerService._scan_resource_type port st region resource_type waf_map)
  = (state_arns st ++ pair_arns port (region, resource_type))%list.
Proof.
  unfold ScannerService._scan_resource_type, pair_errors, pair_arns, enumerated.
  cbn [fst snd].
  destruct (bool_decide (resource_type = ResourceType.CLOUDFRONT)
            && negb (bool_decide (region = "us-east-1"))); cbn [negb].
  - rewrite !app_nil_r. auto.
  - destruct (AWSClientPort.list_resources port resource_type region) as [resources | e].
    + destruct (add_resources_effect waf_map resources st) as [He Ha].
      unfold state_errors. rewrite He, Ha, app_nil_r. auto.
    + unfold state_errors, state_arns. cbn. rewrite map_app, app_nil_r. auto.
Qed.

Lemma _scan_region_effect port (st : scan_state) region resource_types
    (waf_map : gmap string WebACL.t) :
  state_errors (ScannerService._scan_region port st region resource_types waf_map)
  = (state_errors st ++ flat_map (pair_errors port) (map (pair region) resource_types))%list /\
  state_arns (ScannerService._scan_region port st region resource_types waf_map)
  = (state_arns st ++ flat_map (pair_arns port) (map (pair region) resource_types))%list.
Proof.
  unfold ScannerService._scan_region.
  revert st. induction resource_types as [| rt rts IH]; intros st.
  - cbn. rewrite !app_nil_r. auto.
  - cbn [fold_left map flat_map].
    destruct (IH (ScannerService._scan_resource_type port st region rt waf_map)) as [He Ha].
    destruct (_scan_resource_type_effect port st region rt waf_map) as [He1 Ha1].
    rewrite He, Ha, He1, Ha1, <- !app_assoc. auto.
Qed.

Lemma scan_regions_effect port (st : scan_state) regions resource_types
    (waf_map : gmap string WebACL.t) :
  state_errors
    (fold_left (fun st region =>
                  ScannerService._scan_region port st region resource_types waf_map)
       regions st)
  = (state_errors st ++ flat_map (pair_errors port) (scanned_pairs regions resource_types))%list /\
  state_arns
    (fold_left (fun st region =>
                  ScannerService._scan_region port st region resource_types waf_map)
       regions st)
  = (state_arns st ++ flat_map (pair_arns port) (scanned_pairs regions resource_types))%list.
Proof.
  unfold scanned_pairs.
  revert st. induction regions as [| region regions IH]; intros st.
  - cbn. rewrite !app_nil_r. auto.
  - cbn [fold_left flat_map].
    destruct (IH (ScannerService._scan_region port st region resource_types waf_map))
      as [He Ha].
    destruct (_scan_region_effect port st region resource_types waf_map) as [He1 Ha1].
    rewrite He, Ha, He1, Ha1, !flat_map_app, <- !app_assoc. auto.
Qed.

Lemma enrich_resource_arn port (origins_map : gmap string (list cf_dist)) (r : Resource.t) :
  Resource.arn (ScannerService.enrich_resource port origins_map r) = Resource.arn r.
Proof.
  unfold ScannerService.enrich_resource.
  destruct (negb _); [reflexivity |].
  destruct (Resource.truthy_waf _); [reflexivity |].
  destruct (AWSClientPort.match_resource_to_origin port r) as [h |]; [| reflexivity].
  destruct (bool_decide _); [reflexivity |].
  destruct (default [] (origins_map !! h)) as [| cf dists]; [reflexivity |].
  generalize (cf :: dists). intros l. induction l as [| d l IH]; [reflexivity |].
  cbn. destruct (cf_web_acl d); [reflexivity | exact IH].
Qed.

(** The scan returns as soon as the caller identity and, when asked for,
    the origin index are obtained; its errors and resources are those of the
    pairs, in order. *)
Lemma scan_effect (port : AWSClientPort.t) scan_id now regions resource_types
    include_waf_lookup identity :
  AWSClientPort.get_caller_identity port = Ok identity ->
  (include_waf_lookup = true ->
   exists origins_map, AWSClientPort.get_cloudfront_origins_map port = Ok origins_map) ->
  exists sr,
    ScannerService.scan port scan_id now regions resource_types include_waf_lookup = Ok sr /\
    map error_key (ScanResult.errors sr) =
      flat_map (pair_errors port)
        (scanned_pairs (ScannerService.list_or regions ScannerService.DEFAULT_REGIONS)
           (ScannerService.list_or resource_types ScannerService.DEFAULT_RESOURCE_TYPES)) /\
    map Resource.arn (ScanResult.resources sr) =
      flat_map (pair_arns port)
        (scanned_pairs (ScannerService.list_or regions ScannerService.DEFAULT_REGIONS)
           (ScannerService.list_or resource_types ScannerService.DEFAULT_RESOURCE_TYPES)) /\
    is_Some (ScanResult.scan_completed_at sr).
Proof.
  intros Hid Horigins.
  unfold ScannerService.scan. rewrite Hid. cbn [mbind result_bind].
  pose (rs := ScannerService.list_or regions ScannerService.DEFAULT_REGIONS).
  pose (rts := ScannerService.list_or resource_types ScannerService.DEFAULT_RESOURCE_TYPES).
  pose (st0 := {| scan_result := ScanResult.mk (account identity) rs scan_id now None [] [];
                  clock := S now |}).
  destruct include_waf_lookup.
  - destruct (Horigins eq_refl) as [origins_map ->].
    cbn [mbind result_bind mret result_ret].
    destruct (scan_regions_effect port st0 rs rts
                (AWSClientPort.get_waf_associations_map port rs)) as [He Ha].
    eexists. split; [reflexivity |].
    split; [exact He |]. split; [| cbn; eauto].
    etransitivity; [| exact Ha].
    cbn [ScannerService.complete scan_result ScanResult.complete ScanResult.resources
         ScannerService._enrich_fronted_by_relationships ScanResult.set_resources].
    unfold state_arns. rewrite map_map.
    apply map_ext. intros r. apply enrich_resource_arn.
  - cbn [mbind result_bind mret result_ret].
    destruct (scan_regions_effect port st0 rs rts ∅) as [He Ha].
    eexists. split; [reflexivity |].
    split; [exact He |]. split; [exact Ha | cbn; eauto].
Qed.

(** The boto3 client builds the origin index whenever it knows the caller. *)
Lemma boto3_origin_index_built (aws : AWS) (identity : Identity) :
  sts_get_caller_identity aws = Response identity ->
  AWSClientPort.get_caller_identity (boto3_client aws) = Ok identity /\
  exists origins_map,
    AWSClientPort.get_cloudfront_origins_map (boto3_client aws) = Ok origins_map.
Proof.
  intros Hid. split.
  - cbn. unfold Boto3AWSClient.get_caller_identity. rewrite Hid. reflexivity.
  - eexists. cbn. apply get_cloudfront_origins_map_record, Hid.
Qed.

(** C8. A pair (resource type, region) whose enumeration raises appends
    exactly one error record (region, resource type, message, timestamp) and
    no resource. The scan goes on with the remaining pairs and returns a
    completed result: its errors are those of the failing pairs, one each and
    in order, and its resources those of every pair whose enumeration
    answered. With the boto3 client the scan returns whenever the caller
    identity is known. *)
Theorem enumeration_failure_is_recorded (port : AWSClientPort.t) :
  (forall (st : scan_state) region resource_type (waf_map : gmap string WebACL.t) e,
     enumerated (region, resource_type) = true ->
     AWSClientPort.list_resources port resource_type region = Raise e ->
     ScanResult.errors
       (scan_result (ScannerService._scan_resource_type port st region resource_type waf_map))
     = (ScanResult.errors (scan_result st)
        ++ [{| err_region := region;
               err_resource_type := Some (ResourceType.value resource_type);
               err_message := exn_str e;
               err_timestamp := clock st |}])%list /\
     ScanResult.resources
       (scan_result (ScannerService._scan_resource_type port st region resource_type waf_map))
     = ScanResult.resources (scan_result st)) /\
  (forall scan_id now regions resource_types include_waf_lookup identity,
     AWSClientPort.get_caller_identity port = Ok identity ->
     (include_waf_lookup = true ->
      exists origins_map, AWSClientPort.get_cloudfront_origins_map port = Ok origins_map) ->
     exists sr,
       ScannerService.scan port scan_id now regions resource_types include_waf_lookup = Ok sr /\
       map error_key (ScanResult.errors sr) =
         flat_map (pair_errors port)
           (scanned_pairs (ScannerService.list_or regions ScannerService.DEFAULT_REGIONS)
              (ScannerService.list_or resource_types ScannerService.DEFAULT_RESOURCE_TYPES)) /\
       map Resource.arn (ScanResult.resources sr) =
         flat_map (pair_arns port)
           (scanned_pairs (ScannerService.list_or regions ScannerService.DEFAULT_REGIONS)
              (ScannerService.list_or resource_types ScannerService.DEFAULT_RESOURCE_TYPES)) /\
       is_Some (ScanResult.scan_completed_at sr)) /\
  (forall (aws : AWS) identity scan_id now regions resource_types include_waf_lookup,
     port = boto3_client aws ->
     sts_get_caller_identity aws = Response identity ->
     exists sr,
       ScannerService.scan port scan_id now regions resource_types include_waf_lookup = Ok sr).
Proof.
  split; [| split].
  - intros st region resource_type waf_map e. apply _scan_resource_type_failure.
  - intros scan_id now regions resource_types include_waf_lookup identity.
    apply scan_effect.
  - intros aws identity scan_id now regions resource_types include_waf_lookup -> Hid.
    destruct (boto3_origin_index_built aws identity Hid) as [Hcaller Hindex].
    destruct (scan_effect (boto3_client aws) scan_id now regions resource_types
                include_waf_lookup identity Hcaller (fun _ => Hindex)) as (sr & Hok & _).
    exists sr. exact Hok.
Qed.

Lemma enumeration_failure_is_recorded_witness :
  exists sr,
    ScannerService.scan (boto3_client failing_account) "scan-1" 0 None None true = Ok sr /\
    map error_key (ScanResult.errors sr) =
      [("us-east-1", Some "APPLICATION_LOAD_BALANCER", "AccessDenied")] /\
    map Resource.arn (ScanResult.resources sr) =
      ["arn:aws:apigateway:us-east-1::/apis/o5yl95v1g1"] /\
    is_Some (ScanResult.scan_completed_at sr).
Proof.
  destruct (enumeration_failure_is_recorded (boto3_client failing_account)) as (_ & Hscan & _).
  destruct (Hscan "scan-1" 0 None None true scanner_identity eq_refl)
    as (sr & Hok & Herrors & Harns & Hdone).
  - intros _. eexists. reflexivity.
  - exists sr. split; [exact Hok |]. split; [exact Herrors |].
    split; [exact Harns | exact Hdone].
Defined.

(** The whole scan of [failing_account]: one error for the load balancers,
    and the HTTP API found behind the protected distribution. *)
Example scan_failing_account :
  (fun sr => (map error_key (ScanResult.errors sr),
              map Resource.get_compliance_status (ScanResult.resources sr),
              map Resource.fronted_by_resource_arn (ScanResult.resources sr)))
    <$> ScannerService.scan (boto3_client failing_account) "scan-1" 0 None None true
  = Ok ([("us-east-1", Some "APPLICATION_LOAD_BALANCER", "AccessDenied")],
        ["COMPLIANT_FRONTED_BY_WAF"],
        [Some "arn:aws:cloudfront::123456789012:distribution/E2PROTECTED"]).
Proof. vm_compute. reflexivity. Qed.

(** ** Malformed policy identifiers *)

(** C7. On every string the parser answers, with a policy or with none, and
    never raises; the scope of a parsed policy is CLOUDFRONT exactly when the
    scope segment starts with [global], and REGIONAL otherwise. When the
    identifier of a distribution does not parse, the index is still built and
    the distribution's origins are recorded with no policy; and the errors of
    a scan are those of the enumeration alone, whatever the identifiers of
    the distributions. *)
Theorem malformed_policy_identifier_degrades (waf_arn : string) :
  (exists parsed,
     Boto3AWSClient._parse_waf_arn waf_arn = Ok parsed /\
     forall acl, parsed = Some acl ->
       exists scope_segment,
         list_get (PyStr.split ":" waf_arn) 5 = Ok scope_segment /\
         (WebACL.scope acl = "CLOUDFRONT" <->
          PyStr.startswith "global" scope_segment = true) /\
         (WebACL.scope acl = "REGIONAL" <->
          PyStr.startswith "global" scope_segment = false)) /\
  (forall (aws : AWS) identity dist_summary config domain,
     sts_get_caller_identity aws = Response identity ->
     In dist_summary (listed_distributions (cloudfront_list_distributions aws)) ->
     cloudfront_get_distribution aws (dist_Id dist_summary) = Response config ->
     WebACLId config = waf_arn ->
     Boto3AWSClient._parse_waf_arn waf_arn = Ok None ->
     In domain (Origins config) ->
     Boto3AWSClient.is_s3_origin domain = false ->
     exists origins_map entries,
       Boto3AWSClient.get_cloudfront_origins_map aws = Ok origins_map /\
       origins_map !! domain = Some entries /\
       In (fronting_entry (account identity) dist_summary None) entries) /\
  (forall (aws : AWS) identity scan_id now regions resource_types,
     sts_get_caller_identity aws = Response identity ->
     exists sr,
       ScannerService.scan (boto3_client aws) scan_id now regions resource_types true = Ok sr /\
       map error_key (ScanResult.errors sr) =
         flat_map (pair_errors (boto3_client aws))
           (scanned_pairs (ScannerService.list_or regions ScannerService.DEFAULT_REGIONS)
              (ScannerService.list_or resource_types
                 ScannerService.DEFAULT_RESOURCE_TYPES))).
Proof.
  split; [| split].
  - destruct (_parse_waf_arn_total waf_arn) as [parsed Hparsed].
    exists parsed. split; [exact Hparsed |].
    intros acl ->. destruct (_parse_waf_arn_scope waf_arn acl Hparsed)
      as (seg & Hseg & Hscope & _).
    exists seg. split; [exact Hseg |]. rewrite Hscope.
    destruct (PyStr.startswith "global" seg); split; split; congruence.
  - intros aws identity dist_summary config domain Hid Hd Hconfig Hacl Hnone Hdomain Hs3.
    assert (Hw : Boto3AWSClient.distribution_web_acl config = Ok None).
    { unfold Boto3AWSClient.distribution_web_acl. rewrite Hacl.
      case_bool_decide; [reflexivity | exact Hnone]. }
    destruct (visited_origin_recorded aws identity dist_summary config None domain
                Hd Hconfig Hw Hdomain Hs3) as (entries & Hlookup & Hin).
    eexists. exists entries.
    split; [apply get_cloudfront_origins_map_record, Hid |].
    split; [exact Hlookup | exact Hin].
  - intros aws identity scan_id now regions resource_types Hid.
    destruct (boto3_origin_index_built aws identity Hid) as [Hcaller Hindex].
    destruct (scan_effect (boto3_client aws) scan_id now regions resource_types
                true identity Hcaller (fun _ => Hindex)) as (sr & Hok & Herrors & _).
    exists sr. split; [exact Hok | exact Herrors].
Qed.

(** A policy identifier that is no ARN parses to no policy, and the origin
    of its distribution is in the index all the same. *)
Example classic_policy_id_parses_to_none :
  Boto3AWSClient._parse_waf_arn classic_policy_id = Ok None /\
  Boto3AWSClient._parse_waf_arn "a/b/c" = Ok None /\
  Boto3AWSClient._parse_waf_arn global_policy_arn = Ok (Some global_policy).
Proof. repeat split. Qed.


Lemma malformed_policy_identifier_degrades_witness :
  Boto3AWSClient._parse_waf_arn classic_policy_id = Ok None /\
  exists origins_map entries,
    Boto3AWSClient.get_cloudfront_origins_map cdn_account = Ok origins_map /\
    origins_map !! api_host = Some entries /\
    In (fronting_entry "123456789012" dist_unprotected None) entries.
Proof.
  split; [reflexivity |].
  destruct (malformed_policy_identifier_degrades classic_policy_id) as (_ & Hrecorded & _).
  apply (Hrecorded cdn_account scanner_identity dist_unprotected
           {| WebACLId := classic_policy_id; Origins := [api_host; bucket_host] |} api_host);
    [reflexivity | left; reflexivity | reflexivity | reflexivity | reflexivity
    | left; reflexivity | reflexivity].
Defined.

(** * Further properties of the code *)

(** ** Statistics of a scan result *)

Lemma filter_negb_length {A : Type} (p : A -> bool) (l : list A) :
  length (List.filter p l) + length (List.filter (fun x => negb (p x)) l) = length l.
Proof.
  induction l as [| x l IH]; [reflexivity |].
  cbn. destruct (p x); cbn; lia.
Qed.

Lemma filter_length_mono {A : Type} (p q : A -> bool) (l : list A) :
  (forall x, p x = true -> q x = true) ->
  length (List.filter p l) <= length (List.filter q l).
Proof.
  intros Hpq. induction l as [| x l IH]; [reflexivity |].
  cbn. destruct (p x) eqn:Hp.
  - rewrite (Hpq x Hp). cbn. lia.
  - destruct (q x); cbn; lia.
Qed.

Lemma has_waf_is_compliant (r : Resource.t) :
  Resource.has_waf r = true -> Resource.is_compliant r = true.
Proof. unfold Resource.is_compliant. intros ->. reflexivity. Qed.

Lemma statistics_partition_aux (sr : ScanResult.t) :
  (0 <= ScanResult.resources_with_waf sr <= ScanResult.total_resources sr)%Z /\
  (0 <= ScanResult.compliant_resources sr <= ScanResult.total_resources sr)%Z /\
  (ScanResult.resources_with_waf sr <= ScanResult.compliant_resources sr)%Z.
Proof.
  split; [apply count_bounds |]. split; [apply count_bounds |].
  unfold ScanResult.resources_with_waf, ScanResult.compliant_resources, ScanResult.count.
  pose proof (filter_length_mono Resource.has_waf Resource.is_compliant
                (ScanResult.resources sr) has_waf_is_compliant).
  lia.
Qed.

(** X1. The counters of a scan result split its resources in two, twice:
    with and without a policy, compliant and not; and no more resources carry
    a policy than are compliant. *)
Theorem statistics_partition (sr : ScanResult.t) :
  (ScanResult.resources_with_waf sr + ScanResult.resources_without_waf sr
   = ScanResult.total_resources sr)%Z /\
  (ScanResult.compliant_resources sr + ScanResult.non_compliant_resources sr
   = ScanResult.total_resources sr)%Z /\
  (ScanResult.resources_with_waf sr <= ScanResult.compliant_resources sr)%Z.
Proof.
  unfold ScanResult.resources_with_waf, ScanResult.resources_without_waf,
    ScanResult.compliant_resources, ScanResult.non_compliant_resources,
    ScanResult.total_resources, ScanResult.count.
  pose proof (filter_negb_length Resource.has_waf (ScanResult.resources sr)).
  pose proof (filter_negb_length Resource.is_compliant (ScanResult.resources sr)).
  pose proof (filter_length_mono Resource.has_waf Resource.is_compliant
                (ScanResult.resources sr) has_waf_is_compliant).
  lia.
Qed.

Lemma by_type_lengths (l : list Resource.t) :
  list_sum (map (fun rt => length (List.filter
                   (fun r => bool_decide (Resource.resource_type r = rt)) l))
              all_resource_types)
  = length l.
Proof.
  induction l as [| r l IH]; [reflexivity |].
  cbn [length]. rewrite <- IH. unfold all_resource_types. cbn [map list_sum List.filter].
  destruct (Resource.resource_type r);
    repeat (case_bool_decide; try congruence);
    unfold list_sum; cbn [fold_right length]; lia.
Qed.

(** X2. The query methods agree with the counters: as many non-compliant
    resources, and resources without a policy, as counted; and the lists by
    resource type, over the eight types, share out all the resources. *)
Theorem queries_agree_with_counters (sr : ScanResult.t) :
  Z.of_nat (length (ScanResultQuery.get_non_compliant_resources sr))
  = ScanResult.non_compliant_resources sr /\
  Z.of_nat (length (ScanResultQuery.get_resources_without_waf sr))
  = ScanResult.resources_without_waf sr /\
  Z.of_nat (list_sum (map (fun rt => length (ScanResultQuery.get_resources_by_type sr rt))
                        all_resource_types))
  = ScanResult.total_resources sr /\
  (forall r, In r (ScanResultQuery.get_non_compliant_resources sr) ->
     Resource.get_compliance_status r = "NON_COMPLIANT").
Proof.
  split; [reflexivity |]. split; [reflexivity |]. split.
  - unfold ScanResultQuery.get_resources_by_type, ScanResult.total_resources.
    rewrite by_type_lengths. reflexivity.
  - intros r Hin. apply filter_In in Hin as [_ Hnc].
    unfold Resource.get_compliance_status.
    unfold Resource.is_compliant in Hnc |- *.
    destruct (Resource.has_waf r); [discriminate |].
    destruct (Resource.truthy_waf (Resource.fronted_by_waf r)); [discriminate |].
    rewrite Hnc. reflexivity.
Qed.

Lemma percentage_monotone (rnd : Q -> Q) (part1 part2 total : Z) :
  float_rounding rnd ->
  (part1 <= part2)%Z -> (0 < total)%Z ->
  (float_mul rnd (rnd (inject_Z part1 / inject_Z total)) (100 # 1)
   <= float_mul rnd (rnd (inject_Z part2 / inject_Z total)) (100 # 1))%Q.
Proof.
  intros [Hmono _ _ _] Hle Hpos. unfold float_mul.
  apply Hmono, Qmult_le_compat_r; [| discriminate].
  apply Hmono. unfold Qdiv. apply Qmult_le_compat_r.
  - rewrite <- Zle_Qle. exact Hle.
  - apply Qinv_le_0_compat, Qlt_le_weak.
    rewrite (Zlt_Qlt 0 total) in Hpos. exact Hpos.
Qed.

(** X3. The WAF coverage rate is computed without a division error, lies
    between 0 and 100, and never exceeds the compliance rate. *)
Theorem coverage_rate_below_compliance_rate (rnd : Q -> Q) (sr : ScanResult.t) :
  float_rounding rnd ->
  exists coverage compliance : Q,
    ScanResult.get_waf_coverage_rate rnd sr = Ok coverage /\
    ScanResult.get_compliance_rate rnd sr = Ok compliance /\
    (0 <= coverage)%Q /\ (coverage <= compliance)%Q /\ (compliance <= 100 # 1)%Q.
Proof.
  intros Hrnd.
  unfold ScanResult.get_waf_coverage_rate, ScanResult.get_compliance_rate, truediv.
  destruct (ScanResult.total_resources sr =? 0)%Z eqn:Hz.
  - exists (0 # 1)%Q, (100 # 1)%Q. repeat split; discriminate.
  - apply Z.eqb_neq in Hz. cbn.
    destruct (statistics_partition_aux sr) as (Hw & Hc & Hwc).
    assert (Hpos : (0 < ScanResult.total_resources sr)%Z).
    { unfold ScanResult.total_resources in *. lia. }
    destruct (percentage_bounds rnd (ScanResult.resources_with_waf sr)
                (ScanResult.total_resources sr) Hrnd) as [Hlo _]; [lia | exact Hpos |].
    destruct (percentage_bounds rnd (ScanResult.compliant_resources sr)
                (ScanResult.total_resources sr) Hrnd) as [_ Hhi]; [lia | exact Hpos |].
    eexists. eexists. split; [reflexivity |]. split; [reflexivity |].
    split; [exact Hlo |]. split; [| exact Hhi].
    apply percentage_monotone; [exact Hrnd | exact Hwc | exact Hpos].
Qed.

Lemma coverage_rate_below_compliance_rate_witness :
  exists coverage compliance : Q,
    ScanResult.get_waf_coverage_rate round_down_1024 two_of_three_compliant = Ok coverage /\
    ScanResult.get_compliance_rate round_down_1024 two_of_three_compliant = Ok compliance /\
    (0 <= coverage)%Q /\ (coverage <= compliance)%Q /\ (compliance <= 100 # 1)%Q.
Proof.
  apply (coverage_rate_below_compliance_rate round_down_1024 two_of_three_compliant).
  exact round_down_1024_rounding.
Defined.

(** ** The propagator and the evaluator together *)

Lemma attach_first_protected_cases (resource : Resource.t) cloudfront_dists :
  ScannerService.attach_first_protected resource cloudfront_dists = resource \/
  exists cf acl,
    In cf cloudfront_dists /\ cf_web_acl cf = Some acl /\
    ScannerService.attach_first_protected resource cloudfront_dists =
    Resource.set_fronted_by resource (Some (cloudfront_arn cf)) (Some acl)
      (Some (fronted_by_note cf acl)).
Proof.
  induction cloudfront_dists as [| d dists IH]; [left; reflexivity |].
  cbn [ScannerService.attach_first_protected].
  destruct (cf_web_acl d) as [acl |] eqn:Hd.
  - right. exists d, acl. split; [left; reflexivity |]. split; [exact Hd | reflexivity].
  - destruct IH as [IH | (cf & acl & Hin & Hcf & IH)]; [left; exact IH |].
    right. exists cf, acl. split; [right; exact Hin |]. split; [exact Hcf | exact IH].
Qed.

(** The propagator leaves a resource as it is or sets its fronted-by triple. *)
Lemma enrich_resource_cases port (origins_map : gmap string (list cf_dist))
    (resource : Resource.t) :
  ScannerService.enrich_resource port origins_map resource = resource \/
  exists cf acl,
    Resource.web_acl resource = None /\
    ScannerService.enrich_resource port origins_map resource =
    Resource.set_fronted_by resource (Some (cloudfront_arn cf)) (Some acl)
      (Some (fronted_by_note cf acl)).
Proof.
  unfold ScannerService.enrich_resource.
  destruct (negb _); [left; reflexivity |].
  destruct (Resource.web_acl resource) eqn:Hacl; cbn [Resource.truthy_waf];
    [left; reflexivity |].
  destruct (AWSClientPort.match_resource_to_origin port resource) as [h |];
    [| left; reflexivity].
  destruct (bool_decide _); [left; reflexivity |].
  destruct (default [] (origins_map !! h)) as [| d dists]; [left; reflexivity |].
  destruct (attach_first_protected_cases resource (d :: dists))
    as [-> | (cf & acl & _ & _ & ->)]; [left; reflexivity |].
  right. exists cf, acl. split; reflexivity.
Qed.

Lemma enrich_resource_has_waf port (origins_map : gmap string (list cf_dist))
    (resource : Resource.t) :
  Resource.has_waf (ScannerService.enrich_resource port origins_map resource)
  = Resource.has_waf resource.
Proof.
  destruct (enrich_resource_cases port origins_map resource)
    as [-> | (cf & acl & _ & ->)]; reflexivity.
Qed.

Lemma enrich_resource_compliant port (origins_map : gmap string (list cf_dist))
    (resource : Resource.t) :
  Resource.is_compliant resource = true ->
  Resource.is_compliant (ScannerService.enrich_resource port origins_map resource) = true.
Proof.
  destruct (enrich_resource_cases port origins_map resource)
    as [-> | (cf & acl & Hacl & ->)]; [auto |].
  intros _. unfold Resource.is_compliant, Resource.has_waf. cbn. rewrite Hacl. reflexivity.
Qed.

Lemma filter_map_length_mono {A : Type} (p q : A -> bool) (f : A -> A) (l : list A) :
  (forall x, p x = true -> q (f x) = true) ->
  length (List.filter p l) <= length (List.filter q (map f l)).
Proof.
  intros Hpq. induction l as [| x l IH]; [reflexivity |].
  cbn. destruct (p x) eqn:Hp.
  - rewrite (Hpq x Hp). cbn. lia.
  - destruct (q (f x)); cbn; lia.
Qed.

Lemma filter_map_length_eq {A : Type} (p : A -> bool) (f : A -> A) (l : list A) :
  (forall x, p (f x) = p x) ->
  length (List.filter p (map f l)) = length (List.filter p l).
Proof.
  intros Hp. induction l as [| x l IH]; [reflexivity |].
  cbn. rewrite Hp. destruct (p x); cbn; lia.
Qed.

(** X4. The propagation keeps the number of resources, the numbers of
    resources with and without a direct policy and the errors, and never
    lowers the number of compliant resources. *)
Theorem propagation_never_lowers_compliance port (sr : ScanResult.t)
    (origins_map : gmap string (list cf_dist)) :
  ScanResult.total_resources
    (ScannerService._enrich_fronted_by_relationships port sr origins_map)
  = ScanResult.total_resources sr /\
  ScanResult.resources_with_waf
    (ScannerService._enrich_fronted_by_relationships port sr origins_map)
  = ScanResult.resources_with_waf sr /\
  ScanResult.resources_without_waf
    (ScannerService._enrich_fronted_by_relationships port sr origins_map)
  = ScanResult.resources_without_waf sr /\
  (ScanResult.compliant_resources sr <=
   ScanResult.compliant_resources
     (ScannerService._enrich_fronted_by_relationships port sr origins_map))%Z /\
  ScanResult.errors (ScannerService._enrich_fronted_by_relationships port sr origins_map)
  = ScanResult.errors sr.
Proof.
  unfold ScanResult.total_resources, ScanResult.resources_with_waf,
    ScanResult.resources_without_waf, ScanResult.compliant_resources, ScanResult.count,
    ScannerService._enrich_fronted_by_relationships.
  cbn [ScanResult.resources ScanResult.set_resources ScanResult.errors].
  rewrite length_map.
  rewrite (filter_map_length_eq Resource.has_waf)
    by (intros r; apply enrich_resource_has_waf).
  rewrite (filter_map_length_eq (fun r => negb (Resource.has_waf r)))
    by (intros r; rewrite enrich_resource_has_waf; reflexivity).
  pose proof (filter_map_length_mono Resource.is_compliant Resource.is_compliant
                (ScannerService.enrich_resource port origins_map)
                (ScanResult.resources sr)
                (enrich_resource_compliant port origins_map)).
  repeat split; lia.
Qed.

(** The propagator as one decision: the entries to look at, if any. *)
Lemma enrich_resource_unfold port (origins_map : gmap string (list cf_dist))
    (resource : Resource.t) :
  ScannerService.enrich_resource port origins_map resource =
  if bool_decide (Resource.resource_type resource ∈
       [ResourceType.API_GATEWAY_HTTP; ResourceType.API_GATEWAY_REST; ResourceType.ALB])
     && negb (Resource.truthy_waf (Resource.web_acl resource))
  then ScannerService.attach_first_protected resource
         match AWSClientPort.match_resource_to_origin port resource with
         | Some h => if bool_decide (h = EmptyString) then [] else default [] (origins_map !! h)
         | None => []
         end
  else resource.
Proof.
  unfold ScannerService.enrich_resource.
  destruct (bool_decide (_ ∈ _)); cbn [negb andb]; [| reflexivity].
  destruct (Resource.truthy_waf _); cbn [negb]; [reflexivity |].
  destruct (AWSClientPort.match_resource_to_origin port resource) as [h |]; [| reflexivity].
  destruct (bool_decide (h = EmptyString)); [reflexivity |].
  destruct (default [] (origins_map !! h)); reflexivity.
Qed.

Lemma attach_first_protected_again (resource : Resource.t) cloudfront_dists :
  ScannerService.attach_first_protected
    (ScannerService.attach_first_protected resource cloudfront_dists) cloudfront_dists
  = ScannerService.attach_first_protected resource cloudfront_dists.
Proof.
  induction cloudfront_dists as [| d dists IH]; [reflexivity |].
  cbn [ScannerService.attach_first_protected].
  destruct (cf_web_acl d); [reflexivity | exact IH].
Qed.

(** The boto3 hostname deriver reads the type, the identifier and the
    region of a resource, which the propagator leaves alone. *)
Lemma match_resource_to_origin_attached (aws : AWS) (resource : Resource.t) cloudfront_dists :
  Boto3AWSClient.match_resource_to_origin aws
    (ScannerService.attach_first_protected resource cloudfront_dists)
  = Boto3AWSClient.match_resource_to_origin aws resource.
Proof.
  destruct (attach_first_protected_cases resource cloudfront_dists)
    as [-> | (cf & acl & _ & _ & ->)]; reflexivity.
Qed.

Lemma boto3_enrich_resource_again (aws : AWS) (origins_map : gmap string (list cf_dist))
    (resource : Resource.t) :
  ScannerService.enrich_resource (boto3_client aws) origins_map
    (ScannerService.enrich_resource (boto3_client aws) origins_map resource)
  = ScannerService.enrich_resource (boto3_client aws) origins_map resource.
Proof.
  rewrite (enrich_resource_unfold _ _ resource).
  destruct (_ && _) eqn:Heligible; [| rewrite enrich_resource_unfold, Heligible; reflexivity].
  set (dists := match AWSClientPort.match_resource_to_origin (boto3_client aws) resource with
                | Some h => _ | None => _ end).
  rewrite enrich_resource_unfold.
  assert (Hfields :
    Resource.resource_type (ScannerService.attach_first_protected resource dists)
    = Resource.resource_type resource /\
    Resource.web_acl (ScannerService.attach_first_protected resource dists)
    = Resource.web_acl resource).
  { destruct (attach_first_protected_cases resource dists)
      as [-> | (cf & acl & _ & _ & ->)]; split; reflexivity. }
  destruct Hfields as [-> ->]. rewrite Heligible.
  change (AWSClientPort.match_resource_to_origin (boto3_client aws)
            (ScannerService.attach_first_protected resource dists))
    with (Boto3AWSClient.match_resource_to_origin aws
            (ScannerService.attach_first_protected resource dists)).
  rewrite match_resource_to_origin_attached.
  apply attach_first_protected_again.
Qed.

(** X5. With the boto3 client the propagation is idempotent: run again on
    its own result, with the same origin index, it changes nothing. *)
Theorem propagation_idempotent (aws : AWS) (sr : ScanResult.t)
    (origins_map : gmap string (list cf_dist)) :
  ScannerService._enrich_fronted_by_relationships (boto3_client aws)
    (ScannerService._enrich_fronted_by_relationships (boto3_client aws) sr origins_map)
    origins_map
  = ScannerService._enrich_fronted_by_relationships (boto3_client aws) sr origins_map.
Proof.
  unfold ScannerService._enrich_fronted_by_relationships, ScanResult.set_resources.
  cbn [ScanResult.resources ScanResult.account_id ScanResult.regions_scanned
    ScanResult.scan_id ScanResult.scan_started_at ScanResult.scan_completed_at
    ScanResult.errors]. f_equal.
  rewrite map_map. apply map_ext. intros r. apply boto3_enrich_resource_again.
Qed.

Lemma attach_first_protected_exists (resource : Resource.t) cloudfront_dists :
  Exists (fun d => cf_web_acl d <> None) cloudfront_dists ->
  exists cf acl,
    In cf cloudfront_dists /\ cf_web_acl cf = Some acl /\
    ScannerService.attach_first_protected resource cloudfront_dists =
    Resource.set_fronted_by resource (Some (cloudfront_arn cf)) (Some acl)
      (Some (fronted_by_note cf acl)).
Proof.
  induction cloudfront_dists as [| d dists IH]; intros Hex; [inversion Hex |].
  cbn [ScannerService.attach_first_protected].
  destruct (cf_web_acl d) as [acl |] eqn:Hd.
  - exists d, acl. split; [left; reflexivity |]. split; [exact Hd | reflexivity].
  - inversion Hex as [? ? Hhere | ? ? Hlater]; subst; [congruence |].
    destruct (IH Hlater) as (cf & acl & Hin & Hcf & Heq).
    exists cf, acl. split; [right; exact Hin |]. split; [exact Hcf | exact Heq].
Qed.

(** X6. A gateway or load balancer without direct policy, whose hostname has
    entries in the origin index of which one carries a policy, leaves the
    propagation compliant with the status COMPLIANT_FRONTED_BY_WAF, whatever
    its type and exposure; its fronted-by policy is the one of an entry of
    its hostname. *)
Theorem fronted_resource_status port (origins_map : gmap string (list cf_dist))
    (resource : Resource.t) origin_domain cloudfront_dists :
  Resource.resource_type resource ∈
    [ResourceType.API_GATEWAY_HTTP; ResourceType.API_GATEWAY_REST; ResourceType.ALB] ->
  Resource.web_acl resource = None ->
  AWSClientPort.match_resource_to_origin port resource = Some origin_domain ->
  origin_domain <> EmptyString ->
  origins_map !! origin_domain = Some cloudfront_dists ->
  Exists (fun d => cf_web_acl d <> None) cloudfront_dists ->
  Resource.get_compliance_status (ScannerService.enrich_resource port origins_map resource)
  = "COMPLIANT_FRONTED_BY_WAF" /\
  Resource.is_compliant (ScannerService.enrich_resource port origins_map resource) = true /\
  exists cf acl,
    In cf cloudfront_dists /\ cf_web_acl cf = Some acl /\
    Resource.fronted_by_waf (ScannerService.enrich_resource port origins_map resource)
    = Some acl /\
    Resource.fronted_by_resource_arn
      (ScannerService.enrich_resource port origins_map resource)
    = Some (cloudfront_arn cf).
Proof.
  intros Htype Hacl Hhost Hne Hentries Hex.
  rewrite (enrich_resource_eligible port origins_map resource origin_domain cloudfront_dists)
    by assumption.
  destruct (attach_first_protected_exists resource cloudfront_dists Hex)
    as (cf & acl & Hin & Hcf & ->).
  unfold Resource.get_compliance_status, Resource.is_compliant, Resource.has_waf.
  cbn. rewrite Hacl. split; [reflexivity |]. split; [reflexivity |].
  exists cf, acl. auto.
Qed.

Lemma fronted_resource_status_witness :
  Resource.get_compliance_status
    (ScannerService.enrich_resource (boto3_client cdn_account) api_host_index http_api)
  = "COMPLIANT_FRONTED_BY_WAF".
Proof.
  apply (fronted_resource_status (boto3_client cdn_account) api_host_index http_api api_host
           [fronting_entry "123456789012" dist_unprotected None;
            fronting_entry "123456789012" dist_protected (Some global_policy)]).
  - constructor.
  - reflexivity.
  - reflexivity.
  - discriminate.
  - reflexivity.
  - right. left. discriminate.
Defined.

(** ** What a scan returns *)

Lemma skipped_pairs_contribute_nothing port pairs :
  Forall (fun p => enumerated p = false) pairs ->
  flat_map (pair_errors port) pairs = [] /\ flat_map (pair_arns port) pairs = [].
Proof.
  intros Hall. induction Hall as [| p pairs Hp _ [IHe IHa]]; [split; reflexivity |].
  cbn [flat_map]. rewrite IHe, IHa. unfold pair_errors, pair_arns. rewrite Hp.
  split; reflexivity.
Qed.

Lemma scanned_cloudfront_pairs_skipped port regions :
  ~ In "us-east-1" regions ->
  flat_map (pair_errors port) (scanned_pairs regions [ResourceType.CLOUDFRONT]) = [] /\
  flat_map (pair_arns port) (scanned_pairs regions [ResourceType.CLOUDFRONT]) = [].
Proof.
  intros Hnot. apply skipped_pairs_contribute_nothing.
  apply List.Forall_forall. intros [region rt] Hin.
  unfold scanned_pairs in Hin. apply in_flat_map in Hin as (region' & Hregion & Hin).
  destruct Hin as [[= <- <-] | []].
  unfold enumerated. cbn [fst snd].
  rewrite bool_decide_eq_true_2 by reflexivity.
  rewrite bool_decide_eq_false_2 by (intros ->; contradiction). reflexivity.
Qed.

(** X7. A scan of CloudFront distributions alone, over regions that do not
    include us-east-1, enumerates nothing: it returns a completed result
    with no resource and no error, whatever the client would answer. *)
Theorem cloudfront_is_scanned_from_us_east_1_only (port : AWSClientPort.t) scan_id now
    (regions : list string) include_waf_lookup identity :
  AWSClientPort.get_caller_identity port = Ok identity ->
  (include_waf_lookup = true ->
   exists origins_map, AWSClientPort.get_cloudfront_origins_map port = Ok origins_map) ->
  regions <> [] ->
  ~ In "us-east-1" regions ->
  exists sr,
    ScannerService.scan port scan_id now (Some regions) (Some [ResourceType.CLOUDFRONT])
      include_waf_lookup = Ok sr /\
    ScanResult.resources sr = [] /\
    ScanResult.errors sr = [] /\
    is_Some (ScanResult.scan_completed_at sr).
Proof.
  intros Hid Horigins Hregions Hnot.
  destruct (scan_effect port scan_id now (Some regions) (Some [ResourceType.CLOUDFRONT])
              include_waf_lookup identity Hid Horigins) as (sr & Hok & He & Ha & Hdone).
  assert (Hrs : ScannerService.list_or (Some regions) ScannerService.DEFAULT_REGIONS = regions)
    by (destruct regions; [contradiction | reflexivity]).
  rewrite Hrs in He, Ha. cbn [ScannerService.list_or] in He, Ha.
  destruct (scanned_cloudfront_pairs_skipped port regions Hnot) as [Hne Hna].
  rewrite Hne in He. rewrite Hna in Ha.
  exists sr. split; [exact Hok |].
  split; [eapply map_eq_nil, Ha |]. split; [eapply map_eq_nil, He | exact Hdone].
Qed.

Lemma cloudfront_is_scanned_from_us_east_1_only_witness :
  exists sr,
    ScannerService.scan (boto3_client failing_account) "scan-1" 0 (Some ["eu-west-1"])
      (Some [ResourceType.CLOUDFRONT]) true = Ok sr /\
    ScanResult.resources sr = [] /\
    ScanResult.errors sr = [] /\
    is_Some (ScanResult.scan_completed_at sr).
Proof.
  apply (cloudfront_is_scanned_from_us_east_1_only (boto3_client failing_account)
           "scan-1" 0 ["eu-west-1"] true scanner_identity).
  - reflexivity.
  - intros _. eexists. reflexivity.
  - discriminate.
  - intros [H | []]. discriminate H.
Defined.

Lemma all_pairs_fail port pairs :
  Forall (fun p => enumerated p = true ->
            exists e, AWSClientPort.list_resources port (snd p) (fst p) = Raise e) pairs ->
  flat_map (pair_arns port) pairs = [] /\
  length (flat_map (pair_errors port) pairs) = length (List.filter enumerated pairs).
Proof.
  intros Hall. induction Hall as [| p pairs Hp _ [IHa IHe]]; [split; reflexivity |].
  cbn [flat_map List.filter]. rewrite IHa, length_app, IHe.
  unfold pair_arns, pair_errors.
  destruct (enumerated p); [| split; reflexivity].
  destruct (Hp eq_refl) as [e ->]. split; reflexivity.
Qed.

(** X8. When every enumeration of a scan raises, the scan still returns: its
    result has no resource and one error for each pair it enumerated, and
    its compliance rate is 100.0 while its WAF coverage rate is 0.0. *)
Theorem failed_scan_reports_full_compliance (port : AWSClientPort.t) (rnd : Q -> Q)
    scan_id now regions resource_types include_waf_lookup identity :
  AWSClientPort.get_caller_identity port = Ok identity ->
  (include_waf_lookup = true ->
   exists origins_map, AWSClientPort.get_cloudfront_origins_map port = Ok origins_map) ->
  Forall (fun p => enumerated p = true ->
            exists e, AWSClientPort.list_resources port (snd p) (fst p) = Raise e)
    (scanned_pairs (ScannerService.list_or regions ScannerService.DEFAULT_REGIONS)
       (ScannerService.list_or resource_types ScannerService.DEFAULT_RESOURCE_TYPES)) ->
  exists sr,
    ScannerService.scan port scan_id now regions resource_types include_waf_lookup = Ok sr /\
    ScanResult.resources sr = [] /\
    length (ScanResult.errors sr) =
      length (List.filter enumerated
                (scanned_pairs (ScannerService.list_or regions ScannerService.DEFAULT_REGIONS)
                   (ScannerService.list_or resource_types
                      ScannerService.DEFAULT_RESOURCE_TYPES))) /\
    ScanResult.get_compliance_rate rnd sr = Ok (100 # 1)%Q /\
    ScanResult.get_waf_coverage_rate rnd sr = Ok (0 # 1)%Q.
Proof.
  intros Hid Horigins Hall.
  destruct (scan_effect port scan_id now regions resource_types include_waf_lookup identity
              Hid Horigins) as (sr & Hok & He & Ha & _).
  destruct (all_pairs_fail port _ Hall) as [Hna Hne].
  rewrite Hna in Ha. apply map_eq_nil in Ha.
  exists sr. split; [exact Hok |]. split; [exact Ha |].
  split; [rewrite <- Hne, <- He, length_map; reflexivity |].
  unfold ScanResult.get_compliance_rate, ScanResult.get_waf_coverage_rate,
    ScanResult.total_resources. rewrite Ha. split; reflexivity.
Qed.

Lemma failed_scan_reports_full_compliance_witness :
  exists sr,
    ScannerService.scan (boto3_client denied_account) "scan-1" 0 None None true = Ok sr /\
    ScanResult.resources sr = [] /\
    length (ScanResult.errors sr) = 8 /\
    ScanResult.get_compliance_rate round_down_1024 sr = Ok (100 # 1)%Q /\
    ScanResult.get_waf_coverage_rate round_down_1024 sr = Ok (0 # 1)%Q.
Proof.
  apply (failed_scan_reports_full_compliance (boto3_client denied_account) round_down_1024
           "scan-1" 0 None None true scanner_identity).
  - reflexivity.
  - intros _. eexists. reflexivity.
  - repeat constructor; intros _; eexists; reflexivity.
Defined.

Lemma extends_with_refl waf_map (st : scan_state) : extends_with waf_map st st [].
Proof. exists []. rewrite app_nil_r. repeat split. constructor. Qed.

Lemma extends_with_trans waf_map (st1 st2 st3 : scan_state) l1 l2 :
  extends_with waf_map st1 st2 l1 ->
  extends_with waf_map st2 st3 l2 ->
  extends_with waf_map st1 st3 (l1 ++ l2)%list.
Proof.
  intros (s1 & Hr1 & Hm1 & Hf1) (s2 & Hr2 & Hm2 & Hf2).
  exists (s1 ++ s2)%list. split; [rewrite Hr2, Hr1, app_assoc; reflexivity |].
  split; [rewrite !map_app, Hm1, Hm2; reflexivity | apply Forall_app; split; assumption].
Qed.

Lemma add_resources_extends waf_map resources (st : scan_state) :
  extends_with waf_map st
    (fold_left (ScannerService.enrich_and_add waf_map) resources st) resources.
Proof.
  revert st. induction resources as [| r resources IH]; intros st;
    [apply extends_with_refl |].
  cbn [fold_left].
  apply (extends_with_trans waf_map st (ScannerService.enrich_and_add waf_map st r) _
           [r] resources); [| apply IH].
  exists [Resource.set_scanned_at (attach_direct waf_map r) (Some (clock st))].
  split; [reflexivity |]. split; [reflexivity |].
  constructor; [cbn; eauto | constructor].
Qed.

Lemma _scan_resource_type_extends port waf_map (st : scan_state) region resource_type :
  extends_with waf_map st
    (ScannerService._scan_resource_type port st region resource_type waf_map)
    (pair_resources port (region, resource_type)).
Proof.
  unfold ScannerService._scan_resource_type, pair_resources, enumerated. cbn [fst snd].
  destruct (bool_decide (resource_type = ResourceType.CLOUDFRONT)
            && negb (bool_decide (region = "us-east-1"))); cbn [negb];
    [apply extends_with_refl |].
  destruct (AWSClientPort.list_resources port resource_type region) as [resources | e];
    [apply add_resources_extends |].
  exists []. rewrite app_nil_r. repeat split. constructor.
Qed.

Lemma _scan_region_extends port waf_map (st : scan_state) region resource_types :
  extends_with waf_map st
    (ScannerService._scan_region port st region resource_types waf_map)
    (flat_map (pair_resources port) (map (pair region) resource_types)).
Proof.
  unfold ScannerService._scan_region.
  revert st. induction resource_types as [| rt rts IH]; intros st;
    [apply extends_with_refl |].
  cbn [fold_left map flat_map].
  eapply extends_with_trans; [apply _scan_resource_type_extends | apply IH].
Qed.

Lemma scan_regions_extends port waf_map (st : scan_state) regions resource_types :
  extends_with waf_map st
    (fold_left (fun st region =>
                  ScannerService._scan_region port st region resource_types waf_map)
       regions st)
    (flat_map (pair_resources port) (scanned_pairs regions resource_types)).
Proof.
  unfold scanned_pairs.
  revert st. induction regions as [| region regions IH]; intros st;
    [apply extends_with_refl |].
  cbn [fold_left flat_map]. rewrite flat_map_app.
  eapply extends_with_trans; [apply _scan_region_extends | apply IH].
Qed.

Lemma enrich_resource_scanned_at port (origins_map : gmap string (list cf_dist))
    (resource : Resource.t) :
  Resource.scanned_at (ScannerService.enrich_resource port origins_map resource)
  = Resource.scanned_at resource.
Proof.
  destruct (enrich_resource_cases port origins_map resource)
    as [-> | (cf & acl & _ & ->)]; reflexivity.
Qed.

(** X9. The resources of a scan are the resources the enumerations answered
    with, in the order of the pairs, each carrying a scan timestamp and, as
    direct policy, the one the association index has for its identifier (a
    CloudFront distribution keeps the policy the enumeration found, and a
    resource absent from the index keeps its own), then passed through the
    propagator when the WAF lookup is asked for. *)
Theorem scan_resources_pipeline (port : AWSClientPort.t) scan_id now regions resource_types
    include_waf_lookup identity (origins_map : gmap string (list cf_dist)) :
  AWSClientPort.get_caller_identity port = Ok identity ->
  (include_waf_lookup = true ->
   AWSClientPort.get_cloudfront_origins_map port = Ok origins_map) ->
  exists sr stamped,
    ScannerService.scan port scan_id now regions resource_types include_waf_lookup = Ok sr /\
    ScanResult.resources sr =
      (if include_waf_lookup
       then map (ScannerService.enrich_resource port origins_map) stamped
       else stamped) /\
    map unstamp stamped =
      map (fun r =>
             unstamp
               (attach_direct
                  (if include_waf_lookup
                   then AWSClientPort.get_waf_associations_map port
                          (ScannerService.list_or regions ScannerService.DEFAULT_REGIONS)
                   else ∅) r))
        (flat_map (pair_resources port)
           (scanned_pairs (ScannerService.list_or regions ScannerService.DEFAULT_REGIONS)
              (ScannerService.list_or resource_types
                 ScannerService.DEFAULT_RESOURCE_TYPES))) /\
    Forall (fun r => is_Some (Resource.scanned_at r)) (ScanResult.resources sr).
Proof.
  intros Hid Horigins.
  unfold ScannerService.scan. rewrite Hid. cbn [mbind result_bind].
  pose (rs := ScannerService.list_or regions ScannerService.DEFAULT_REGIONS).
  pose (rts := ScannerService.list_or resource_types ScannerService.DEFAULT_RESOURCE_TYPES).
  pose (st0 := {| scan_result := ScanResult.mk (account identity) rs scan_id now None [] [];
                  clock := S now |}).
  destruct include_waf_lookup.
  - rewrite (Horigins eq_refl). cbn [mbind result_bind mret result_ret].
    destruct (scan_regions_extends port (AWSClientPort.get_waf_associations_map port rs)
                st0 rs rts) as (stamped & Hres & Hmap & Hall).
    eexists. exists stamped. split; [reflexivity |].
    cbn [ScannerService.complete scan_result ScanResult.complete ScanResult.resources
         ScannerService._enrich_fronted_by_relationships ScanResult.set_resources].
    fold rs rts st0. rewrite Hres. cbn [ScanResult.resources scan_result st0 app].
    split; [reflexivity |]. split; [exact Hmap |].
    apply List.Forall_map. eapply List.Forall_impl; [| exact Hall].
    intros r Hr. cbn beta. rewrite enrich_resource_scanned_at. exact Hr.
  - cbn [mbind result_bind mret result_ret].
    destruct (scan_regions_extends port ∅ st0 rs rts) as (stamped & Hres & Hmap & Hall).
    eexists. exists stamped. split; [reflexivity |].
    cbn [ScannerService.complete scan_result ScanResult.complete ScanResult.resources].
    fold rs rts st0. rewrite Hres. cbn [ScanResult.resources scan_result st0 app].
    split; [reflexivity |]. split; [exact Hmap | exact Hall].
Qed.

Lemma scan_resources_pipeline_witness :
  exists sr,
    ScannerService.scan (boto3_client failing_account) "scan-1" 0 None None true = Ok sr /\
    Forall (fun r => is_Some (Resource.scanned_at r)) (ScanResult.resources sr).
Proof.
  destruct (scan_resources_pipeline (boto3_client failing_account) "scan-1" 0 None None true
              scanner_identity api_host_index eq_refl (fun _ => eq_refl))
    as (sr & stamped & Hscan & _ & _ & Hall).
  exists sr. split; [exact Hscan | exact Hall].
Defined.


(** ** The enumeration of the boto3 adapter *)

Section ListingLoops.

Context {A : Type} (body : A -> result (option Resource.t)).

(** What holds of the resources appended by a loop, whatever ends it. *)
Variable P : Resource.t -> Prop.
Hypothesis body_resource : forall item r, body item = Ok (Some r) -> P r.

Lemma append_each_invariant items resources :
  Forall P resources ->
  Forall P (fst (append_each body items resources)).
Proof.
  revert resources. induction items as [| item items IH]; intros resources Hall.
  - exact Hall.
  - cbn [append_each]. destruct (body item) as [[r |] | e] eqn:Hbody.
    + apply IH, Forall_app. split; [exact Hall |].
      constructor; [eapply body_resource, Hbody | constructor].
    + apply IH, Hall.
    + exact Hall.
Qed.

Lemma append_pages_invariant ps resources :
  Forall P resources ->
  Forall P (fst (append_pages body ps resources)).
Proof.
  revert resources. induction ps as [| items rest IH | e]; intros resources Hall.
  - exact Hall.
  - cbn [append_pages].
    pose proof (append_each_invariant items resources Hall) as Hres.
    destruct (append_each body items resources) as [rs [e |]]; [exact Hres |].
    apply IH, Hres.
  - exact Hall.
Qed.

Lemma append_response_invariant response :
  Forall P (fst (append_response body response)).
Proof.
  destruct response as [items | e]; cbn [append_response].
  - apply append_each_invariant. constructor.
  - constructor.
Qed.

End ListingLoops.

(** What [return_resources] makes of a loop: the resources appended when it
    returns, and an exception that is no [ClientError] when it raises. *)
Lemma return_resources_ok (l : listing) (rs : list Resource.t) :
  return_resources l = Ok rs -> rs = fst l.
Proof.
  destruct l as [rs' [e |]]; cbn [fst return_resources];
    [destruct e |]; intros H; try discriminate H; injection H as <-; reflexivity.
Qed.

Lemma return_resources_raises (l : listing) (e : exn) :
  return_resources l = Raise e -> snd l = Some e /\ forall msg, e <> ClientError msg.
Proof.
  destruct l as [rs [e' |]]; cbn [snd return_resources]; [| discriminate].
  destruct e'; intros H; try discriminate H; injection H as <-;
    (split; [reflexivity | discriminate]).
Qed.

Lemma return_resources_failed_call (e : exn) :
  return_resources ([], Some e) = after_failed_call e.
Proof. destruct e; reflexivity. Qed.

Lemma list_get_from_end {A : Type} (l : list A) (k : nat) :
  0 < k <= length l -> exists x, list_get l (- Z.of_nat k) = Ok x.
Proof.
  intros Hk. unfold list_get.
  destruct (- Z.of_nat k <? 0)%Z eqn:Hneg; [| apply Z.ltb_ge in Hneg; lia].
  destruct ((- Z.of_nat k + Z.of_nat (length l) <? 0)
            || (Z.of_nat (length l) <=? - Z.of_nat k + Z.of_nat (length l)))%Z eqn:Hout.
  - apply orb_true_iff in Hout as [H | H]; [apply Z.ltb_lt in H | apply Z.leb_le in H]; lia.
  - destruct (lookup_lt_is_Some_2 l (Z.to_nat (- Z.of_nat k + Z.of_nat (length l))))
      as [x Hx]; [lia |].
    rewrite Hx. eauto.
Qed.

Lemma distribution_policy_total (web_acl_id : string) :
  exists web_acl, Boto3Listing.distribution_policy web_acl_id = Ok web_acl.
Proof.
  unfold Boto3Listing.distribution_policy.
  case_bool_decide; [eexists; reflexivity |].
  case_bool_decide as Hlen; [| eexists; reflexivity].
  destruct (list_get_from_end (PyStr.split "/" web_acl_id) 2) as [n Hn]; [lia |].
  destruct (list_get_from_end (PyStr.split "/" web_acl_id) 1) as [u Hu]; [lia |].
  change (- Z.of_nat 2)%Z with (-2)%Z in Hn. change (- Z.of_nat 1)%Z with (-1)%Z in Hu.
  rewrite Hn. cbn [mbind result_bind]. rewrite Hu. eexists. reflexivity.
Qed.

Lemma account_of_arn_raises (arn : string) (e : exn) :
  Boto3Listing.account_of_arn arn = Raise e -> e = IndexError.
Proof. apply list_get_raises_index_error. Qed.

Lemma get_caller_identity_raises (aws : AWS) (e : exn) :
  Boto3AWSClient.get_caller_identity aws = Raise e -> client_error_only e.
Proof.
  unfold Boto3AWSClient.get_caller_identity, propagate.
  destruct (sts_get_caller_identity aws); [discriminate |].
  intros [= <-]. eexists. reflexivity.
Qed.

(** The cases of a loop body: the exception of a failed step, or the
    resource it builds. *)
Ltac listing_body :=
  match goal with
  | H : context [Boto3Listing.account_of_arn ?a] |- _ =>
      let Ha := fresh "Haccount" in
      destruct (Boto3Listing.account_of_arn a) eqn:Ha; cbn in H;
      [| first [discriminate H | injection H as <-; apply account_of_arn_raises in Ha] ]
  | H : context [Boto3AWSClient.get_caller_identity ?a] |- _ =>
      let Hi := fresh "Hidentity" in
      destruct (Boto3AWSClient.get_caller_identity a) eqn:Hi; cbn in H;
      [| first [discriminate H | injection H as <-; apply get_caller_identity_raises in Hi] ]
  end.

Ltac shape_of_built H :=
  injection H as <-; unfold enumerated_shape, new_resource; cbn;
  repeat split; congruence.

Lemma alb_resource_cases region lb :
  (forall r, Boto3Listing.alb_resource region lb = Ok (Some r) ->
     enumerated_shape ResourceType.ALB region r) /\
  (forall e, Boto3Listing.alb_resource region lb = Raise e -> e = IndexError).
Proof.
  unfold Boto3Listing.alb_resource.
  destruct (negb _); [split; intros ? H; discriminate H |].
  split; intros ? H; listing_body; try discriminate H; try assumption.
  shape_of_built H.
Qed.

Lemma cloudfront_resource_cases (aws : AWS) region dist :
  (forall r, Boto3Listing.cloudfront_resource aws dist = Ok (Some r) ->
     enumerated_shape ResourceType.CLOUDFRONT region r) /\
  (forall e, Boto3Listing.cloudfront_resource aws dist = Raise e -> e = IndexError).
Proof.
  unfold Boto3Listing.cloudfront_resource.
  assert (Hpolicy : exists w,
            match cloudfront_get_distribution aws (item_Id dist) with
            | Response config => Boto3Listing.distribution_policy (WebACLId config)
            | ClientErr _ => mret None
            end = Ok w).
  { destruct (cloudfront_get_distribution aws (item_Id dist));
      [apply distribution_policy_total | eexists; reflexivity]. }
  destruct Hpolicy as [w ->].
  split; intros ? H; listing_body; try discriminate H; try assumption.
  shape_of_built H.
Qed.

Lemma rest_api_resource_cases (aws : AWS) region rest_api :
  (forall r, Boto3Listing.rest_api_resource aws region rest_api = Ok (Some r) ->
     enumerated_shape ResourceType.API_GATEWAY_REST region r) /\
  (forall e, Boto3Listing.rest_api_resource aws region rest_api = Raise e ->
     client_error_only e).
Proof.
  unfold Boto3Listing.rest_api_resource.
  split; intros ? H; listing_body; try discriminate H; try assumption.
  shape_of_built H.
Qed.

Lemma http_api_resource_cases (aws : AWS) region http_api :
  (forall r, Boto3Listing.http_api_resource aws region http_api = Ok (Some r) ->
     enumerated_shape ResourceType.API_GATEWAY_HTTP region r) /\
  (forall e, Boto3Listing.http_api_resource aws region http_api = Raise e ->
     client_error_only e).
Proof.
  unfold Boto3Listing.http_api_resource.
  split; intros ? H; listing_body; try discriminate H; try assumption.
  shape_of_built H.
Qed.

Lemma appsync_resource_cases region graphql_api :
  (forall r, Boto3Listing.appsync_resource region graphql_api = Ok (Some r) ->
     enumerated_shape ResourceType.APPSYNC region r) /\
  (forall e, Boto3Listing.appsync_resource region graphql_api = Raise e -> e = IndexError).
Proof.
  unfold Boto3Listing.appsync_resource.
  split; intros ? H; listing_body; try discriminate H; try assumption.
  shape_of_built H.
Qed.

Lemma user_pool_resource_cases (aws : AWS) region pool :
  (forall r, Boto3Listing.user_pool_resource aws region pool = Ok (Some r) ->
     enumerated_shape ResourceType.COGNITO region r) /\
  (forall e, Boto3Listing.user_pool_resource aws region pool = Raise e ->
     client_error_only e).
Proof.
  unfold Boto3Listing.user_pool_resource.
  split; intros ? H; listing_body; try discriminate H; try assumption.
  shape_of_built H.
Qed.

Lemma app_runner_resource_cases region svc :
  (forall r, Boto3Listing.app_runner_resource region svc = Ok (Some r) ->
     enumerated_shape ResourceType.APP_RUNNER region r) /\
  (forall e, Boto3Listing.app_runner_resource region svc = Raise e -> e = IndexError).
Proof.
  unfold Boto3Listing.app_runner_resource.
  split; intros ? H; listing_body; try discriminate H; try assumption.
  shape_of_built H.
Qed.

Lemma verified_access_resource_cases (aws : AWS) region instance :
  (forall r, Boto3Listing.verified_access_resource aws region instance = Ok (Some r) ->
     enumerated_shape ResourceType.VERIFIED_ACCESS region r) /\
  (forall e, Boto3Listing.verified_access_resource aws region instance = Raise e ->
     client_error_only e).
Proof.
  unfold Boto3Listing.verified_access_resource.
  split; intros ? H; listing_body; try discriminate H; try assumption.
  shape_of_built H.
Qed.

Lemma paged_listing_invariant {A : Type} (body : A -> result (option Resource.t))
    (P : Resource.t -> Prop) (ps : pages A) :
  (forall item r, body item = Ok (Some r) -> P r) ->
  forall rs, return_resources (append_pages body ps []) = Ok rs -> Forall P rs.
Proof.
  intros Hres rs Hok. apply return_resources_ok in Hok as ->.
  apply append_pages_invariant; [exact Hres | constructor].
Qed.

Lemma single_listing_invariant {A : Type} (body : A -> result (option Resource.t))
    (P : Resource.t -> Prop) (response : result (list A)) :
  (forall item r, body item = Ok (Some r) -> P r) ->
  forall rs, return_resources (append_response body response) = Ok rs -> Forall P rs.
Proof.
  intros Hres rs Hok. apply return_resources_ok in Hok as ->.
  apply append_response_invariant, Hres.
Qed.

(** The listing of one resource type: the shape of what it returns, and
    that what leaves it is no [ClientError]. *)
Lemma list_resources_cases (aws : AWS) (api : Enumeration) resource_type region :
  (forall rs, Boto3Listing.list_resources aws api resource_type region = Ok rs ->
     Forall (enumerated_shape resource_type region) rs) /\
  (forall e, Boto3Listing.list_resources aws api resource_type region = Raise e ->
     forall msg, e <> ClientError msg).
Proof.
  split.
  - destruct resource_type; cbn [Boto3Listing.list_resources].
    + apply paged_listing_invariant. intros lb. apply alb_resource_cases.
    + apply paged_listing_invariant. intros d. apply cloudfront_resource_cases.
    + apply paged_listing_invariant. intros a. apply rest_api_resource_cases.
    + apply single_listing_invariant. intros a. apply http_api_resource_cases.
    + apply single_listing_invariant. intros a. apply appsync_resource_cases.
    + apply paged_listing_invariant. intros a. apply user_pool_resource_cases.
    + apply paged_listing_invariant. intros a. apply app_runner_resource_cases.
    + apply single_listing_invariant. intros a. apply verified_access_resource_cases.
  - intros e. destruct resource_type; cbn [Boto3Listing.list_resources];
      intros He; apply return_resources_raises in He; apply He.
Qed.

(** A listing whose first call fails. *)
Lemma list_resources_failed_call (aws : AWS) (api : Enumeration) resource_type region e :
  first_call_fails api resource_type region e ->
  Boto3Listing.list_resources aws api resource_type region = after_failed_call e.
Proof.
  destruct resource_type; cbn [first_call_fails Boto3Listing.list_resources]; intros Hcall;
    unfold Boto3Listing._list_albs, Boto3Listing._list_cloudfront_distributions,
      Boto3Listing._list_api_gateway_rest_apis, Boto3Listing._list_api_gateway_http_apis,
      Boto3Listing._list_appsync_apis, Boto3Listing._list_cognito_user_pools,
      Boto3Listing._list_app_runner_services, Boto3Listing._list_verified_access_instances;
    rewrite Hcall; apply return_resources_failed_call.
Qed.

(** X10. The enumeration of the adapter swallows [ClientError] and nothing
    else. No [ClientError] leaves a listing, so every error record the scan
    of a pair files with this client is the one of an exception that left
    the listing and is no [ClientError]. When the first call of a listing
    fails, with any exception: a [ClientError] makes the listing return the
    empty list and leaves no error record, so that the failure is invisible
    in the scan result; any other exception leaves the listing and is filed
    as the error record of the pair. *)
Theorem enumeration_swallows_client_errors (aws : AWS) (api : Enumeration)
    (resource_type : ResourceType.t) (region : string) :
  (forall e, Boto3Listing.list_resources aws api resource_type region = Raise e ->
     forall msg, e <> ClientError msg) /\
  (forall entry,
     In entry (pair_errors (boto3_client (with_enumeration aws api)) (region, resource_type)) ->
     exists e,
       Boto3Listing.list_resources aws api resource_type region = Raise e /\
       (forall msg, e <> ClientError msg) /\
       entry = (region, Some (ResourceType.value resource_type), exn_str e)) /\
  (forall e,
     first_call_fails api resource_type region e ->
     Boto3Listing.list_resources aws api resource_type region
     = match e with
       | ClientError _ => Ok []
       | _ => Raise e
       end /\
     (enumerated (region, resource_type) = true ->
      pair_errors (boto3_client (with_enumeration aws api)) (region, resource_type)
      = match e with
        | ClientError _ => []
        | _ => [(region, Some (ResourceType.value resource_type), exn_str e)]
        end)).
Proof.
  destruct (list_resources_cases aws api resource_type region) as [_ Hraise].
  split; [exact Hraise |]. split.
  - intros entry. unfold pair_errors. cbn [fst snd boto3_client with_enumeration
      AWSClientPort.list_resources aws_list_resources].
    destruct (enumerated _); [| intros []].
    destruct (Boto3Listing.list_resources aws api resource_type region) as [rs | e] eqn:Hl;
      [intros [] |].
    intros [<- | []]. exists e. split; [reflexivity |]. split; [| reflexivity].
    apply Hraise. reflexivity.
  - intros e Hcall.
    pose proof (list_resources_failed_call aws api resource_type region e Hcall) as Hlist.
    split; [rewrite Hlist; destruct e; reflexivity |].
    intros Henum. unfold pair_errors. rewrite Henum.
    cbn [fst snd boto3_client with_enumeration AWSClientPort.list_resources
         aws_list_resources].
    rewrite Hlist. destruct e; reflexivity.
Qed.

Lemma enumeration_swallows_client_errors_witness :
  pair_errors (boto3_client (with_enumeration quiet_account unreachable_enumeration))
    ("us-east-1", ResourceType.COGNITO)
  = [("us-east-1", Some "COGNITO_USER_POOL", "Could not connect to the endpoint URL")] /\
  pair_errors (boto3_client (with_enumeration quiet_account unreachable_enumeration))
    ("us-east-1", ResourceType.APPSYNC)
  = [] /\
  exists e,
    Boto3Listing.list_resources quiet_account odd_enumeration ResourceType.ALB "us-east-1"
    = Raise e /\
    pair_errors (boto3_client (with_enumeration quiet_account odd_enumeration))
      ("us-east-1", ResourceType.ALB)
    = [("us-east-1", Some "APPLICATION_LOAD_BALANCER", exn_str e)].
Proof.
  destruct (enumeration_swallows_client_errors quiet_account unreachable_enumeration
              ResourceType.COGNITO "us-east-1") as (_ & _ & Hcognito).
  destruct (enumeration_swallows_client_errors quiet_account unreachable_enumeration
              ResourceType.APPSYNC "us-east-1") as (_ & _ & Happsync).
  destruct (enumeration_swallows_client_errors quiet_account odd_enumeration
              ResourceType.ALB "us-east-1") as (_ & Hentry & _).
  split; [apply (Hcognito (OtherException "Could not connect to the endpoint URL"));
          reflexivity |].
  split; [apply (Happsync (ClientError "AccessDenied")); reflexivity |].
  destruct (Hentry ("us-east-1", Some "APPLICATION_LOAD_BALANCER", "list index out of range")
              (or_introl eq_refl)) as (e & Hlist & _ & Hrecord).
  assert (Hmsg : "list index out of range" = exn_str e) by congruence.
  exists e. split; [exact Hlist |]. rewrite <- Hmsg. reflexivity.
Defined.

(** X11. Every resource a listing returns has the resource type asked for,
    the region asked for (["global"] for a CloudFront distribution), no
    fronted-by record and no scan timestamp; it carries no policy unless it
    is a CloudFront distribution, and it is public unless it is a load
    balancer. *)
Theorem enumerated_resources_shape (aws : AWS) (api : Enumeration)
    (resource_type : ResourceType.t) (region : string) (rs : list Resource.t) :
  Boto3Listing.list_resources aws api resource_type region = Ok rs ->
  Forall (enumerated_shape resource_type region) rs.
Proof. apply list_resources_cases. Qed.

Lemma enumerated_resources_shape_witness :
  Forall (enumerated_shape ResourceType.ALB "us-east-1")
    [ new_resource (lb_LoadBalancerArn public_lb) ResourceType.ALB "us-east-1"
        "123456789012" (Some "web") true None;
      new_resource (lb_LoadBalancerArn internal_lb) ResourceType.ALB "us-east-1"
        "123456789012" (Some "back") false None ].
Proof.
  apply (enumerated_resources_shape quiet_account small_enumeration). reflexivity.
Defined.

(** ** Hostnames of the enumerated gateway APIs *)

Lemma match_resource_to_origin_rest (aws : AWS) (r : Resource.t) :
  Resource.resource_type r = ResourceType.API_GATEWAY_REST ->
  Boto3AWSClient.match_resource_to_origin aws r =
    Some (Boto3AWSClient.last_segment "/restapis/" (Resource.arn r)
          ++ ".execute-api." ++ Resource.region r ++ ".amazonaws.com") /\
  forall prefix api_id,
    Resource.arn r = prefix ++ "/restapis/" ++ api_id ->
    single_marker "/restapis/" prefix api_id ->
    Boto3AWSClient.match_resource_to_origin aws r =
      Some (api_id ++ ".execute-api." ++ Resource.region r ++ ".amazonaws.com").
Proof.
  intros Htype. unfold Boto3AWSClient.match_resource_to_origin. rewrite Htype. cbn.
  split; [reflexivity |]. intros prefix api_id -> Hsingle.
  rewrite last_segment_single_marker by (discriminate || exact Hsingle). reflexivity.
Qed.

Lemma match_resource_to_origin_http (aws : AWS) (r : Resource.t) :
  Resource.resource_type r = ResourceType.API_GATEWAY_HTTP ->
  Boto3AWSClient.match_resource_to_origin aws r =
    Some (Boto3AWSClient.last_segment "/apis/" (Resource.arn r)
          ++ ".execute-api." ++ Resource.region r ++ ".amazonaws.com") /\
  forall prefix api_id,
    Resource.arn r = prefix ++ "/apis/" ++ api_id ->
    single_marker "/apis/" prefix api_id ->
    Boto3AWSClient.match_resource_to_origin aws r =
      Some (api_id ++ ".execute-api." ++ Resource.region r ++ ".amazonaws.com").
Proof.
  intros Htype. unfold Boto3AWSClient.match_resource_to_origin. rewrite Htype. cbn.
  split; [reflexivity |]. intros prefix api_id -> Hsingle.
  rewrite last_segment_single_marker by (discriminate || exact Hsingle). reflexivity.
Qed.

(** ** Identifiers free of a character *)

Lemma append_assoc_string (a b c : string) : (a ++ b) ++ c = a ++ b ++ c.
Proof.
  induction a as [| x a IH]; [reflexivity |].
  change (String x ((a ++ b) ++ c) = String x (a ++ b ++ c)). rewrite IH. reflexivity.
Qed.

Lemma append_cancel_prefix (p a b : string) : p ++ a = p ++ b -> a = b.
Proof.
  induction p as [| x p IH]; [trivial |].
  change (String x (p ++ a) = String x (p ++ b) -> a = b). intros [= H]. exact (IH H).
Qed.

Lemma contains_cons_false (sub : string) (x : ascii) (s : string) :
  PyStr.contains sub (String x s) = false ->
  PyStr.startswith sub (String x s) = false /\ PyStr.contains sub s = false.
Proof. cbn [PyStr.contains]. intros H. apply orb_false_iff in H. exact H. Qed.

(** A separator does not match where its first character is absent. *)
Lemma startswith_absent (c : ascii) (sep s : string) :
  PyStr.contains (String c EmptyString) s = false ->
  PyStr.startswith (String c sep) s = false.
Proof.
  destruct s as [| x s]; [reflexivity |].
  intros H. apply contains_cons_false in H as [H _].
  cbn [PyStr.startswith] in *. rewrite andb_true_r in H. rewrite H. reflexivity.
Qed.

Lemma contains_absent (c : ascii) (sep s : string) :
  PyStr.contains (String c EmptyString) s = false ->
  PyStr.contains (String c sep) s = false.
Proof.
  induction s as [| x s IH]; [reflexivity |].
  intros H. pose proof (startswith_absent c sep _ H) as Hpre.
  apply contains_cons_false in H as [_ H].
  cbn [PyStr.contains]. rewrite Hpre, (IH H). reflexivity.
Qed.

Lemma contains_char_app (c : ascii) (a b : string) :
  PyStr.contains (String c EmptyString) (a ++ b) =
  PyStr.contains (String c EmptyString) a || PyStr.contains (String c EmptyString) b.
Proof.
  induction a as [| x a IH].
  - cbn [append]. destruct b; reflexivity.
  - change (String x a ++ b) with (String x (a ++ b)).
    cbn [PyStr.contains PyStr.startswith]. rewrite IH, !andb_true_r, orb_assoc. reflexivity.
Qed.

Lemma no_match_within_app (sep a b rest : string) :
  no_match_within sep (a ++ b) rest =
  no_match_within sep a (b ++ rest) && no_match_within sep b rest.
Proof.
  induction a as [| x a IH]; [reflexivity |].
  change (String x a ++ b) with (String x (a ++ b)).
  cbn [no_match_within]. rewrite IH.
  change (String x (a ++ b) ++ rest) with (String x ((a ++ b) ++ rest)).
  change (String x a ++ b ++ rest) with (String x (a ++ b ++ rest)).
  rewrite append_assoc_string, andb_assoc. reflexivity.
Qed.

Lemma no_match_within_absent (c : ascii) (sep prefix rest : string) :
  PyStr.contains (String c EmptyString) prefix = false ->
  no_match_within (String c sep) prefix rest = true.
Proof.
  induction prefix as [| x prefix IH]; [reflexivity |].
  intros H. apply contains_cons_false in H as [Hx H].
  cbn [no_match_within]. rewrite (IH H), andb_true_r.
  change (String x prefix ++ rest) with (String x (prefix ++ rest)).
  cbn [PyStr.startswith] in *. rewrite andb_true_r in Hx. rewrite Hx. reflexivity.
Qed.

(** After a prefix free of [c], a marker that starts with [c] occurs once
    when what follows is free of [c] as well. *)
Lemma single_marker_absent (c : ascii) (sep prefix api_id : string) :
  PyStr.contains (String c EmptyString) prefix = false ->
  PyStr.contains (String c EmptyString) api_id = false ->
  single_marker (String c sep) prefix api_id.
Proof.
  intros Hprefix Hid. split; [apply no_match_within_absent, Hprefix |].
  apply contains_absent, Hid.
Qed.

Lemma gateway_prefix_free (region : string) :
  PyStr.contains "/" region = false ->
  PyStr.contains "/" ("arn:aws:apigateway:" ++ region ++ "::") = false.
Proof.
  intros Hregion.
  rewrite (contains_char_app "/" "arn:aws:apigateway:"), (contains_char_app "/" region).
  rewrite Hregion. reflexivity.
Qed.

(** The hostname of a gateway API whose identifier the adapter built. *)
Lemma built_rest_api_hostname (aws : AWS) (r : Resource.t) region api_id :
  Resource.resource_type r = ResourceType.API_GATEWAY_REST ->
  Resource.arn r = "arn:aws:apigateway:" ++ region ++ "::/restapis/" ++ api_id ->
  PyStr.contains "/" region = false ->
  PyStr.contains "/" api_id = false ->
  Boto3AWSClient.match_resource_to_origin aws r =
  Some (api_id ++ ".execute-api." ++ Resource.region r ++ ".amazonaws.com").
Proof.
  intros Htype Harn Hregion Hid.
  pose proof (match_resource_to_origin_rest aws r Htype) as [_ Hsingle].
  apply (Hsingle ("arn:aws:apigateway:" ++ region ++ "::") api_id).
  - rewrite Harn, !append_assoc_string. reflexivity.
  - apply single_marker_absent; [apply gateway_prefix_free, Hregion | exact Hid].
Qed.

Lemma built_http_api_hostname (aws : AWS) (r : Resource.t) region api_id :
  Resource.resource_type r = ResourceType.API_GATEWAY_HTTP ->
  Resource.arn r = "arn:aws:apigateway:" ++ region ++ "::/apis/" ++ api_id ->
  PyStr.contains "/" region = false ->
  PyStr.contains "/" api_id = false ->
  Boto3AWSClient.match_resource_to_origin aws r =
  Some (api_id ++ ".execute-api." ++ Resource.region r ++ ".amazonaws.com").
Proof.
  intros Htype Harn Hregion Hid.
  pose proof (match_resource_to_origin_http aws r Htype) as [_ Hsingle].
  apply (Hsingle ("arn:aws:apigateway:" ++ region ++ "::") api_id).
  - rewrite Harn, !append_assoc_string. reflexivity.
  - apply single_marker_absent; [apply gateway_prefix_free, Hregion | exact Hid].
Qed.

(** X12. The hostname the adapter derives for a gateway API it enumerated
    itself: every REST API and every HTTP API of the listing of a region
    carries the identifier [arn:aws:apigateway:<region>::/restapis/<id>]
    (resp. [/apis/<id>]) of some API identifier, and when neither the region
    nor the identifier holds a [/], the origin hostname computed for it is
    [<id>.execute-api.<region>.amazonaws.com], the key under which the
    origin index files a distribution that fronts the API. *)
Theorem enumerated_gateway_api_hostname (aws : AWS) (api : Enumeration) (region : string) :
  PyStr.contains "/" region = false ->
  (forall rs, Boto3Listing._list_api_gateway_rest_apis aws api region = Ok rs ->
     Forall (fun r => exists api_id,
               Resource.arn r = "arn:aws:apigateway:" ++ region ++ "::/restapis/" ++ api_id /\
               (PyStr.contains "/" api_id = false ->
                Boto3AWSClient.match_resource_to_origin aws r =
                Some (api_id ++ ".execute-api." ++ region ++ ".amazonaws.com"))) rs) /\
  (forall rs, Boto3Listing._list_api_gateway_http_apis aws api region = Ok rs ->
     Forall (fun r => exists api_id,
               Resource.arn r = "arn:aws:apigateway:" ++ region ++ "::/apis/" ++ api_id /\
               (PyStr.contains "/" api_id = false ->
                Boto3AWSClient.match_resource_to_origin aws r =
                Some (api_id ++ ".execute-api." ++ region ++ ".amazonaws.com"))) rs).
Proof.
  intros Hregion. split; intros rs.
  - unfold Boto3Listing._list_api_gateway_rest_apis.
    apply (paged_listing_invariant (Boto3Listing.rest_api_resource aws region)).
    intros rest_api r Hbuilt. exists (rest_id rest_api).
    unfold Boto3Listing.rest_api_resource in Hbuilt.
    destruct (Boto3AWSClient.get_caller_identity aws); [| discriminate Hbuilt].
    injection Hbuilt as <-. split; [reflexivity |]. intros Hid.
    exact (built_rest_api_hostname aws
             (new_resource ("arn:aws:apigateway:" ++ region ++ "::/restapis/" ++ rest_id rest_api)
                ResourceType.API_GATEWAY_REST region (account a) (rest_name rest_api) true None)
             region (rest_id rest_api) eq_refl eq_refl Hregion Hid).
  - unfold Boto3Listing._list_api_gateway_http_apis.
    apply (single_listing_invariant (Boto3Listing.http_api_resource aws region)).
    intros http_api r Hbuilt. exists (http_ApiId http_api).
    unfold Boto3Listing.http_api_resource in Hbuilt.
    destruct (Boto3AWSClient.get_caller_identity aws); [| discriminate Hbuilt].
    injection Hbuilt as <-. split; [reflexivity |]. intros Hid.
    exact (built_http_api_hostname aws
             (new_resource ("arn:aws:apigateway:" ++ region ++ "::/apis/" ++ http_ApiId http_api)
                ResourceType.API_GATEWAY_HTTP region (account a) (http_Name http_api) true None)
             region (http_ApiId http_api) eq_refl eq_refl Hregion Hid).
Qed.

Lemma enumerated_gateway_api_hostname_witness :
  exists r,
    Boto3Listing._list_api_gateway_http_apis cdn_account small_enumeration "us-east-1"
    = Ok [r] /\
    Boto3AWSClient.match_resource_to_origin cdn_account r = Some api_host.
Proof.
  eexists. split; [reflexivity |].
  destruct (enumerated_gateway_api_hostname cdn_account small_enumeration "us-east-1"
              eq_refl) as [_ Hhttp].
  specialize (Hhttp _ eq_refl).
  apply List.Forall_inv in Hhttp as (api_id & Harn & Hhost).
  assert (Hid : "o5yl95v1g1" = api_id)
    by exact (append_cancel_prefix "arn:aws:apigateway:us-east-1::/apis/" _ _ Harn).
  subst api_id. apply Hhost. reflexivity.
Defined.

(** ** Stages of the enumerated REST APIs *)

Lemma contains_suffix (sep a b : string) :
  PyStr.contains sep b = true -> PyStr.contains sep (a ++ b) = true.
Proof.
  intros Hb. induction a as [| x a IH]; [exact Hb |].
  change (String x a ++ b) with (String x (a ++ b)).
  cbn [PyStr.contains]. rewrite IH. apply orb_true_r.
Qed.

Lemma contains_marker (sep a rest : string) : PyStr.contains sep (a ++ sep ++ rest) = true.
Proof.
  apply contains_suffix. destruct (sep ++ rest) eqn:Heq.
  - cbn. rewrite <- Heq, startswith_app. reflexivity.
  - cbn [PyStr.contains]. rewrite <- Heq, startswith_app. reflexivity.
Qed.

(** What follows [/restapis/] decides whether the stage delimiter matches
    inside the REST marker. *)
Lemma stage_delimiter_within_rest_marker (tail : string) :
  no_match_within "/stages/" "/restapis/" tail = negb (PyStr.startswith "stages/" tail).
Proof.
  transitivity (negb (PyStr.startswith "stages/" tail) && true);
    [reflexivity | apply andb_true_r].
Qed.

(** A text free of [c] that is followed by [c] starts with [p ++ c], for a
    [p] free of [c], only if it is [p]. *)
Lemma startswith_free_prefix (c : ascii) (p api_id rest : string) :
  PyStr.contains (String c EmptyString) p = false ->
  PyStr.contains (String c EmptyString) api_id = false ->
  PyStr.startswith (p ++ String c EmptyString) (api_id ++ String c rest) = true ->
  api_id = p.
Proof.
  revert api_id. induction p as [| a p IH]; intros [| x api_id] Hp Hid Hpre.
  - reflexivity.
  - apply contains_cons_false in Hid as [Hid _].
    change (PyStr.startswith (String c EmptyString) (String x (api_id ++ String c rest)) = true)
      in Hpre.
    cbn [PyStr.startswith] in Hpre, Hid. rewrite Hpre in Hid. discriminate Hid.
  - apply contains_cons_false in Hp as [Hp _].
    change (PyStr.startswith (String a (p ++ String c EmptyString)) (String c rest) = true)
      in Hpre.
    cbn [PyStr.startswith] in Hpre, Hp. apply andb_true_iff in Hpre as [Hac _].
    apply bool_decide_eq_true_1 in Hac. subst a.
    rewrite bool_decide_eq_true_2 in Hp by reflexivity. discriminate Hp.
  - apply contains_cons_false in Hp as [_ Hp]. apply contains_cons_false in Hid as [_ Hid].
    change (PyStr.startswith (String a (p ++ String c EmptyString))
              (String x (api_id ++ String c rest)) = true) in Hpre.
    cbn [PyStr.startswith] in Hpre. apply andb_true_iff in Hpre as [Hax Hpre].
    apply bool_decide_eq_true_1 in Hax. subst x. f_equal. apply IH; assumption.
Qed.

(** The identifier of a stage of a REST API the adapter enumerated: it is
    taken for a stage identifier, and its parent is the API's identifier. *)
Lemma built_rest_api_stage (region api_id stage : string) :
  PyStr.contains "/" region = false ->
  PyStr.contains "/" api_id = false ->
  api_id <> "stages" ->
  let api_arn := "arn:aws:apigateway:" ++ region ++ "::/restapis/" ++ api_id in
  is_rest_stage (api_arn ++ "/stages/" ++ stage) = true /\
  parent_arn (api_arn ++ "/stages/" ++ stage) = api_arn.
Proof.
  intros Hregion Hid Hne api_arn. split.
  - unfold is_rest_stage. apply andb_true_iff. split; [| apply contains_marker].
    replace (api_arn ++ "/stages/" ++ stage)
      with (("arn:aws:apigateway:" ++ region ++ "::") ++ "/restapis/"
            ++ (api_id ++ "/stages/" ++ stage))
      by (unfold api_arn; rewrite !append_assoc_string; reflexivity).
    apply contains_marker.
  - unfold parent_arn, PyStr.split.
    rewrite split_go_first_match; [reflexivity | discriminate |].
    replace api_arn
      with (("arn:aws:apigateway:" ++ region ++ "::") ++ "/restapis/" ++ api_id)
      by (unfold api_arn; rewrite !append_assoc_string; reflexivity).
    rewrite (no_match_within_app "/stages/" ("arn:aws:apigateway:" ++ region ++ "::")
               ("/restapis/" ++ api_id)),
            (no_match_within_app "/stages/" "/restapis/" api_id).
    apply andb_true_iff; split; [| apply andb_true_iff; split].
    + apply no_match_within_absent, gateway_prefix_free, Hregion.
    + rewrite stage_delimiter_within_rest_marker.
      destruct (PyStr.startswith "stages/" (api_id ++ "/stages/" ++ stage)) eqn:Hpre;
        [| reflexivity].
      destruct Hne.
      apply (startswith_free_prefix "/" "stages" api_id ("stages/" ++ stage));
        [reflexivity | exact Hid | exact Hpre].
    + apply no_match_within_absent, Hid.
Qed.

Lemma attach_direct_found (waf_map : gmap string WebACL.t) (r : Resource.t) :
  Resource.resource_type r <> ResourceType.CLOUDFRONT ->
  is_Some (waf_map !! Resource.arn r) ->
  Resource.has_waf (attach_direct waf_map r) = true /\
  Resource.web_acl (attach_direct waf_map r) = waf_map !! Resource.arn r.
Proof.
  intros Htype [acl Hacl]. unfold attach_direct.
  rewrite bool_decide_eq_false_2 by exact Htype. cbn [negb].
  rewrite Hacl. split; reflexivity.
Qed.

(** X13. A policy on a stage protects the API the adapter enumerates. For
    every REST API of the listing of a region, with identifier
    [arn:aws:apigateway:<region>::/restapis/<id>]: when neither the region
    nor the API identifier holds a [/] and the API identifier is not the
    word [stages], a regional association of any policy with any stage
    [<identifier>/stages/<stage>] of the API puts the API's own identifier in
    the association index, so that the scan gives the API a direct policy
    and the status COMPLIANT. With a single stage association and no other
    association, the API's policy is the one of the stage. *)
Theorem stage_policy_protects_enumerated_rest_api (aws : AWS) (api : Enumeration)
    (region : string) (regions : list string) (rs : list Resource.t) :
  PyStr.contains "/" region = false ->
  Boto3Listing._list_api_gateway_rest_apis aws api region = Ok rs ->
  Forall (fun r => exists api_id,
            Resource.arn r = "arn:aws:apigateway:" ++ region ++ "::/restapis/" ++ api_id /\
            (PyStr.contains "/" api_id = false -> api_id <> "stages" ->
             forall acl stage,
               In (acl, Resource.arn r ++ "/stages/" ++ stage) (regional_pairs aws regions) ->
               let scanned :=
                 attach_direct (Boto3AWSClient.get_waf_associations_map aws regions) r in
               Resource.has_waf scanned = true /\
               Resource.get_compliance_status scanned = "COMPLIANT" /\
               (cloudfront_pairs aws = [] ->
                regional_pairs aws regions = [(acl, Resource.arn r ++ "/stages/" ++ stage)] ->
                Resource.web_acl scanned = Some acl))) rs.
Proof.
  intros Hregion. unfold Boto3Listing._list_api_gateway_rest_apis.
  apply (paged_listing_invariant (Boto3Listing.rest_api_resource aws region)).
  intros rest_api r Hbuilt. exists (rest_id rest_api).
  unfold Boto3Listing.rest_api_resource in Hbuilt.
  destruct (Boto3AWSClient.get_caller_identity aws) as [identity |]; [| discriminate Hbuilt].
  injection Hbuilt as <-. split; [reflexivity |].
  intros Hid Hne acl stage Hin.
  cbn [Resource.arn new_resource] in *.
  destruct (built_rest_api_stage region (rest_id rest_api) stage Hregion Hid Hne)
    as [Hstage Hparent].
  set (api_arn := "arn:aws:apigateway:" ++ region ++ "::/restapis/" ++ rest_id rest_api) in *.
  set (r := new_resource api_arn ResourceType.API_GATEWAY_REST region (account identity)
              (rest_name rest_api) true None).
  assert (Hkey : is_Some (Boto3AWSClient.get_waf_associations_map aws regions !! api_arn)).
  { rewrite get_waf_associations_map_pairs, <- Hparent.
    apply (add_pairs_stage_keys _ _ acl _ Hin Hstage). }
  destruct (attach_direct_found (Boto3AWSClient.get_waf_associations_map aws regions) r)
    as [Hwaf Hacl]; [discriminate | exact Hkey |].
  cbn zeta. split; [exact Hwaf |]. split.
  - unfold Resource.get_compliance_status. rewrite Hwaf. reflexivity.
  - intros Hglobal Hpairs. rewrite Hacl. change (Resource.arn r) with api_arn.
    rewrite get_waf_associations_map_pairs, Hpairs.
    unfold global_pass. rewrite Hglobal. cbn [add_pairs fold_left].
    destruct (add_regional_stage_lookup acl ∅ (api_arn ++ "/stages/" ++ stage) Hstage)
      as (_ & Hfresh & _).
    rewrite Hparent in Hfresh. apply Hfresh. apply lookup_empty.
Qed.

Lemma stage_policy_protects_enumerated_rest_api_witness :
  exists r,
    Boto3Listing._list_api_gateway_rest_apis
      (with_regional_acls [(policy1, [billing_stage_arn])]) small_enumeration "us-east-1"
    = Ok [r] /\
    Resource.web_acl
      (attach_direct
         (Boto3AWSClient.get_waf_associations_map
            (with_regional_acls [(policy1, [billing_stage_arn])]) ["us-east-1"]) r)
    = Some policy1.
Proof.
  eexists. split; [reflexivity |].
  pose proof (stage_policy_protects_enumerated_rest_api
                (with_regional_acls [(policy1, [billing_stage_arn])]) small_enumeration
                "us-east-1" ["us-east-1"] _ eq_refl eq_refl) as Hall.
  apply List.Forall_inv in Hall as (api_id & Harn & Hstage).
  assert (Hid : "1jnx7rksc5" = api_id)
    by exact (append_cancel_prefix "arn:aws:apigateway:us-east-1::/restapis/" _ _ Harn).
  subst api_id.
  destruct (Hstage eq_refl ltac:(discriminate) policy1 "prod" (or_introl eq_refl))
    as (_ & _ & Hacl).
  apply Hacl; reflexivity.
Defined.

(** ** What a listing returns, item by item *)

Lemma append_each_listed {A : Type} (body : A -> result (option Resource.t))
    (keep : A -> bool) (R : A -> Resource.t -> Prop) (items : list A)
    (acc res : list Resource.t) (oe : option exn) :
  (forall item, body item = Ok None -> keep item = false) ->
  (forall item r, body item = Ok (Some r) -> keep item = true /\ R item r) ->
  append_each body items acc = (res, oe) ->
  match oe with
  | None => exists built, res = (acc ++ built)%list /\ Forall2 R (List.filter keep items) built
  | Some e => exists item, body item = Raise e
  end.
Proof.
  intros Hnone Hsome. revert acc.
  induction items as [| item items IH]; intros acc H; cbn [append_each] in H.
  - injection H as <- <-. exists []. split; [rewrite app_nil_r; reflexivity | constructor].
  - destruct (body item) as [[r |] | e] eqn:Hbody.
    + apply IH in H. destruct oe; [exact H |].
      destruct H as (built & -> & Hbuilt). exists (r :: built).
      split; [rewrite <- app_assoc; reflexivity |].
      destruct (Hsome _ _ Hbody) as [Hkeep HR].
      cbn [List.filter]. rewrite Hkeep. constructor; assumption.
    + apply IH in H. destruct oe; [exact H |].
      cbn [List.filter]. rewrite (Hnone _ Hbody). exact H.
    + injection H as <- <-. exists item. exact Hbody.
Qed.

Lemma append_pages_listed {A : Type} (body : A -> result (option Resource.t))
    (keep : A -> bool) (R : A -> Resource.t -> Prop) (ps : pages A)
    (acc res : list Resource.t) (oe : option exn) :
  (forall item, body item = Ok None -> keep item = false) ->
  (forall item r, body item = Ok (Some r) -> keep item = true /\ R item r) ->
  append_pages body ps acc = (res, oe) ->
  (exists built,
     res = (acc ++ built)%list /\
     Forall2 R (List.filter keep (read_items ps)) built) \/
  (exists e item, oe = Some e /\ body item = Raise e).
Proof.
  intros Hnone Hsome. revert acc.
  induction ps as [| items rest IH | e]; intros acc H; cbn [append_pages] in H.
  - injection H as <- <-. left. exists [].
    split; [rewrite app_nil_r; reflexivity | constructor].
  - destruct (append_each body items acc) as [res1 [e |]] eqn:Heach.
    + injection H as <- <-.
      apply (append_each_listed body keep R) in Heach; [| assumption | assumption].
      destruct Heach as [item Hitem]. right. exists e, item. split; [reflexivity | exact Hitem].
    + apply (append_each_listed body keep R) in Heach; [| assumption | assumption].
      destruct Heach as (built1 & -> & Hbuilt1).
      apply IH in H as [(built2 & -> & Hbuilt2) | Hraise]; [left | right; exact Hraise].
      exists (built1 ++ built2)%list. split; [rewrite app_assoc; reflexivity |].
      cbn [read_items]. rewrite List.filter_app. apply Forall2_app; assumption.
  - injection H as <- <-. left. exists [].
    split; [rewrite app_nil_r; reflexivity | constructor].
Qed.

(** X14. The load balancers of a listing that returns. The result holds, in
    the order the API gave them and up to the page at which the paginator
    failed, the balancers of type [application] and no other: each with the
    balancer's identifier and name, the account read at position 4 of the
    identifier, public exactly when the scheme is [internet-facing] (a
    balancer without scheme counts as internal), no policy, and so the
    status NON_COMPLIANT when public and COMPLIANT_NO_WAF_REQUIRED
    otherwise. *)
Theorem listed_load_balancers (api : Enumeration) (region : string) (rs : list Resource.t) :
  Boto3Listing._list_albs api region = Ok rs ->
  Forall2
    (fun lb r =>
       r = new_resource (lb_LoadBalancerArn lb) ResourceType.ALB region
             (Resource.account_id r) (lb_LoadBalancerName lb)
             (bool_decide (lb_Scheme lb = Some "internet-facing")) None /\
       Boto3Listing.account_of_arn (lb_LoadBalancerArn lb) = Ok (Resource.account_id r) /\
       Resource.get_compliance_status r =
         (if bool_decide (lb_Scheme lb = Some "internet-facing")
          then "NON_COMPLIANT" else "COMPLIANT_NO_WAF_REQUIRED"))
    (List.filter (fun lb => bool_decide (lb_Type lb = "application"))
       (read_items (elbv2_load_balancers api region)))
    rs.
Proof.
  unfold Boto3Listing._list_albs.
  destruct (append_pages (Boto3Listing.alb_resource region)
              (elbv2_load_balancers api region) []) as [res oe] eqn:Hpages.
  intros Hreturn.
  eapply (append_pages_listed _ (fun lb => bool_decide (lb_Type lb = "application")))
    in Hpages as [(built & -> & Hbuilt) | (e & lb & -> & Hraise)].
  - apply return_resources_ok in Hreturn. cbn [fst app] in Hreturn.
    subst rs. exact Hbuilt.
  - apply alb_resource_cases in Hraise. subst e. discriminate Hreturn.
  - intros lb. unfold Boto3Listing.alb_resource.
    case_bool_decide; cbn [negb]; [| reflexivity].
    destruct (Boto3Listing.account_of_arn _); discriminate.
  - intros lb r. unfold Boto3Listing.alb_resource.
    case_bool_decide; cbn [negb]; [| discriminate].
    destruct (Boto3Listing.account_of_arn (lb_LoadBalancerArn lb)) as [account_id |] eqn:Hacc;
      [| discriminate].
    cbn. intros [= <-]. split; [reflexivity |]. cbn.
    split; [reflexivity |]. split; [reflexivity |].
    destruct (bool_decide (lb_Scheme lb = Some "internet-facing")); reflexivity.
Qed.

Lemma listed_load_balancers_witness :
  exists r1 r2,
    Boto3Listing._list_albs small_enumeration "us-east-1" = Ok [r1; r2] /\
    Resource.get_compliance_status r1 = "NON_COMPLIANT" /\
    Resource.get_compliance_status r2 = "COMPLIANT_NO_WAF_REQUIRED".
Proof.
  do 2 eexists. split; [reflexivity |].
  pose proof (listed_load_balancers small_enumeration "us-east-1" _ eq_refl) as Hall.
  apply Forall2_cons_1 in Hall as [(_ & _ & H1) Hall].
  apply Forall2_cons_1 in Hall as [(_ & _ & H2) _].
  split; [exact H1 | exact H2].
Defined.

(** ** The association index over the WAFv2 calls *)

Lemma add_acl_summaries_in (wafv2 : Wafv2) scope region summaries results acl arns :
  In (acl, arns) (fold_left (Boto3Wafv2.add_acl_summary wafv2 scope region) summaries results)
  <-> In (acl, arns) results \/
      exists acl_summary,
        In acl_summary summaries /\
        acl = Boto3Wafv2.summary_acl scope region acl_summary /\
        arns = Boto3Wafv2.all_arns wafv2 scope region acl /\ arns <> [].
Proof.
  revert results. induction summaries as [| s summaries IH]; intros results; cbn [fold_left].
  - split; [auto | intros [H | (s & [] & _)]; exact H].
  - rewrite IH. unfold Boto3Wafv2.add_acl_summary at 1.
    destruct (Boto3Wafv2.all_arns wafv2 scope region (Boto3Wafv2.summary_acl scope region s))
      as [| a l] eqn:Harns.
    + split.
      * intros [H | (s' & Hs' & Hrest)]; [left; exact H | right].
        exists s'. split; [right; exact Hs' | exact Hrest].
      * intros [H | (s' & [<- | Hs'] & Hacl & Harns' & Hne)]; [left; exact H | | right].
        -- subst acl. rewrite Harns in Harns'. contradiction.
        -- exists s'. split; [exact Hs' |]. split; [exact Hacl |]. split; assumption.
    + rewrite in_app_iff. cbn [In]. split.
      * intros [[H | [[= <- <-] | []]] | (s' & Hs' & Hrest)].
        -- left; exact H.
        -- right. exists s. split; [left; reflexivity |]. split; [reflexivity |].
           split; [symmetry; exact Harns | discriminate].
        -- right. exists s'. split; [right; exact Hs' | exact Hrest].
      * intros [H | (s' & [<- | Hs'] & Hacl & Harns' & Hne)].
        -- left; left; exact H.
        -- left; right; left. subst acl. rewrite Harns in Harns'. subst arns. reflexivity.
        -- right. exists s'. split; [exact Hs' |]. split; [exact Hacl |]. split; assumption.
Qed.

Lemma all_arns_in (wafv2 : Wafv2) scope region acl resource_arn :
  In resource_arn (Boto3Wafv2.all_arns wafv2 scope region acl) <->
  exists resource_type,
    In resource_arn
      (resource_arns (wafv2_list_resources_for_web_acl wafv2 region (WebACL.arn acl)
                        resource_type)) /\
    match resource_type with
    | None => scope = "CLOUDFRONT"
    | Some named => In named waf_resource_types
    end.
Proof.
  unfold Boto3Wafv2.all_arns. cbn zeta. rewrite !in_app_iff. split.
  - intros [H | [H | [H | [H | [H | [H | H]]]]]];
      try (eexists (Some _); split; [exact H | cbn; tauto]).
    case_bool_decide as Hscope; [| destruct H].
    exists None. split; [exact H | exact Hscope].
  - intros ([named |] & H & Htype).
    + cbn in Htype.
      destruct Htype as [<- | [<- | [<- | [<- | [<- | [<- | []]]]]]]; tauto.
    + rewrite bool_decide_eq_true_2 by exact Htype. tauto.
Qed.

Lemma association_pairs_in (acls : list (WebACL.t * list string)) acl resource_arn :
  In (acl, resource_arn) (association_pairs acls) <->
  exists arns, In (acl, arns) acls /\ In resource_arn arns.
Proof.
  unfold association_pairs. rewrite in_flat_map. split.
  - intros ([acl' arns] & Hin & Hpair). apply in_map_iff in Hpair as (k & [= <- <-] & Hk).
    exists arns. split; assumption.
  - intros (arns & Hin & Hk). exists (acl, arns). split; [exact Hin |].
    apply in_map_iff. exists resource_arn. split; [reflexivity | exact Hk].
Qed.

(** The pairs of one listing are what WAFv2 reports for its scope and
    region. *)
Lemma listed_pairs_in (wafv2 : Wafv2) scope region acl resource_arn :
  In (acl, resource_arn)
    (association_pairs (Boto3Wafv2._list_web_acls_with_resources wafv2 scope region)) <->
  exists summaries acl_summary resource_type,
    wafv2_list_web_acls wafv2 region scope = Response summaries /\
    In acl_summary summaries /\
    acl = Boto3Wafv2.summary_acl scope region acl_summary /\
    In resource_arn
      (resource_arns (wafv2_list_resources_for_web_acl wafv2 region (WebACL.arn acl)
                        resource_type)) /\
    match resource_type with
    | None => scope = "CLOUDFRONT"
    | Some named => In named waf_resource_types
    end.
Proof.
  rewrite association_pairs_in. unfold Boto3Wafv2._list_web_acls_with_resources.
  destruct (wafv2_list_web_acls wafv2 region scope) as [summaries | msg].
  - split.
    + intros (arns & Hin & Hk).
      apply add_acl_summaries_in in Hin as [[] | (s & Hs & Hacl & -> & _)].
      apply all_arns_in in Hk as (resource_type & Hk & Htype).
      exists summaries, s, resource_type. repeat split; assumption.
    + intros (summaries' & s & resource_type & [= <-] & Hs & Hacl & Hk & Htype).
      exists (Boto3Wafv2.all_arns wafv2 scope region acl).
      assert (Hin : In resource_arn (Boto3Wafv2.all_arns wafv2 scope region acl))
        by (apply all_arns_in; exists resource_type; split; assumption).
      split; [| exact Hin].
      apply add_acl_summaries_in. right. exists s.
      split; [exact Hs |]. split; [exact Hacl |]. split; [reflexivity |].
      intros Hnil. rewrite Hnil in Hin. destruct Hin.
  - split.
    + intros (arns & [] & _).
    + intros (summaries & s & resource_type & Hresp & _). discriminate Hresp.
Qed.

Lemma reported_pairs (aws : AWS) (wafv2 : Wafv2) regions acl resource_arn :
  reported wafv2 regions acl resource_arn <->
  In (acl, resource_arn) (cloudfront_pairs (with_wafv2 aws wafv2)) \/
  In (acl, resource_arn) (regional_pairs (with_wafv2 aws wafv2) regions).
Proof.
  unfold cloudfront_pairs, regional_pairs, reported.
  cbn [_list_web_acls_with_resources with_wafv2]. rewrite in_flat_map. split.
  - intros (summaries & s & resource_type & Hwhere & Hresp & Hs & Hacl & Hk & Htype).
    destruct Hwhere as [[Hscope Hregion] | [Hscope Hregion]]; [left | right].
    + rewrite Hscope, Hregion in Hresp, Hacl. rewrite Hregion in Hk.
      apply listed_pairs_in. exists summaries, s, resource_type.
      repeat split; try assumption. destruct resource_type; [exact Htype | reflexivity].
    + exists (WebACL.region acl). split; [exact Hregion |].
      rewrite Hscope in Hresp, Hacl.
      apply listed_pairs_in. exists summaries, s, resource_type.
      repeat split; try assumption. destruct resource_type; [exact Htype |].
      rewrite Hscope in Htype. discriminate Htype.
  - intros [Hin | (region & Hregion & Hin)];
      apply listed_pairs_in in Hin
        as (summaries & s & resource_type & Hresp & Hs & Hacl & Hk & Htype);
      exists summaries, s, resource_type; subst acl;
      cbn [WebACL.scope WebACL.region WebACL.arn Boto3Wafv2.summary_acl] in *.
    + split; [left; split; reflexivity |].
      split; [exact Hresp |]. split; [exact Hs |]. split; [reflexivity |].
      split; [exact Hk |]. destruct resource_type; [exact Htype | reflexivity].
    + split; [right; split; [reflexivity | exact Hregion] |].
      split; [exact Hresp |]. split; [exact Hs |]. split; [reflexivity |].
      split; [exact Hk |]. destruct resource_type; [exact Htype | discriminate Htype].
Qed.

Lemma add_pairs_cloudfront_lookup (m : gmap string WebACL.t) pairs k acl :
  add_pairs Boto3AWSClient.add_cloudfront_association m pairs !! k = Some acl ->
  m !! k = Some acl \/ In (acl, k) pairs.
Proof.
  revert m. induction pairs as [| [acl' k'] pairs IH]; intros m H; [left; exact H |].
  cbn in H. apply IH in H as [H | H]; [| right; right; exact H].
  unfold Boto3AWSClient.add_cloudfront_association in H.
  destruct (decide (k' = k)) as [-> | Hne].
  - rewrite lookup_insert_eq in H. injection H as <-. right; left; reflexivity.
  - rewrite lookup_insert_ne in H by exact Hne. left; exact H.
Qed.

Lemma add_regional_lookup acl' (m : gmap string WebACL.t) k' k acl :
  Boto3AWSClient.add_regional_association acl' m k' !! k = Some acl ->
  m !! k = Some acl \/
  (acl = acl' /\ (k = k' \/ (is_rest_stage k' = true /\ k = parent_arn k'))).
Proof.
  unfold Boto3AWSClient.add_regional_association. fold (is_rest_stage k') (parent_arn k').
  assert (Hins : <[k' := acl']> m !! k = Some acl ->
                 m !! k = Some acl \/ (acl = acl' /\ k = k')).
  { destruct (decide (k' = k)) as [-> | Hne].
    - rewrite lookup_insert_eq. intros [= <-]. right. split; reflexivity.
    - rewrite lookup_insert_ne by exact Hne. intros H. left; exact H. }
  destruct (is_rest_stage k') eqn:Hstage.
  - destruct (<[k' := acl']> m !! parent_arn k') eqn:Hparent.
    + intros H. apply Hins in H as [H | [-> ->]]; [left; exact H | right].
      split; [reflexivity | left; reflexivity].
    + destruct (decide (parent_arn k' = k)) as [<- | Hne].
      * rewrite lookup_insert_eq. intros [= <-]. right.
        split; [reflexivity | right; split; reflexivity].
      * rewrite lookup_insert_ne by exact Hne.
        intros H. apply Hins in H as [H | [-> ->]]; [left; exact H | right].
        split; [reflexivity | left; reflexivity].
  - intros H. apply Hins in H as [H | [-> ->]]; [left; exact H | right].
    split; [reflexivity | left; reflexivity].
Qed.

Lemma add_pairs_regional_lookup (m : gmap string WebACL.t) pairs k acl :
  add_pairs Boto3AWSClient.add_regional_association m pairs !! k = Some acl ->
  m !! k = Some acl \/
  exists k', In (acl, k') pairs /\ (k = k' \/ (is_rest_stage k' = true /\ k = parent_arn k')).
Proof.
  revert m. induction pairs as [| [acl' k'] pairs IH]; intros m H; [left; exact H |].
  cbn in H. apply IH in H as [H | (k'' & Hin & Hk)].
  - apply add_regional_lookup in H as [H | [-> Hk]]; [left; exact H | right].
    exists k'. split; [left; reflexivity | exact Hk].
  - right. exists k''. split; [right; exact Hin | exact Hk].
Qed.

Lemma add_cloudfront_keeps_keys (m : gmap string WebACL.t) pairs k :
  is_Some (m !! k) ->
  is_Some (add_pairs Boto3AWSClient.add_cloudfront_association m pairs !! k).
Proof.
  revert m. induction pairs as [| [acl a] pairs IH]; intros m Hk; [exact Hk |].
  cbn. apply IH. unfold Boto3AWSClient.add_cloudfront_association.
  rewrite lookup_insert. case_decide; [eauto | exact Hk].
Qed.

Lemma add_pairs_cloudfront_key (m : gmap string WebACL.t) pairs acl k :
  In (acl, k) pairs ->
  is_Some (add_pairs Boto3AWSClient.add_cloudfront_association m pairs !! k).
Proof.
  intros Hin. apply in_split in Hin as (pre & post & ->).
  rewrite add_pairs_app, add_pairs_cons. apply add_cloudfront_keeps_keys.
  unfold Boto3AWSClient.add_cloudfront_association. rewrite lookup_insert_eq. eauto.
Qed.

Lemma add_pairs_regional_key (m : gmap string WebACL.t) pairs acl k :
  In (acl, k) pairs ->
  is_Some (add_pairs Boto3AWSClient.add_regional_association m pairs !! k).
Proof.
  intros Hin. apply in_split in Hin as (pre & post & ->).
  rewrite add_pairs_app, add_pairs_cons. apply add_pairs_keeps_keys.
  generalize (add_pairs Boto3AWSClient.add_regional_association m pre). intros m1.
  unfold Boto3AWSClient.add_regional_association.
  assert (Hins : <[k := acl]> m1 !! k = Some acl) by apply lookup_insert_eq.
  destruct (_ && _); [| eexists; exact Hins].
  destruct (<[k := acl]> m1 !! hd EmptyString (PyStr.split "/stages/" k)) eqn:Hparent;
    [eexists; exact Hins |].
  exists acl. rewrite lookup_insert_ne; [exact Hins |].
  intros Heq. rewrite Heq in Hparent. congruence.
Qed.

(** A policy WAFv2 reports a resource for is one [list_web_acls] returns for
    its scope and region. *)
Lemma reported_policy_listed (wafv2 : Wafv2) regions acl resource_arn :
  reported wafv2 regions acl resource_arn ->
  In acl (Boto3Wafv2.list_web_acls wafv2 (WebACL.scope acl) (WebACL.region acl)).
Proof.
  intros (summaries & s & resource_type & Hwhere & Hresp & Hs & Hacl & _).
  unfold Boto3Wafv2.list_web_acls.
  assert (Hregion : (if bool_decide (WebACL.scope acl = "CLOUDFRONT")
                     then "us-east-1" else WebACL.region acl) = WebACL.region acl).
  { destruct Hwhere as [[Hscope Hregion] | [Hscope _]].
    - rewrite bool_decide_eq_true_2 by exact Hscope. symmetry. exact Hregion.
    - rewrite bool_decide_eq_false_2; [reflexivity |]. rewrite Hscope. discriminate. }
  rewrite Hregion, Hresp. apply in_map_iff. exists s. split; [symmetry; exact Hacl | exact Hs].
Qed.

(** X15. The association index holds nothing WAFv2 did not report. With the
    policy listing built on the WAFv2 calls, a key of the index mapped to a
    policy is an identifier WAFv2 reported for that very policy, or the
    parent of a REST stage identifier reported for it in the regional scope;
    and the policy is one [list_web_acls] answered with, in the global scope
    from [us-east-1] or in the regional scope from one of the regions asked
    for. *)
Theorem association_index_sound (aws : AWS) (wafv2 : Wafv2) (regions : list string)
    (k : string) (acl : WebACL.t) :
  Boto3AWSClient.get_waf_associations_map (with_wafv2 aws wafv2) regions !! k = Some acl ->
  exists resource_arn,
    reported wafv2 regions acl resource_arn /\
    In acl (Boto3Wafv2.list_web_acls wafv2 (WebACL.scope acl) (WebACL.region acl)) /\
    (k = resource_arn \/
     (WebACL.scope acl = "REGIONAL" /\ is_rest_stage resource_arn = true /\
      k = parent_arn resource_arn)).
Proof.
  rewrite get_waf_associations_map_pairs. intros Hk.
  apply add_pairs_regional_lookup in Hk as [Hk | (k' & Hin & Hk)].
  - unfold global_pass in Hk.
    apply add_pairs_cloudfront_lookup in Hk as [Hk | Hin];
      [rewrite lookup_empty in Hk; discriminate Hk |].
    assert (Hrep : reported wafv2 regions acl k)
      by (apply (reported_pairs aws); left; exact Hin).
    exists k. split; [exact Hrep |].
    split; [exact (reported_policy_listed _ _ _ _ Hrep) | left; reflexivity].
  - exists k'. assert (Hrep : reported wafv2 regions acl k')
      by (apply (reported_pairs aws); right; exact Hin).
    split; [exact Hrep |]. split; [exact (reported_policy_listed _ _ _ _ Hrep) |].
    destruct Hk as [-> | [Hstage ->]]; [left; reflexivity | right].
    split; [| split; [exact Hstage | reflexivity]].
    unfold regional_pairs in Hin. apply in_flat_map in Hin as (region & _ & Hin).
    cbn [_list_web_acls_with_resources with_wafv2] in Hin.
    apply listed_pairs_in in Hin as (_ & s & _ & _ & _ & -> & _). reflexivity.
Qed.

Lemma association_index_sound_witness :
  exists resource_arn,
    reported small_wafv2 ["us-east-1"] policy1 resource_arn /\
    In policy1 (Boto3Wafv2.list_web_acls small_wafv2 (WebACL.scope policy1)
                  (WebACL.region policy1)) /\
    ("arn:aws:apigateway:us-east-1::/restapis/1jnx7rksc5" = resource_arn \/
     (WebACL.scope policy1 = "REGIONAL" /\ is_rest_stage resource_arn = true /\
      "arn:aws:apigateway:us-east-1::/restapis/1jnx7rksc5" = parent_arn resource_arn)).
Proof.
  apply (association_index_sound quiet_account small_wafv2 ["us-east-1"]). reflexivity.
Defined.

(** X16. The association index misses nothing WAFv2 reported. Every
    identifier reported for a listed policy is a key of the index, and so is
    the parent of every REST stage identifier reported in the regional
    scope; a call that raised [ClientError] counts as an empty answer and
    costs the other answers nothing. A resource the scan lists under such a
    key, other than a CloudFront distribution, gets a direct policy and the
    status COMPLIANT. *)
Theorem association_index_complete (aws : AWS) (wafv2 : Wafv2) (regions : list string)
    (acl : WebACL.t) (resource_arn : string) :
  reported wafv2 regions acl resource_arn ->
  let waf_map := Boto3AWSClient.get_waf_associations_map (with_wafv2 aws wafv2) regions in
  is_Some (waf_map !! resource_arn) /\
  (WebACL.scope acl = "REGIONAL" -> is_rest_stage resource_arn = true ->
   is_Some (waf_map !! parent_arn resource_arn)) /\
  (forall r,
     Resource.resource_type r <> ResourceType.CLOUDFRONT ->
     Resource.arn r = resource_arn \/
     (WebACL.scope acl = "REGIONAL" /\ is_rest_stage resource_arn = true /\
      Resource.arn r = parent_arn resource_arn) ->
     Resource.get_compliance_status (attach_direct waf_map r) = "COMPLIANT").
Proof.
  intros Hrep waf_map.
  assert (Hscope : WebACL.scope acl = "REGIONAL" ->
                   In (acl, resource_arn) (regional_pairs (with_wafv2 aws wafv2) regions)).
  { intros Hscope. apply (reported_pairs aws) in Hrep as [Hin | Hin]; [| exact Hin].
    unfold cloudfront_pairs in Hin. cbn [_list_web_acls_with_resources with_wafv2] in Hin.
    apply listed_pairs_in in Hin as (_ & s & _ & _ & _ & -> & _). discriminate Hscope. }
  assert (Hkey : is_Some (waf_map !! resource_arn)).
  { unfold waf_map. rewrite get_waf_associations_map_pairs.
    apply (reported_pairs aws) in Hrep as [Hin | Hin].
    - apply add_pairs_keeps_keys. unfold global_pass.
      apply (add_pairs_cloudfront_key _ _ acl), Hin.
    - apply (add_pairs_regional_key _ _ acl), Hin. }
  assert (Hparent : WebACL.scope acl = "REGIONAL" -> is_rest_stage resource_arn = true ->
                    is_Some (waf_map !! parent_arn resource_arn)).
  { intros Hregional Hstage. unfold waf_map. rewrite get_waf_associations_map_pairs.
    apply (add_pairs_stage_keys _ _ acl _ (Hscope Hregional) Hstage). }
  split; [exact Hkey |]. split; [exact Hparent |].
  intros r Htype Harn.
  assert (Hr : is_Some (waf_map !! Resource.arn r)).
  { destruct Harn as [-> | (Hregional & Hstage & ->)]; [exact Hkey | auto]. }
  destruct (attach_direct_found waf_map r Htype Hr) as [Hwaf _].
  unfold Resource.get_compliance_status. rewrite Hwaf. reflexivity.
Qed.

Lemma association_index_complete_witness :
  Boto3AWSClient.get_waf_associations_map (with_wafv2 quiet_account small_wafv2)
    ["us-east-1"; "eu-west-1"]
  = <[ "arn:aws:apigateway:us-east-1::/restapis/1jnx7rksc5" := policy1 ]>
      (<[ billing_stage_arn := policy1 ]>
         (<[ lb_LoadBalancerArn public_lb := policy1 ]>
            (<[ "arn:aws:cloudfront::123456789012:distribution/E2PROTECTED" := global_policy ]>
               ∅))) /\
  is_Some (Boto3AWSClient.get_waf_associations_map (with_wafv2 quiet_account small_wafv2)
             ["us-east-1"; "eu-west-1"] !! billing_stage_arn).
Proof.
  split; [reflexivity |].
  assert (Hreported : reported small_wafv2 ["us-east-1"; "eu-west-1"] policy1
                        billing_stage_arn).
  { eexists _, {| acl_ARN := WebACL.arn policy1; acl_Name := "first"; acl_Id := "1111";
                  acl_Description := None |}, (Some "API_GATEWAY").
    split; [right; split; [reflexivity | left; reflexivity] |].
    split; [reflexivity |]. split; [left; reflexivity |]. split; [reflexivity |].
    split; [left; reflexivity |]. cbn. tauto. }
  destruct (association_index_complete quiet_account small_wafv2 ["us-east-1"; "eu-west-1"]
              policy1 billing_stage_arn Hreported) as [Hkey _].
  exact Hkey.
Defined.

(** ** The CSV export *)

Lemma status_non_compliant (r : Resource.t) :
  bool_decide (Resource.get_compliance_status r = "NON_COMPLIANT")
  = negb (Resource.is_compliant r).
Proof.
  unfold Resource.get_compliance_status.
  destruct (Resource.has_waf r) eqn:Hwaf.
  - rewrite (has_waf_is_compliant r Hwaf). reflexivity.
  - destruct (Resource.truthy_waf (Resource.fronted_by_waf r)) eqn:Hfronted.
    + unfold Resource.is_compliant. rewrite Hwaf, Hfronted. reflexivity.
    + destruct (Resource.is_compliant r); reflexivity.
Qed.

Lemma writerows_resources (isoformat : datetime -> string) (rs : list Resource.t) :
  writerows CSVExporter._get_headers (map (CSVExporter._resource_to_row isoformat) rs)
  = Ok (map (fun r => map (fun key => rowdict_get (CSVExporter._resource_to_row isoformat r)
                                        key "")
                        CSVExporter._get_headers) rs).
Proof.
  induction rs as [| r rs IH]; [reflexivity |].
  cbn [map writerows]. rewrite IH. reflexivity.
Qed.

Lemma count_mapped {A B : Type} (f : A -> B) (p : B -> bool) (q : A -> bool) (l : list A) :
  (forall a, p (f a) = q a) ->
  length (List.filter p (map f l)) = length (List.filter q l).
Proof.
  intros Hpq. induction l as [| a l IH]; [reflexivity |].
  cbn [map List.filter]. rewrite Hpq. destruct (q a); cbn [length]; rewrite IH; reflexivity.
Qed.

(** X17. The CSV table agrees with the statistics of the scan result. The
    writer is handed the header and one record per resource, in order, and
    never refuses a row for a key outside the header; every record has a
    cell for each of the fourteen columns; the records with [Yes] under
    [Has WAF] are as many as [resources_with_waf], those with [No] as many
    as [resources_without_waf], and those with NON_COMPLIANT under
    [Compliance Status] as many as [non_compliant_resources]. *)
Theorem csv_records_match_statistics (isoformat : datetime -> string) (sr : ScanResult.t) :
  exists records,
    CSVExporter.written_records isoformat sr = Ok (CSVExporter._get_headers :: records) /\
    Z.of_nat (length records) = ScanResult.total_resources sr /\
    Forall (fun record => length record = length CSVExporter._get_headers) records /\
    map (cell "Resource ARN") records = map Resource.arn (ScanResult.resources sr) /\
    count_cells "Has WAF" "Yes" records = ScanResult.resources_with_waf sr /\
    count_cells "Has WAF" "No" records = ScanResult.resources_without_waf sr /\
    count_cells "Compliance Status" "NON_COMPLIANT" records
    = ScanResult.non_compliant_resources sr.
Proof.
  eexists. split.
  { unfold CSVExporter.written_records, CSVExporter._build_rows.
    rewrite writerows_resources. reflexivity. }
  unfold ScanResult.total_resources, ScanResult.resources_with_waf,
    ScanResult.resources_without_waf, ScanResult.non_compliant_resources, ScanResult.count,
    count_cells.
  split; [rewrite length_map; reflexivity |].
  split; [apply List.Forall_map, List.Forall_forall; intros r _; reflexivity |].
  split; [rewrite map_map; reflexivity |].
  split; [| split]; f_equal; apply count_mapped; intros r.
  - change (bool_decide ((if Resource.has_waf r then "Yes" else "No") = "Yes")
            = Resource.has_waf r).
    destruct (Resource.has_waf r); reflexivity.
  - change (bool_decide ((if Resource.has_waf r then "Yes" else "No") = "No")
            = negb (Resource.has_waf r)).
    destruct (Resource.has_waf r); reflexivity.
  - change (bool_decide (Resource.get_compliance_status r = "NON_COMPLIANT")
            = negb (Resource.is_compliant r)).
    apply status_non_compliant.
Qed.

(** ** The Lambda handler *)

Section HandlerProperties.

Variable rnd : Q -> Q.
Variable base_client : AWSClientPort.t.
Variable assume_role : string -> string -> option string -> result AWSClientPort.t.
Variable scan_start : string -> string * datetime.
Variable assume_role_name external_id : string.
Variable scan_regions : list string.

(** An entry of [all_results] reports the statistics of a scan result. *)
Lemma scan_account_entry (account_id : string) (entry : account_summary) :
  LambdaHandler.scan_account rnd base_client assume_role scan_start assume_role_name
    external_id scan_regions account_id = Ok entry ->
  exists sr,
    summary_account_id entry = ScanResult.account_id sr /\
    summary_total_resources entry = ScanResult.total_resources sr /\
    summary_resources_with_waf entry = ScanResult.resources_with_waf sr /\
    summary_resources_without_waf entry = ScanResult.resources_without_waf sr /\
    ScanResult.get_compliance_rate rnd sr = Ok (summary_compliance_rate entry) /\
    summary_errors_count entry = length (ScanResult.errors sr).
Proof.
  unfold LambdaHandler.scan_account.
  destruct (if bool_decide (account_id = "local") then _ else _) as [aws_client |];
    [| discriminate].
  cbn [mbind result_bind].
  destruct (ScannerService.scan aws_client _ _ _ _ _) as [sr |]; [| discriminate].
  cbn [mbind result_bind].
  destruct (ScanResult.get_compliance_rate rnd sr) as [rate |] eqn:Hrate; [| discriminate].
  cbn. intros [= <-]. exists sr. cbn. repeat split; try reflexivity. exact Hrate.
Qed.

Lemma scan_targets_state (accounts : list string) res0 errs0 res errs :
  fold_left
    (LambdaHandler.scan_target rnd base_client assume_role scan_start assume_role_name
       external_id scan_regions)
    accounts (res0, errs0) = (res, errs) ->
  exists res' errs',
    res = (res0 ++ res')%list /\ errs = (errs0 ++ errs')%list /\
    length res' + length errs' = length accounts /\
    Forall (fun entry => exists account_id,
              In account_id accounts /\
              LambdaHandler.scan_account rnd base_client assume_role scan_start
                assume_role_name external_id scan_regions account_id = Ok entry) res' /\
    Forall (fun failure =>
              In (failure_account_id failure) accounts /\
              exists e,
                LambdaHandler.scan_account rnd base_client assume_role scan_start
                  assume_role_name external_id scan_regions (failure_account_id failure)
                = Raise e /\
                failure_error failure = exn_str e) errs'.
Proof.
  revert res0 errs0. induction accounts as [| a accounts IH]; intros res0 errs0 H.
  - injection H as <- <-. exists [], []. rewrite !app_nil_r. repeat split; constructor.
  - cbn [fold_left] in H. unfold LambdaHandler.scan_target at 2 in H.
    destruct (LambdaHandler.scan_account rnd base_client assume_role scan_start
                assume_role_name external_id scan_regions a) as [entry | e] eqn:Hscan;
      apply IH in H as (res' & errs' & -> & -> & Hlen & Hres & Herrs).
    + exists (entry :: res'), errs'. rewrite <- app_assoc.
      split; [reflexivity |]. split; [reflexivity |]. split; [cbn; lia |]. split.
      * constructor; [exists a; split; [left; reflexivity | exact Hscan] |].
        eapply List.Forall_impl; [| exact Hres].
        intros entry' (a' & Hin & Ha'). exists a'. split; [right; exact Hin | exact Ha'].
      * eapply List.Forall_impl; [| exact Herrs].
        intros failure [Hin Hf]. split; [right; exact Hin | exact Hf].
    + exists res', ({| failure_account_id := a; failure_error := exn_str e |} :: errs').
      rewrite <- app_assoc.
      split; [reflexivity |]. split; [reflexivity |]. split; [cbn; lia |]. split.
      * eapply List.Forall_impl; [| exact Hres].
        intros entry' (a' & Hin & Ha'). exists a'. split; [right; exact Hin | exact Ha'].
      * constructor; [split; [left; reflexivity | exists e; split; [exact Hscan | reflexivity]] |].
        eapply List.Forall_impl; [| exact Herrs].
        intros failure [Hin Hf]. split; [right; exact Hin | exact Hf].
Qed.

End HandlerProperties.

Lemma sum_of_from (field : account_summary -> Z) (l : list account_summary) (a : Z) :
  fold_left (fun total r => (total + field r)%Z) l a = (a + sum_of field l)%Z.
Proof.
  unfold sum_of. revert a. induction l as [| r l IH]; intros a; cbn [fold_left]; [lia |].
  rewrite (IH (a + field r)%Z), (IH (0 + field r)%Z). lia.
Qed.

Lemma sum_of_cons (field : account_summary -> Z) r (l : list account_summary) :
  sum_of field (r :: l) = (field r + sum_of field l)%Z.
Proof. unfold sum_of at 1. cbn [fold_left]. rewrite sum_of_from. lia. Qed.

(** The totals of entries that each split into protected and unprotected. *)
Lemma sum_of_partition (l : list account_summary) :
  Forall (fun entry =>
            (summary_total_resources entry
             = summary_resources_with_waf entry + summary_resources_without_waf entry /\
             0 <= summary_resources_with_waf entry /\
             0 <= summary_resources_without_waf entry)%Z) l ->
  (sum_of summary_total_resources l
   = sum_of summary_resources_with_waf l + sum_of summary_resources_without_waf l /\
   0 <= sum_of summary_resources_with_waf l /\
   0 <= sum_of summary_resources_without_waf l)%Z.
Proof.
  induction 1 as [| entry l (Htotal & Hwith & Hwithout) _ IH]; [cbn; lia |].
  rewrite !sum_of_cons. lia.
Qed.

Lemma entry_partition (sr : ScanResult.t) :
  (ScanResult.total_resources sr
   = ScanResult.resources_with_waf sr + ScanResult.resources_without_waf sr /\
   0 <= ScanResult.resources_with_waf sr /\ 0 <= ScanResult.resources_without_waf sr)%Z.
Proof.
  unfold ScanResult.resources_with_waf, ScanResult.resources_without_waf,
    ScanResult.total_resources, ScanResult.count.
  pose proof (filter_negb_length Resource.has_waf (ScanResult.resources sr)). lia.
Qed.

(** The response of the handler, from the state its loop ends in. *)
Lemma handler_response (rnd : Q -> Q) base_client assume_role scan_start
    (target_accounts : list string) assume_role_name external_id scan_regions :
  exists res errs,
    fold_left
      (LambdaHandler.scan_target rnd base_client assume_role scan_start assume_role_name
         external_id scan_regions)
      (match target_accounts with [] => ["local"] | _ => target_accounts end) ([], [])
    = (res, errs) /\
    LambdaHandler.handler rnd base_client assume_role scan_start target_accounts
      assume_role_name external_id scan_regions
    = Ok {| statusCode := match errs with [] => 200 | _ => 207 end;
            body :=
              {| accounts_scanned := length res;
                 accounts_failed := length errs;
                 body_total_resources := sum_of summary_total_resources res;
                 body_resources_with_waf := sum_of summary_resources_with_waf res;
                 body_resources_without_waf := sum_of summary_resources_without_waf res;
                 overall_compliance_rate :=
                   if (0 <? sum_of summary_total_resources res)%Z
                   then float_mul rnd
                          (rnd (inject_Z (sum_of summary_resources_with_waf res)
                                / inject_Z (sum_of summary_total_resources res))%Q)
                          (100 # 1)
                   else (100 # 1)%Q;
                 results_by_account := res;
                 body_errors := errs |} |}.
Proof.
  unfold LambdaHandler.handler.
  destruct (fold_left _ _ _) as [res errs]. exists res, errs. split; [reflexivity |].
  unfold truediv.
  destruct (0 <? sum_of summary_total_resources res)%Z eqn:Hpos; [| reflexivity].
  apply Z.ltb_lt in Hpos.
  destruct (sum_of summary_total_resources res =? 0)%Z eqn:Hzero;
    [apply Z.eqb_eq in Hzero; lia | reflexivity].
Qed.

(** X18. The handler always answers, and its response accounts for every
    target: each account asked for (the local account when none is) is
    either among the scanned accounts or among the failed ones, whose
    identifiers are targets; the status code is 200 when no account failed
    and 207 otherwise; the resource total is the sum of the protected and
    the unprotected totals; and the overall rate lies between 0 and 100. An
    exception of a scan, of a refused role or of anything else inside the
    loop never leaves the handler. *)
Theorem handler_accounts_for_every_target (rnd : Q -> Q) base_client assume_role scan_start
    (target_accounts : list string) assume_role_name external_id scan_regions :
  float_rounding rnd ->
  exists resp,
    LambdaHandler.handler rnd base_client assume_role scan_start target_accounts
      assume_role_name external_id scan_regions = Ok resp /\
    accounts_scanned (body resp) = length (results_by_account (body resp)) /\
    accounts_failed (body resp) = length (body_errors (body resp)) /\
    accounts_scanned (body resp) + accounts_failed (body resp)
    = Nat.max 1 (length target_accounts) /\
    ((statusCode resp = 200%Z /\ accounts_failed (body resp) = 0) \/
     (statusCode resp = 207%Z /\ 0 < accounts_failed (body resp))) /\
    Forall (fun failure =>
              In (failure_account_id failure)
                (match target_accounts with [] => ["local"] | _ => target_accounts end))
      (body_errors (body resp)) /\
    (body_total_resources (body resp)
     = body_resources_with_waf (body resp) + body_resources_without_waf (body resp))%Z /\
    (0 <= body_resources_with_waf (body resp))%Z /\
    (0 <= body_resources_without_waf (body resp))%Z /\
    (0 <= overall_compliance_rate (body resp))%Q /\
    (overall_compliance_rate (body resp) <= 100 # 1)%Q.
Proof.
  intros Hrnd.
  destruct (handler_response rnd base_client assume_role scan_start target_accounts
              assume_role_name external_id scan_regions) as (res & errs & Hfold & ->).
  eexists. split; [reflexivity |].
  cbn [body statusCode accounts_scanned accounts_failed results_by_account body_errors
       body_total_resources body_resources_with_waf body_resources_without_waf
       overall_compliance_rate].
  apply scan_targets_state in Hfold as (res' & errs' & -> & -> & Hlen & Hres & Herrs).
  cbn [app] in *.
  assert (Hsums : (sum_of summary_total_resources res'
                   = sum_of summary_resources_with_waf res'
                     + sum_of summary_resources_without_waf res' /\
                   0 <= sum_of summary_resources_with_waf res' /\
                   0 <= sum_of summary_resources_without_waf res')%Z).
  { apply sum_of_partition. eapply List.Forall_impl; [| exact Hres].
    intros entry (account_id & _ & Hentry).
    apply scan_account_entry in Hentry as (sr & _ & -> & -> & -> & _).
    apply entry_partition. }
  split; [reflexivity |]. split; [reflexivity |].
  split; [rewrite Hlen; destruct target_accounts; cbn [length]; lia |].
  split; [destruct errs'; [left | right]; split; cbn [length]; try reflexivity; lia |].
  split; [eapply List.Forall_impl; [| exact Herrs]; intros failure [Hin _]; exact Hin |].
  split; [apply Hsums |]. split; [apply Hsums |]. split; [apply Hsums |].
  destruct (0 <? sum_of summary_total_resources res')%Z eqn:Hpos;
    [| split; discriminate].
  apply Z.ltb_lt in Hpos. apply percentage_bounds; [exact Hrnd | lia | exact Hpos].
Qed.

Lemma handler_accounts_for_every_target_witness :
  exists resp,
    LambdaHandler.handler round_down_1024 (boto3_client failing_account) member_roles
      (fun _ => ("scan-1", 0)) ["111122223333"; "999999999999"; "local"]
      "PerimeterGuardScanRole" "" ["us-east-1"] = Ok resp /\
    accounts_scanned (body resp) + accounts_failed (body resp) = 3 /\
    (0 <= overall_compliance_rate (body resp))%Q.
Proof.
  destruct (handler_accounts_for_every_target round_down_1024 (boto3_client failing_account)
              member_roles (fun _ => ("scan-1", 0)) ["111122223333"; "999999999999"; "local"]
              "PerimeterGuardScanRole" "" ["us-east-1"] round_down_1024_rounding)
    as (resp & Hresp & _ & _ & Hsum & _ & _ & _ & _ & _ & Hrate & _).
  exists resp. split; [exact Hresp |]. split; [exact Hsum | exact Hrate].
Defined.

Lemma rnd_zero_quotient (rnd : Q -> Q) (total : Z) :
  float_rounding rnd ->
  (float_mul rnd (rnd (inject_Z 0 / inject_Z total)) (100 # 1) == 0)%Q.
Proof.
  intros [Hmono H0 _ _]. unfold float_mul.
  assert (Hproper : forall x y : Q, (x == y)%Q -> (rnd x == rnd y)%Q).
  { intros x y Hxy. apply Qle_antisym; apply Hmono; rewrite Hxy; apply Qle_refl. }
  assert (Hq : (rnd (inject_Z 0 / inject_Z total) == 0)%Q).
  { transitivity (rnd 0%Q); [| exact H0]. apply Hproper. unfold Qdiv. apply Qmult_0_l. }
  transitivity (rnd 0%Q); [| exact H0]. apply Hproper. rewrite Hq. apply Qmult_0_l.
Qed.

(** X19. The overall rate of the response counts direct policies only. When
    the scanned accounts have resources and none has a direct policy the
    overall rate is 0, whatever the accounts' own compliance rates; and with
    a single scanned account the overall rate is at most the compliance rate
    reported for that account. *)
Theorem overall_rate_counts_direct_policies (rnd : Q -> Q) base_client assume_role scan_start
    (target_accounts : list string) assume_role_name external_id scan_regions
    (resp : response) :
  float_rounding rnd ->
  LambdaHandler.handler rnd base_client assume_role scan_start target_accounts
    assume_role_name external_id scan_regions = Ok resp ->
  ((0 < body_total_resources (body resp))%Z ->
   body_resources_with_waf (body resp) = 0%Z ->
   (overall_compliance_rate (body resp) == 0)%Q) /\
  (forall entry,
     results_by_account (body resp) = [entry] ->
     (overall_compliance_rate (body resp) <= summary_compliance_rate entry)%Q).
Proof.
  intros Hrnd Hresp.
  destruct (handler_response rnd base_client assume_role scan_start target_accounts
              assume_role_name external_id scan_regions) as (res & errs & Hfold & Hok).
  rewrite Hok in Hresp. injection Hresp as <-.
  cbn [body overall_compliance_rate body_total_resources body_resources_with_waf
       results_by_account].
  split.
  - intros Hpos Hnone. apply Z.ltb_lt in Hpos. rewrite Hpos, Hnone.
    apply rnd_zero_quotient, Hrnd.
  - intros entry ->.
    apply scan_targets_state in Hfold as (res' & errs' & Hres' & _ & _ & Hres & _).
    cbn [app] in Hres'. subst res'.
    apply List.Forall_inv in Hres as (account_id & _ & Hentry).
    apply scan_account_entry in Hentry as (sr & _ & Htotal & Hwith & _ & Hrate & _).
    rewrite !sum_of_cons. unfold sum_of. cbn [fold_left]. rewrite !Z.add_0_r.
    rewrite Htotal, Hwith.
    unfold ScanResult.get_compliance_rate, truediv in Hrate.
    destruct (ScanResult.total_resources sr =? 0)%Z eqn:Hzero.
    + apply Z.eqb_eq in Hzero. rewrite Hzero. cbn [Z.ltb Z.compare].
      injection Hrate as <-. apply Qle_refl.
    + apply Z.eqb_neq in Hzero. cbn in Hrate. injection Hrate as <-.
      destruct (statistics_partition_aux sr) as (Hw & Hc & Hwc).
      assert (Hpos : (0 < ScanResult.total_resources sr)%Z) by lia.
      apply Z.ltb_lt in Hpos as Hltb. rewrite Hltb.
      apply percentage_monotone; [exact Hrnd | exact Hwc | exact Hpos].
Qed.

Lemma overall_rate_counts_direct_policies_witness :
  exists resp entry,
    LambdaHandler.handler round_down_1024 (boto3_client failing_account) member_roles
      (fun _ => ("scan-1", 0)) ["111122223333"] "PerimeterGuardScanRole" "" ["us-east-1"]
    = Ok resp /\
    results_by_account (body resp) = [entry] /\
    (overall_compliance_rate (body resp) == 0)%Q /\
    (overall_compliance_rate (body resp) <= summary_compliance_rate entry)%Q.
Proof.
  do 2 eexists. split; [vm_compute; reflexivity |]. split; [reflexivity |].
  match goal with
  | |- (overall_compliance_rate (body ?resp) == 0)%Q /\ _ =>
      destruct (overall_rate_counts_direct_policies round_down_1024
                  (boto3_client failing_account) member_roles (fun _ => ("scan-1", 0))
                  ["111122223333"] "PerimeterGuardScanRole" "" ["us-east-1"] resp
                  round_down_1024_rounding) as [Hzero Hbelow]
  end.
  - vm_compute; reflexivity.
  - split; [apply Hzero; reflexivity | apply Hbelow; reflexivity].
Defined.

(** ** The two readers of a distribution's policy identifier *)

Lemma _parse_waf_arn_fields (waf_arn : string) (acl : WebACL.t) :
  Boto3AWSClient._parse_waf_arn waf_arn = Ok (Some acl) ->
  3 <= length (PyStr.split "/" waf_arn) /\
  list_get (PyStr.split "/" waf_arn) (-2) = Ok (WebACL.name acl) /\
  list_get (PyStr.split "/" waf_arn) (-1) = Ok (WebACL.id acl) /\
  WebACL.arn acl = waf_arn.
Proof.
  unfold Boto3AWSClient._parse_waf_arn, try_except.
  case_bool_decide as Hlen; [| discriminate].
  destruct (list_get (PyStr.split "/" waf_arn) (-2)) as [n | e1] eqn:H1; cbn;
    [| apply list_get_raises_index_error in H1; subst e1; discriminate].
  destruct (list_get (PyStr.split "/" waf_arn) (-1)) as [u | e2] eqn:H2; cbn;
    [| apply list_get_raises_index_error in H2; subst e2; discriminate].
  destruct (list_get (PyStr.split ":" waf_arn) 5) as [p | e3] eqn:H3; cbn;
    [| apply list_get_raises_index_error in H3; subst e3; discriminate].
  destruct (list_get (PyStr.split ":" waf_arn) 3) as [g | e4] eqn:H4; cbn;
    [| apply list_get_raises_index_error in H4; subst e4; discriminate].
  intros [= <-]. cbn. repeat split; [exact Hlen | reflexivity..].
Qed.

(** X20. A distribution whose policy the origin index credits is listed
    with that policy. When [get_distribution] answers for a distribution and
    the origin index reads a policy off its [WebACLId], the enumeration of
    distributions gives the same distribution a direct policy with the same
    identifier, name and id, in the global scope whatever the identifier
    says, and so the status COMPLIANT. *)
Theorem fronting_policy_is_direct_policy (aws : AWS) (dist : DistributionItem)
    (config : DistributionConfig) (acl : WebACL.t) (r : Resource.t) :
  cloudfront_get_distribution aws (item_Id dist) = Response config ->
  Boto3AWSClient.distribution_web_acl config = Ok (Some acl) ->
  Boto3Listing.cloudfront_resource aws dist = Ok (Some r) ->
  Resource.web_acl r =
    Some (WebACL.mk (WebACL.arn acl) (WebACL.name acl) (WebACL.id acl) "CLOUDFRONT"
            "us-east-1" None false) /\
  Resource.get_compliance_status r = "COMPLIANT".
Proof.
  intros Hconfig Hacl. unfold Boto3AWSClient.distribution_web_acl in Hacl.
  case_bool_decide as Hempty; [discriminate Hacl |].
  apply _parse_waf_arn_fields in Hacl as (Hlen & Hname & Hid & Harn).
  unfold Boto3Listing.cloudfront_resource. rewrite Hconfig.
  unfold Boto3Listing.distribution_policy.
  rewrite (bool_decide_eq_false_2 _ Hempty), (bool_decide_eq_true_2 _ Hlen), Hname.
  cbn [mbind result_bind]. rewrite Hid. cbn [mbind result_bind mret result_ret].
  destruct (Boto3Listing.account_of_arn (item_ARN dist)); [| discriminate].
  cbn. intros [= <-]. rewrite Harn. split; reflexivity.
Qed.

Lemma fronting_policy_is_direct_policy_witness :
  exists r,
    Boto3Listing.cloudfront_resource cdn_account
      {| item_ARN := "arn:aws:cloudfront::123456789012:distribution/E2PROTECTED";
         item_Id := "E2PROTECTED"; item_DomainName := Some "d2.cloudfront.net" |}
    = Ok (Some r) /\
    Resource.get_compliance_status r = "COMPLIANT".
Proof.
  eexists. split; [reflexivity |].
  eapply (fronting_policy_is_direct_policy cdn_account
            {| item_ARN := "arn:aws:cloudfront::123456789012:distribution/E2PROTECTED";
               item_Id := "E2PROTECTED"; item_DomainName := Some "d2.cloudfront.net" |}
            {| WebACLId := global_policy_arn; Origins := [api_host] |} global_policy);
    reflexivity.
Defined.

(** The converse fails: an identifier with two [/] and no [:] gives the
    listed distribution a policy and the origin index none. *)
Example listed_policy_without_fronting_policy :
  Boto3AWSClient._parse_waf_arn "a/b/c" = Ok None /\
  Boto3Listing.distribution_policy "a/b/c"
  = Ok (Some (WebACL.mk "a/b/c" "b" "c" "CLOUDFRONT" "us-east-1" None false)).
Proof. split; reflexivity. Qed.
